(** * recipe_sharing: engagement, social graph, comment tree, notifications
      and discovery, as a shallow embedding of the Express/Mongoose controllers.

    Conventions of the embedding.
    - A Mongo collection is a finite map from [_id] to document ([gmap]);
      array fields of a document are lists, in array order.
    - An ObjectId is the 24-digit string the controllers compare
      ([x.toString() === userId]); ids in request parameters and in
      [req.user.id] are in that printed form.
    - A controller is a computation over the store that either returns its
      JSON payload or throws; writes made before a throw stay in the store
      (there are no transactions in the source).
    - JavaScript numbers are exact: integers are [Z], quotients are [Q]. A
      rating value is a whole number, as the rating validation schema asks.
    - What Mongoose and the JavaScript runtime decide on their own (schema
      validation of a new notification, regular-expression matching,
      [parseInt], the order a sorted cursor yields) is a parameter of the
      section that uses it, so every theorem holds for each behaviour.
    - The notification schema is also embedded as it is written
      ([notificationSchema]: required paths, enum, trim and maxlength); the
      theorems that read it name it. A date is its time value in
      milliseconds. *)

From Stdlib Require Import ZArith QArith Qround Lqa Lia.
From stdpp Require Import gmap strings list fin_maps.

Abbreviation ObjectId := string (only parsing).
Definition Date : Type := Z.

(** ** Documents *)

(** [ratingSchema] of recipe-schema.model.ts (an embedded document). *)
Module Rating.
Record t : Type := mk {
  userId : ObjectId;
  rating : Z;
  review : option string;
  createdAt : Date
}.
End Rating.

(** [recipeSchema]: the fields the controllers below read or write. *)
Module Recipe.
Record t : Type := mk {
  title : string;
  description : string;
  author : ObjectId;
  ingredients : list string;          (* ingredients[].name *)
  cuisineType : string;
  mealType : list string;
  dietaryRestrictions : list string;
  tags : list string;
  difficulty : string;
  cookTime : Z;
  views : Z;
  likes : list ObjectId;
  ratings : list Rating.t;
  isPublic : bool;
  isPublished : bool
}.

Definition with_ratings (rs : list Rating.t) (r : t) : t :=
  mk (title r) (description r) (author r) (ingredients r) (cuisineType r)
     (mealType r) (dietaryRestrictions r) (tags r) (difficulty r)
     (cookTime r) (views r) (likes r) rs (isPublic r) (isPublished r).

Definition with_likes (ls : list ObjectId) (r : t) : t :=
  mk (title r) (description r) (author r) (ingredients r) (cuisineType r)
     (mealType r) (dietaryRestrictions r) (tags r) (difficulty r)
     (cookTime r) (views r) ls (ratings r) (isPublic r) (isPublished r).
End Recipe.

(** [commentSchema] of comment.model.ts; [parentComment] defaults to null. *)
Module Comment.
Record t : Type := mk {
  content : string;
  author : ObjectId;
  recipe : ObjectId;
  parentComment : option ObjectId;
  likes : list ObjectId;
  isEdited : bool;
  editedAt : option Date
}.

Definition with_likes (ls : list ObjectId) (c : t) : t :=
  mk (content c) (author c) (recipe c) (parentComment c) ls
     (isEdited c) (editedAt c).
End Comment.

(** [userSchema]: the social-graph fields. *)
Module User.
Record t : Type := mk {
  username : string;
  following : list ObjectId;
  followers : list ObjectId;
  favoriteRecipes : list ObjectId
}.

Definition with_following (l : list ObjectId) (u : t) : t :=
  mk (username u) l (followers u) (favoriteRecipes u).
Definition with_followers (l : list ObjectId) (u : t) : t :=
  mk (username u) (following u) l (favoriteRecipes u).
Definition with_favoriteRecipes (l : list ObjectId) (u : t) : t :=
  mk (username u) (following u) (followers u) l.
End User.

(** The object literal the controllers hand to [Notification.create]. *)
Module Notification.
Record t : Type := mk {
  recipient : ObjectId;
  sender : ObjectId;
  type : string;
  message : string;
  relatedRecipe : option ObjectId;
  relatedComment : option ObjectId
}.
End Notification.

(** ** The store and the controller monad *)

Record Store : Type := mkStore {
  users : gmap ObjectId User.t;
  recipes : gmap ObjectId Recipe.t;
  comments : gmap ObjectId Comment.t;
  notifications : list Notification.t
}.

Definition with_users (f : gmap ObjectId User.t → gmap ObjectId User.t) (s : Store) : Store :=
  mkStore (f (users s)) (recipes s) (comments s) (notifications s).
Definition with_recipes (f : gmap ObjectId Recipe.t → gmap ObjectId Recipe.t) (s : Store) : Store :=
  mkStore (users s) (f (recipes s)) (comments s) (notifications s).
Definition with_comments (f : gmap ObjectId Comment.t → gmap ObjectId Comment.t) (s : Store) : Store :=
  mkStore (users s) (recipes s) (f (comments s)) (notifications s).
Definition with_notifications (f : list Notification.t → list Notification.t) (s : Store) : Store :=
  mkStore (users s) (recipes s) (comments s) (f (notifications s)).

(** Error classes of error.middleware, and the two failures that come from
    below the controllers: a document rejected by its Mongoose schema and a
    command rejected by the MongoDB server. *)
Inductive ErrorKind : Type :=
  | NotFoundError
  | ValidationError
  | AuthorizationError
  | ConflictError
  | MongooseValidationError
  | MongoServerError.

Record AppError : Type := mkError { kind : ErrorKind; reason : string }.

#[global] Instance ErrorKind_eq_dec : EqDecision ErrorKind.
Proof. solve_decision. Defined.

Definition M (A : Type) : Type := Store → Store * (AppError + A).

Definition ret {A} (a : A) : M A := λ s, (s, inr a).
Definition throw {A} (k : ErrorKind) (msg : string) : M A := λ s, (s, inl (mkError k msg)).
Definition bind {A B} (m : M A) (k : A → M B) : M B :=
  λ s, match m s with
       | (s', inr a) => k a s'
       | (s', inl e) => (s', inl e)
       end.
Definition gets {A} (f : Store → A) : M A := λ s, (s, inr (f s)).
Definition modify (f : Store → Store) : M unit := λ s, (f s, inr tt).
Definition when (b : bool) (m : M unit) : M unit := if b then m else ret tt.

Notation "'let*' x ':=' m 'in' k" := (bind m (λ x, k))
  (at level 10, x name, m at level 100, k at level 200).
Notation "m ';;' k" := (bind m (λ _, k))
  (at level 100, k at level 200, right associativity).

(** The store after a request, and what the request answered. *)
Definition after {A} (m : M A) (s : Store) : Store := (m s).1.
Definition answer {A} (m : M A) (s : Store) : AppError + A := (m s).2.

(** JavaScript's [===] on two id strings. *)
Definition same (a b : ObjectId) : bool := bool_decide (a = b).

(** Truthiness of an optional string: [undefined] and [''] are falsy. *)
Definition truthy (o : option string) : bool :=
  match o with
  | Some s => negb (bool_decide (s = EmptyString))
  | None => false
  end.

(** [Array.prototype.findIndex]: the first index whose element passes, or
    [None] for -1. *)
Definition findIndex {A} (p : A → bool) (l : list A) : option nat :=
  fst <$> list_find (λ x, p x = true) l.

(** ** Rating & engagement: derived aggregates (recipe-methods.model.ts) *)

(** [Math.round]: nearest integer, ties toward +infinity. *)
Definition Math_round (q : Q) : Z := Qfloor (q + (1 # 2)).

(** [Math.ceil]. *)
Definition Math_ceil (q : Q) : Z := Qceiling q.

(** [this.ratings.reduce((acc, rating) => acc + rating.rating, 0)] *)
Definition ratings_sum (rs : list Rating.t) : Z :=
  foldl (λ acc r, acc + Rating.rating r)%Z 0%Z rs.

(** The virtual [averageRating]: a getter over the ratings array, with no
    stored path behind it. *)
Definition averageRating (r : Recipe.t) : Q :=
  if bool_decide (length (Recipe.ratings r) = 0) then 0
  else
    let sum := ratings_sum (Recipe.ratings r) in
    inject_Z (Math_round
      ((inject_Z sum / inject_Z (Z.of_nat (length (Recipe.ratings r)))) * 10)) / 10.

(** The virtuals [ratingsCount] and [likesCount]. *)
Definition ratingsCount (r : Recipe.t) : Z := Z.of_nat (length (Recipe.ratings r)).
Definition likesCount (r : Recipe.t) : Z := Z.of_nat (length (Recipe.likes r)).

(** ** Model-layer primitives (Mongoose calls the controllers make) *)

Definition Recipe_findById (id : ObjectId) : M (option Recipe.t) :=
  gets (λ s, recipes s !! id).
Definition Recipe_save (id : ObjectId) (r : Recipe.t) : M unit :=
  modify (with_recipes <[id := r]>).
Definition Recipe_findByIdAndDelete (id : ObjectId) : M unit :=
  modify (with_recipes (delete id)).

Definition Comment_findById (id : ObjectId) : M (option Comment.t) :=
  gets (λ s, comments s !! id).
Definition Comment_save (id : ObjectId) (c : Comment.t) : M unit :=
  modify (with_comments <[id := c]>).
Definition Comment_findByIdAndDelete (id : ObjectId) : M unit :=
  modify (with_comments (delete id)).

(** [Comment.create]: the driver draws the new [_id]; inserting under an
    [_id] already in the collection is a duplicate-key error. *)
Definition Comment_create (newId : ObjectId) (c : Comment.t) : M unit :=
  let* old := Comment_findById newId in
  match old with
  | Some _ => throw MongoServerError "E11000 duplicate key error"
  | None => modify (with_comments <[newId := c]>)
  end.

(** [Comment.deleteMany({ parentComment: id })] *)
Definition Comment_deleteMany_parentComment (id : ObjectId) : M unit :=
  modify (with_comments (filter (λ kc, Comment.parentComment kc.2 ≠ Some id))).

(** [Comment.deleteMany({ recipe: id })] *)
Definition Comment_deleteMany_recipe (id : ObjectId) : M unit :=
  modify (with_comments (filter (λ kc, Comment.recipe kc.2 ≠ id))).

(** [Comment.find({ parentComment: id })], the query of [findReplies] and
    [getCommentReplies]. *)
Definition Comment_find_parentComment (id : ObjectId) (s : Store) : list (ObjectId * Comment.t) :=
  map_to_list (filter (λ kc, Comment.parentComment kc.2 = Some id) (comments s)).

(** [Comment.find({ recipe: id })] *)
Definition Comment_find_recipe (id : ObjectId) (s : Store) : list (ObjectId * Comment.t) :=
  map_to_list (filter (λ kc, Comment.recipe kc.2 = id) (comments s)).

Definition User_findById (id : ObjectId) : M (option User.t) :=
  gets (λ s, users s !! id).

(** [$addToSet] and [$pull] on an array of ids. *)
Definition addToSet (x : ObjectId) (l : list ObjectId) : list ObjectId :=
  if bool_decide (x ∈ l) then l else l ++ [x].
Definition pull (x : ObjectId) (l : list ObjectId) : list ObjectId :=
  filter (λ y, y ≠ x) l.

(** [User.findByIdAndUpdate(id, update)]: a missing id updates nothing. *)
Definition User_findByIdAndUpdate (id : ObjectId) (f : User.t → User.t) : M unit :=
  modify (with_users (alter f id)).

(** [User.updateMany({ favoriteRecipes: r }, { $pull: { favoriteRecipes: r } })] *)
Definition User_updateMany_pull_favorite (r : ObjectId) : M unit :=
  modify (with_users (fmap (λ u,
    if bool_decide (r ∈ User.favoriteRecipes u)
    then User.with_favoriteRecipes (pull r (User.favoriteRecipes u)) u
    else u))).

(** ** Controllers that write *)

(** The double-quote character of the message templates. *)
Definition dquote : string := String (Ascii.ascii_of_nat 34) EmptyString.
Definition quoted (s : string) : string := dquote +:+ s +:+ dquote.

(** Response payloads ([data] of the JSON body). *)
Record RateData : Type := mkRateData { rd_averageRating : Q; rd_totalRatings : Z }.
Record LikeData : Type := mkLikeData { ld_isLiked : bool; ld_likesCount : Z }.

Section Controllers.

(** Whether Mongoose's validation of [notificationSchema] lets a new
    document through; a rejected document makes [Notification.create]
    throw. *)
Context (schemaAccepts : Notification.t → bool).

Definition Notification_create (n : Notification.t) : M unit :=
  if schemaAccepts n
  then modify (with_notifications (λ l, l ++ [n]))
  else throw MongooseValidationError "Notification validation failed".

(** *** recipe-engagement.controller.ts *)

Definition rateRecipe (userId recipeId : ObjectId) (rating : Z) (now : Date)
  : M RateData :=
  if bool_decide (rating = 0%Z) || (rating <? 1)%Z || (5 <? rating)%Z
  then throw ValidationError "Rating must be between 1 and 5"
  else
    let* found := Recipe_findById recipeId in
    match found with
    | None => throw NotFoundError "Recipe not found"
    | Some recipe =>
      let existingRatingIndex :=
        findIndex (λ r, same (Rating.userId r) userId) (Recipe.ratings recipe) in
      let* recipe :=
        match existingRatingIndex with
        | Some i =>
          (* Update existing rating *)
          ret (Recipe.with_ratings
                 (alter (λ r, Rating.mk (Rating.userId r) rating (Rating.review r) now)
                        i (Recipe.ratings recipe))
                 recipe)
        | None =>
          (* Add new rating *)
          let recipe' :=
            Recipe.with_ratings
              (Recipe.ratings recipe ++ [Rating.mk userId rating None now]) recipe in
          when (negb (same (Recipe.author recipe') userId))
            (Notification_create
               (Notification.mk (Recipe.author recipe') userId "rating"
                  ("rated your recipe " +:+ quoted (Recipe.title recipe'))
                  (Some recipeId) None)) ;;
          ret recipe'
        end in
      Recipe_save recipeId recipe ;;
      ret (mkRateData (averageRating recipe) (ratingsCount recipe))
    end.

Definition toggleLikeRecipe (userId recipeId : ObjectId) : M LikeData :=
  let* found := Recipe_findById recipeId in
  match found with
  | None => throw NotFoundError "Recipe not found"
  | Some recipe =>
    let likedIndex := findIndex (λ id, same id userId) (Recipe.likes recipe) in
    let* recipe :=
      match likedIndex with
      | Some i =>
        (* Unlike the recipe: splice(likedIndex, 1) *)
        ret (Recipe.with_likes (delete i (Recipe.likes recipe)) recipe)
      | None =>
        (* Like the recipe *)
        let recipe' := Recipe.with_likes (Recipe.likes recipe ++ [userId]) recipe in
        when (negb (same (Recipe.author recipe') userId))
          (Notification_create
             (Notification.mk (Recipe.author recipe') userId "like"
                ("liked your recipe " +:+ quoted (Recipe.title recipe'))
                (Some recipeId) None)) ;;
        ret recipe'
      end in
    Recipe_save recipeId recipe ;;
    ret (mkLikeData (bool_decide (likedIndex = None)) (likesCount recipe))
  end.

(** *** user social controller: follow, unfollow, favorites *)

(** [followersCount] is a virtual of [userSchema] (the length of
    [followers]), so the [$inc] the two updates carry has no stored path to
    change. *)

Definition followUser (currentUserId userId : ObjectId) : M string :=
  if same currentUserId userId
  then throw ValidationError "You cannot follow yourself"
  else
    let* targetUser := User_findById userId in
    match targetUser with
    | None => throw NotFoundError "User not found"
    | Some targetUser =>
      let* currentUser := User_findById currentUserId in
      match currentUser with
      | None => throw NotFoundError "Current user not found"
      | Some currentUser =>
        if existsb (λ id, same id userId) (User.following currentUser)
        then throw ValidationError "You are already following this user"
        else
          User_findByIdAndUpdate currentUserId
            (λ u, User.with_following (addToSet userId (User.following u)) u) ;;
          User_findByIdAndUpdate userId
            (λ u, User.with_followers (addToSet currentUserId (User.followers u)) u) ;;
          Notification_create
            (Notification.mk userId currentUserId "follow"
               (User.username currentUser +:+ " started following you")
               None None) ;;
          ret ("You are now following " +:+ User.username targetUser)
      end
    end.

Definition unfollowUser (currentUserId userId : ObjectId) : M string :=
  if same currentUserId userId
  then throw ValidationError "You cannot unfollow yourself"
  else
    let* targetUser := User_findById userId in
    match targetUser with
    | None => throw NotFoundError "User not found"
    | Some targetUser =>
      let* currentUser := User_findById currentUserId in
      match currentUser with
      | None => throw NotFoundError "Current user not found"
      | Some currentUser =>
        if negb (existsb (λ id, same id userId) (User.following currentUser))
        then throw ValidationError "You are not following this user"
        else
          User_findByIdAndUpdate currentUserId
            (λ u, User.with_following (pull userId (User.following u)) u) ;;
          User_findByIdAndUpdate userId
            (λ u, User.with_followers (pull currentUserId (User.followers u)) u) ;;
          ret ("You have unfollowed " +:+ User.username targetUser)
      end
    end.

Definition addToFavorites (userId recipeId : ObjectId) : M string :=
  let* recipe := Recipe_findById recipeId in
  match recipe with
  | None => throw NotFoundError "Recipe not found"
  | Some _ =>
    let* user := User_findById userId in
    match user with
    | None => throw NotFoundError "User not found"
    | Some user =>
      if existsb (λ id, same id recipeId) (User.favoriteRecipes user)
      then throw ValidationError "Recipe is already in your favorites"
      else
        User_findByIdAndUpdate userId
          (λ u, User.with_favoriteRecipes (addToSet recipeId (User.favoriteRecipes u)) u) ;;
        ret "Recipe added to favorites"
    end
  end.

Definition removeFromFavorites (userId recipeId : ObjectId) : M string :=
  let* recipe := Recipe_findById recipeId in
  match recipe with
  | None => throw NotFoundError "Recipe not found"
  | Some _ =>
    let* user := User_findById userId in
    match user with
    | None => throw NotFoundError "User not found"
    | Some user =>
      if negb (existsb (λ id, same id recipeId) (User.favoriteRecipes user))
      then throw ValidationError "Recipe is not in your favorites"
      else
        User_findByIdAndUpdate userId
          (λ u, User.with_favoriteRecipes (pull recipeId (User.favoriteRecipes u)) u) ;;
        ret "Recipe removed from favorites"
    end
  end.

(** *** comment-crud.controller.ts *)

(** [newId] is the [_id] the driver gives the created comment. *)
Definition addComment (userId recipeId : ObjectId) (content : string)
    (parentComment : option ObjectId) (newId : ObjectId) : M (ObjectId * Comment.t) :=
  let* recipe := Recipe_findById recipeId in
  match recipe with
  | None => throw NotFoundError "Recipe not found"
  | Some recipe =>
    (* If it's a reply, check if parent comment exists *)
    (if truthy parentComment then
       let* parent := Comment_findById (default EmptyString parentComment) in
       match parent with
       | None => throw ValidationError "Invalid parent comment"
       | Some parent =>
         when (negb (same (Comment.recipe parent) recipeId))
           (throw ValidationError "Invalid parent comment")
       end
     else ret tt) ;;
    let comment :=
      Comment.mk content userId recipeId
        (if truthy parentComment then parentComment else None) [] false None in
    Comment_create newId comment ;;
    (* Create notification for recipe author (if not commenting on own recipe) *)
    when (negb (same (Recipe.author recipe) userId))
      (Notification_create
         (Notification.mk (Recipe.author recipe) userId "comment"
            ("commented on your recipe " +:+ quoted (Recipe.title recipe))
            (Some recipeId) (Some newId))) ;;
    (* If it's a reply, notify the parent comment author *)
    (if truthy parentComment then
       let* parentCommentDoc := Comment_findById (default EmptyString parentComment) in
       match parentCommentDoc with
       | Some p =>
         when (negb (same (Comment.author p) userId))
           (Notification_create
              (Notification.mk (Comment.author p) userId "reply"
                 "replied to your comment" (Some recipeId) (Some newId)))
       | None => ret tt
       end
     else ret tt) ;;
    ret (newId, comment)
  end.

Definition deleteComment (userId commentId : ObjectId) : M string :=
  let* comment := Comment_findById commentId in
  match comment with
  | None => throw NotFoundError "Comment not found"
  | Some comment =>
    if negb (same (Comment.author comment) userId)
    then throw AuthorizationError "You can only delete your own comments"
    else
      (* Delete all replies to this comment *)
      Comment_deleteMany_parentComment commentId ;;
      (* Delete the comment *)
      Comment_findByIdAndDelete commentId ;;
      ret "Comment deleted successfully"
  end.

(** *** comment-engagement.controller.ts *)

(** [comment.likes.includes(userId)] *)
Definition includes (userId : ObjectId) (l : list ObjectId) : bool :=
  bool_decide (userId ∈ l).

Definition likeComment (userId commentId : ObjectId) : M Z :=
  let* comment := Comment_findById commentId in
  match comment with
  | None => throw NotFoundError "Comment not found"
  | Some comment =>
    if includes userId (Comment.likes comment)
    then throw ValidationError "You have already liked this comment"
    else
      let comment := Comment.with_likes (Comment.likes comment ++ [userId]) comment in
      Comment_save commentId comment ;;
      when (negb (same (Comment.author comment) userId))
        (Notification_create
           (Notification.mk (Comment.author comment) userId "like"
              "liked your comment" None (Some commentId))) ;;
      ret (Z.of_nat (length (Comment.likes comment)))
  end.

Definition unlikeComment (userId commentId : ObjectId) : M Z :=
  let* comment := Comment_findById commentId in
  match comment with
  | None => throw NotFoundError "Comment not found"
  | Some comment =>
    if negb (includes userId (Comment.likes comment))
    then throw ValidationError "You have not liked this comment"
    else
      let comment := Comment.with_likes (pull userId (Comment.likes comment)) comment in
      Comment_save commentId comment ;;
      ret (Z.of_nat (length (Comment.likes comment)))
  end.

Definition toggleCommentLike (userId commentId : ObjectId) : M LikeData :=
  let* comment := Comment_findById commentId in
  match comment with
  | None => throw NotFoundError "Comment not found"
  | Some comment =>
    let isLiked := includes userId (Comment.likes comment) in
    let* comment :=
      if isLiked then
        ret (Comment.with_likes (pull userId (Comment.likes comment)) comment)
      else
        let comment' := Comment.with_likes (Comment.likes comment ++ [userId]) comment in
        when (negb (same (Comment.author comment') userId))
          (Notification_create
             (Notification.mk (Comment.author comment') userId "like"
                "liked your comment" None (Some commentId))) ;;
        ret comment' in
    Comment_save commentId comment ;;
    ret (mkLikeData (negb isLiked) (Z.of_nat (length (Comment.likes comment))))
  end.

(** *** recipe-crud.controller.ts *)

Definition deleteRecipe (userId recipeId : ObjectId) : M string :=
  let* recipe := Recipe_findById recipeId in
  match recipe with
  | None => throw NotFoundError "Recipe not found"
  | Some recipe =>
    if negb (same (Recipe.author recipe) userId)
    then throw AuthorizationError "You can only delete your own recipes"
    else
      (* Clean up related data *)
      Comment_deleteMany_recipe recipeId ;;
      Recipe_findByIdAndDelete recipeId ;;
      User_updateMany_pull_favorite recipeId ;;
      ret "Recipe deleted successfully"
  end.

(** *** The requests of the write path, and a run of the service *)

Inductive Request : Type :=
  | RateRecipe (userId recipeId : ObjectId) (rating : Z) (now : Date)
  | ToggleLikeRecipe (userId recipeId : ObjectId)
  | FollowUser (currentUserId userId : ObjectId)
  | UnfollowUser (currentUserId userId : ObjectId)
  | AddToFavorites (userId recipeId : ObjectId)
  | RemoveFromFavorites (userId recipeId : ObjectId)
  | AddComment (userId recipeId : ObjectId) (content : string)
      (parentComment : option ObjectId) (newId : ObjectId)
  | DeleteComment (userId commentId : ObjectId)
  | LikeComment (userId commentId : ObjectId)
  | UnlikeComment (userId commentId : ObjectId)
  | ToggleCommentLike (userId commentId : ObjectId)
  | DeleteRecipe (userId recipeId : ObjectId).

(** The store a request leaves behind, whether it answered or threw. *)
Definition handle (req : Request) (s : Store) : Store :=
  match req with
  | RateRecipe u r v now => after (rateRecipe u r v now) s
  | ToggleLikeRecipe u r => after (toggleLikeRecipe u r) s
  | FollowUser a b => after (followUser a b) s
  | UnfollowUser a b => after (unfollowUser a b) s
  | AddToFavorites u r => after (addToFavorites u r) s
  | RemoveFromFavorites u r => after (removeFromFavorites u r) s
  | AddComment u r c p n => after (addComment u r c p n) s
  | DeleteComment u c => after (deleteComment u c) s
  | LikeComment u c => after (likeComment u c) s
  | UnlikeComment u c => after (unlikeComment u c) s
  | ToggleCommentLike u c => after (toggleCommentLike u c) s
  | DeleteRecipe u r => after (deleteRecipe u r) s
  end.

Definition run (reqs : list Request) (s : Store) : Store :=
  foldl (λ st req, handle req st) s reqs.

End Controllers.

(** ** Discovery: filter, sort and pagination (recipe-search.controller.ts) *)

(** [req.query]: every parameter is an optional string. *)
Module Query.
Record t : Type := mk {
  page : option string;
  limit : option string;
  keywords : option string;
  search : option string;
  ingredients : option string;
  cuisineType : option string;
  difficulty : option string;
  maxCookingTime : option string;
  dietaryRestrictions : option string;
  mealType : option string;
  sortBy : option string;
  sortOrder : option string
}.

Definition none : t :=
  mk None None None None None None None None None None None None.
End Query.

(** The MongoDB filter objects the read path builds: one optional entry per
    key that some controller or model static sets. A number that is NaN is
    [None] inside [cookTime_lte]. *)
Module Filter.
Record t : Type := mk {
  isPublished : option bool;
  isPublic : option bool;
  author : option ObjectId;
  or_regex : option string;            (* $or over title, description, tags *)
  ingredients_name_in : option (list string);   (* $in of RegExp sources *)
  cuisineType : option string;
  difficulty : option string;
  cookTime_lte : option (option Z);
  dietaryRestrictions_in : option (list string);
  mealType_in : option (list string)
}.
End Filter.

Record SortSpec : Type := mkSort {
  sort_key : string;
  sort_order : Z;
  sort_textScore : bool
}.

Record Pagination : Type := mkPagination {
  page : Z;
  limit : Z;
  total : Z;
  totalPages : Z;
  hasNextPage : bool;
  hasPrevPage : bool
}.

Record SearchData : Type := mkSearchData {
  sd_recipes : list (ObjectId * Recipe.t);
  sd_pagination : Pagination
}.

Record Categories : Type := mkCategories {
  cuisineTypes : list string;
  mealTypes : list string;
  cat_dietaryRestrictions : list string;
  cat_tags : list string
}.

(** [String.prototype.split(',')] *)
Fixpoint split (sep : Ascii.ascii) (s : string) : list string :=
  match s with
  | EmptyString => [EmptyString]
  | String c s' =>
    if Ascii.eqb c sep then EmptyString :: split sep s'
    else match split sep s' with
         | h :: t => String c h :: t
         | [] => [String c EmptyString]
         end
  end.

Definition comma : Ascii.ascii := Ascii.ascii_of_nat 44.

Definition is_space (c : Ascii.ascii) : bool :=
  let n := Ascii.nat_of_ascii c in
  Nat.eqb n 32 || (Nat.leb 9 n && Nat.leb n 13).

(** [String.prototype.trim] *)
Fixpoint trimStart (s : string) : string :=
  match s with
  | String c s' => if is_space c then trimStart s' else s
  | EmptyString => EmptyString
  end.
Fixpoint trimEnd (s : string) : string :=
  match s with
  | EmptyString => EmptyString
  | String c s' =>
    let t := trimEnd s' in
    if is_space c && bool_decide (t = EmptyString) then EmptyString else String c t
  end.
Definition trim (s : string) : string := trimEnd (trimStart s).

(** [a || b] on two optional strings. *)
Definition orElse (a b : option string) : option string :=
  if truthy a then a else b.

(** [n || d] on a number: NaN and 0 are falsy. *)
Definition orDefault (n : option Z) (d : Z) : Z :=
  match n with
  | Some v => if bool_decide (v = 0%Z) then d else v
  | None => d
  end.

(** [buildSearchFilter]. A pattern [new RegExp(ing, 'i')] is kept as its
    source text; [matches] below hands it to the regular-expression test. *)
Definition buildSearchFilter (parseInt : string → option Z) (query : Query.t) : Filter.t :=
  Filter.mk
    (Some true)
    None
    None
    (* Keywords search (searches in title, description, tags) *)
    (if truthy (Query.keywords query) || truthy (Query.search query)
     then orElse (Query.keywords query) (Query.search query) else None)
    (* Ingredients search *)
    (if truthy (Query.ingredients query)
     then (λ s, trim <$> split comma s) <$> Query.ingredients query else None)
    (* Cuisine type filter *)
    (if truthy (Query.cuisineType query) then Query.cuisineType query else None)
    (* Difficulty filter *)
    (if truthy (Query.difficulty query) then Query.difficulty query else None)
    (* Cooking time filter *)
    (if truthy (Query.maxCookingTime query)
     then parseInt <$> Query.maxCookingTime query else None)
    (* Dietary restrictions filter *)
    (if truthy (Query.dietaryRestrictions query)
     then split comma <$> Query.dietaryRestrictions query else None)
    (* Meal type filter *)
    (if truthy (Query.mealType query)
     then split comma <$> Query.mealType query else None).

(** [buildSortOptions] *)
Definition buildSortOptions (query : Query.t) : SortSpec :=
  mkSort
    (default "createdAt" (orElse (Query.sortBy query) None))
    (if bool_decide (Query.sortOrder query = Some "asc") then 1 else -1)%Z
    (truthy (Query.search query)).

(** The filter of [getUserRecipes] (recipe-management.controller.ts) and of
    the model static [findPublished]: the read paths that name both flags. *)
Definition userRecipesFilter (userId : ObjectId) : Filter.t :=
  Filter.mk (Some true) (Some true) (Some userId) None None None None None None None.
Definition findPublishedFilter : Filter.t :=
  Filter.mk (Some true) (Some true) None None None None None None None None.

(** The filter [{ isPublished: true }] of [getCategories]. *)
Definition publishedFilter : Filter.t :=
  Filter.mk (Some true) None None None None None None None None None.

Section Discovery.

(** [regexTest pattern subject]: does the case-insensitive regular
    expression [pattern] match [subject]. *)
Context (regexTest : string → string → bool).
(** [parseInt]; [None] is NaN. *)
Context (parseInt : string → option Z).
(** The order in which a cursor sorted by a sort object yields documents. *)
Context (sortDocs : SortSpec → list (ObjectId * Recipe.t) → list (ObjectId * Recipe.t)).

(** An absent key constrains nothing. *)
Definition holds {A} (o : option A) (p : A → bool) : bool :=
  match o with
  | Some a => p a
  | None => true
  end.

(** Does a recipe document satisfy a filter object (all keys at once). *)
Definition matches (f : Filter.t) (r : Recipe.t) : bool :=
  holds (Filter.isPublished f) (λ b, bool_decide (Recipe.isPublished r = b))
  && holds (Filter.isPublic f) (λ b, bool_decide (Recipe.isPublic r = b))
  && holds (Filter.author f) (λ a, bool_decide (Recipe.author r = a))
  && holds (Filter.or_regex f) (λ t,
       regexTest t (Recipe.title r)
       || regexTest t (Recipe.description r)
       || existsb (regexTest t) (Recipe.tags r))
  && holds (Filter.ingredients_name_in f) (λ pats,
       existsb (λ name, existsb (λ p, regexTest p name) pats) (Recipe.ingredients r))
  && holds (Filter.cuisineType f) (λ c, bool_decide (Recipe.cuisineType r = c))
  && holds (Filter.difficulty f) (λ d, bool_decide (Recipe.difficulty r = d))
  && holds (Filter.cookTime_lte f) (λ bound,
       match bound with
       | Some n => (Recipe.cookTime r <=? n)%Z
       | None => false
       end)
  && holds (Filter.dietaryRestrictions_in f) (λ vs,
       existsb (λ d, bool_decide (d ∈ vs)) (Recipe.dietaryRestrictions r))
  && holds (Filter.mealType_in f) (λ vs,
       existsb (λ m, bool_decide (m ∈ vs)) (Recipe.mealType r)).

(** [Recipe.find(filter)], before any cursor option. *)
Definition Recipe_find (f : Filter.t) (s : Store) : list (ObjectId * Recipe.t) :=
  filter (λ kr, matches f kr.2 = true) (map_to_list (recipes s)).

(** [Recipe.countDocuments(filter)] *)
Definition Recipe_countDocuments (f : Filter.t) : M Z :=
  gets (λ s, Z.of_nat (length (Recipe_find f s))).

(** [Recipe.find(filter).sort(sort).skip(skip).limit(limit)]: the server
    refuses a negative skip; a negative limit asks for one batch of that
    many documents. *)
Definition Recipe_find_page (f : Filter.t) (sort : SortSpec) (skip limit : Z)
  : M (list (ObjectId * Recipe.t)) :=
  if (skip <? 0)%Z
  then throw MongoServerError "Skip value must be non-negative"
  else gets (λ s,
    take (Z.to_nat (Z.abs limit)) (drop (Z.to_nat skip) (sortDocs sort (Recipe_find f s)))).

(** [parseInt(req.query.x as string)]: an absent parameter parses to NaN. *)
Definition parseIntOpt (o : option string) : option Z := o ≫= parseInt.

(** [parseInt(req.query.page) || 1] and [parseInt(req.query.limit) || 10] *)
Definition requestedPage (query : Query.t) : Z :=
  orDefault (parseIntOpt (Query.page query)) 1.
Definition requestedLimit (query : Query.t) : Z :=
  orDefault (parseIntOpt (Query.limit query)) 10.

Definition getAllRecipes (query : Query.t) : M SearchData :=
  let page := requestedPage query in
  let limit := requestedLimit query in
  let skip := ((page - 1) * limit)%Z in
  let filter := buildSearchFilter parseInt query in
  let sort := buildSortOptions query in
  let* recipes := Recipe_find_page filter sort skip limit in
  let* total := Recipe_countDocuments filter in
  let totalPages := Math_ceil (inject_Z total / inject_Z limit) in
  ret (mkSearchData recipes
         (mkPagination page limit total totalPages
            (page <? totalPages)%Z (1 <? page)%Z)).

(** [Recipe.distinct(field, filter)] followed by [.flat().filter(Boolean)]:
    the distinct non-empty values of a field over the matching recipes. *)
Definition distinct (field : Recipe.t → list string) (f : Filter.t) (s : Store) : list string :=
  filter (λ v, v ≠ EmptyString)
    (remove_dups (mjoin ((λ kr, field kr.2) <$> Recipe_find f s))).

(** recipe-category.controller.ts *)
Definition getCategories : M Categories :=
  gets (λ s,
    mkCategories
      (distinct (λ r, [Recipe.cuisineType r]) publishedFilter s)
      (distinct Recipe.mealType publishedFilter s)
      (distinct Recipe.dietaryRestrictions publishedFilter s)
      (distinct Recipe.tags publishedFilter s)).

End Discovery.

(** ** Predicates of the properties *)

(** A notification whose recipient is not the user who caused it. *)
Definition not_to_self (n : Notification.t) : Prop :=
  Notification.recipient n ≠ Notification.sender n.

(** How one request may change the ratings array of a recipe: not at all,
    by rewriting one entry under its own [userId], or by appending an entry
    for a user that had none. *)
Inductive rating_step (rs : list Rating.t) : list Rating.t → Prop :=
  | rating_kept : rating_step rs rs
  | rating_overwritten (i : nat) (v : Z) (now : Date) :
      rating_step rs
        (alter (λ r, Rating.mk (Rating.userId r) v (Rating.review r) now) i rs)
  | rating_appended (x : Rating.t) :
      Rating.userId x ∉ Rating.userId <$> rs →
      rating_step rs (rs ++ [x]).

(** How one request may change the like list of a recipe: not at all, by
    removing one position, or by appending an id that was not in it. *)
Inductive likes_step (ls : list ObjectId) : list ObjectId → Prop :=
  | likes_kept : likes_step ls ls
  | likes_removed (i : nat) : likes_step ls (delete i ls)
  | likes_added (u : ObjectId) : u ∉ ls → likes_step ls (ls ++ [u]).

(** The notification a like of [recipe] by [u] asks for. *)
Definition likeNotification (u rid : ObjectId) (recipe : Recipe.t) : Notification.t :=
  Notification.mk (Recipe.author recipe) u "like"
    ("liked your recipe " +:+ quoted (Recipe.title recipe)) (Some rid) None.

(** ** Concrete stand-ins for the runtime, used by the worked examples *)

Definition acceptAll : Notification.t → bool := λ _, true.
Definition rejectAll : Notification.t → bool := λ _, false.

(** Keeps the store's own order. *)
Definition naturalOrder : SortSpec → list (ObjectId * Recipe.t) → list (ObjectId * Recipe.t) :=
  λ _ l, l.

Definition noMatch : string → string → bool := λ _ _, false.

(** Unsigned decimal numerals; anything else is NaN. *)
Definition digit (c : Ascii.ascii) : option Z :=
  let n := Ascii.nat_of_ascii c in
  if Nat.leb 48 n && Nat.leb n 57 then Some (Z.of_nat (n - 48)) else None.
Fixpoint parseDigits (acc : Z) (s : string) : option Z :=
  match s with
  | EmptyString => Some acc
  | String c s' =>
    match digit c with
    | Some d => parseDigits (10 * acc + d)%Z s'
    | None => None
    end
  end.
Definition parseDecimal (s : string) : option Z :=
  match s with
  | EmptyString => None
  | _ => parseDigits 0 s
  end.

(** ** A small store for the worked examples *)

Module Demo.
Local Open Scope Z_scope.

Definition alice : ObjectId := "alice".
Definition bob : ObjectId := "bob".
Definition carol : ObjectId := "carol".

Definition user (name : string) : User.t := User.mk name [] [] [].

(** A published recipe of alice that she keeps private. *)
Definition pasta : Recipe.t :=
  Recipe.mk "Pasta" "Pasta with tomato sauce" alice ["pasta"; "tomato"]
    "Italian" ["Dinner"] ["Vegetarian"] ["quick"] "Easy" 20 0 [] []
    false true.

(** The recipe with one rating per listed user and value. *)
Definition rated (entries : list (ObjectId * Z)) : Recipe.t :=
  Recipe.with_ratings ((λ e, Rating.mk e.1 e.2 None 0) <$> entries) pasta.
Definition four_fives : list (ObjectId * Z) :=
  [("u1", 5); ("u2", 5); ("u3", 5); ("u4", 5)].

(** The same recipe after bob rated it 4 at time 100. *)
Definition pasta_rated : Recipe.t :=
  Recipe.with_ratings [Rating.mk bob 4 (Some "Great recipe!") 100] pasta.

Definition store : Store :=
  mkStore (<[alice := user "alice"]> (<[bob := user "bob"]> (<[carol := user "carol"]> ∅)))
          {["r1" := pasta]} ∅ [].

Definition store_rated : Store :=
  mkStore (users store) {["r1" := pasta_rated]} ∅ [].

Definition dish_of (who : ObjectId) : Recipe.t :=
  Recipe.mk "Toast" "Toast with butter" who ["bread"]
    "Other" ["Breakfast"] [] [] "Easy" 5 0 [] [] true true.

(** bob already follows alice. *)
Definition store_following : Store :=
  mkStore (<[alice := User.mk "alice" [] [bob] []]>
             (<[bob := User.mk "bob" [alice] [] ["r1"]]> ∅))
          {["r1" := pasta]} ∅ [].

(** alice's own thread under her recipe: a root comment and a reply. *)
Definition root : Comment.t := Comment.mk "First!" alice "r1" None [] false None.
Definition reply : Comment.t := Comment.mk "Second" alice "r1" (Some "c1") [] false None.
Definition store_thread : Store :=
  mkStore (users store_following) {["r1" := pasta]}
          (<["c1" := root]> (<["c2" := reply]> ∅)) [].

(** The thread with a reply to the reply. *)
Definition third : Comment.t := Comment.mk "Third" alice "r1" (Some "c2") [] false None.
Definition store_deep : Store :=
  with_comments <["c3" := third]> store_thread.

(** bob has the recipe among his favorites; the recipe has a thread and
    bob's own recipe has a comment. *)
Definition store_commented : Store :=
  mkStore (<[alice := User.mk "alice" [] [bob] []]>
             (<[bob := User.mk "bob" [alice] [] ["r1"; "r2"; "r1"]]> ∅))
          (<["r1" := pasta]> (<["r2" := dish_of bob]> ∅))
          (<["c1" := root]> (<["c2" := reply]>
             (<["c9" := Comment.mk "Elsewhere" alice "r2" None [] false None]> ∅)))
          [].

(** Five published recipes and a draft. *)
Definition dish (name : string) (published : bool) : Recipe.t :=
  Recipe.mk name "A dish for the cookbook" alice ["salt"]
    "Other" ["Lunch"] [] [] "Medium" 30 0 [] [] true published.
Definition cookbook : Store :=
  mkStore (users store)
    (<["r1" := dish "Soup" true]> (<["r2" := dish "Stew" true]>
     (<["r3" := dish "Salad" true]> (<["r4" := dish "Bread" true]>
     (<["r5" := dish "Curry" true]> (<["r6" := dish "Draft" false]> ∅))))))
    ∅ [].

(** [?page=2&limit=2] *)
Definition page2 : Query.t :=
  Query.mk (Some "2") (Some "2") None None None None None None None None None None.

(** bob follows alice, rates and likes her recipe and comments on it;
    alice rates, likes and comments on her own recipe and tries to follow
    herself; carol replies to bob, who likes his own comment. *)
Definition session : list Request :=
  [ FollowUser bob alice;
    RateRecipe bob "r1" 5 10;
    ToggleLikeRecipe bob "r1";
    RateRecipe alice "r1" 4 11;
    ToggleLikeRecipe alice "r1";
    FollowUser alice alice;
    AddComment alice "r1" "Mine" None "c1";
    AddComment bob "r1" "Nice" None "c2";
    AddComment carol "r1" "Really" (Some "c2") "c3";
    LikeComment bob "c2" ].
End Demo.

(** ** The request dispatch, with the answer kept *)

(** What the router runs for a request: the controller, its payload dropped. *)
Definition perform (schemaAccepts : Notification.t → bool) (req : Request) : M unit :=
  match req with
  | RateRecipe u r v now => rateRecipe schemaAccepts u r v now ;; ret tt
  | ToggleLikeRecipe u r => toggleLikeRecipe schemaAccepts u r ;; ret tt
  | FollowUser a b => followUser schemaAccepts a b ;; ret tt
  | UnfollowUser a b => unfollowUser a b ;; ret tt
  | AddToFavorites u r => addToFavorites u r ;; ret tt
  | RemoveFromFavorites u r => removeFromFavorites u r ;; ret tt
  | AddComment u r c p n => addComment schemaAccepts u r c p n ;; ret tt
  | DeleteComment u c => deleteComment u c ;; ret tt
  | LikeComment u c => likeComment schemaAccepts u c ;; ret tt
  | UnlikeComment u c => unlikeComment u c ;; ret tt
  | ToggleCommentLike u c => toggleCommentLike schemaAccepts u c ;; ret tt
  | DeleteRecipe u r => deleteRecipe u r ;; ret tt
  end.

(** The errors a controller throws itself, before it writes. *)
Definition business_error (e : AppError) : Prop :=
  kind e = ValidationError ∨ kind e = NotFoundError ∨ kind e = AuthorizationError.

(** The notification [followUser] asks for. *)
Definition followNotification (a b : ObjectId) (ua : User.t) : Notification.t :=
  Notification.mk b a "follow" (User.username ua +:+ " started following you") None None.

(** How one request may change the users collection. *)
Inductive users_step (m : gmap ObjectId User.t) : gmap ObjectId User.t → Prop :=
  | users_kept : users_step m m
  | users_followed (a b : ObjectId) :
      a ≠ b →
      users_step m
        (alter (λ u, User.with_followers (addToSet a (User.followers u)) u) b
           (alter (λ u, User.with_following (addToSet b (User.following u)) u) a m))
  | users_unfollowed (a b : ObjectId) :
      a ≠ b →
      users_step m
        (alter (λ u, User.with_followers (pull a (User.followers u)) u) b
           (alter (λ u, User.with_following (pull b (User.following u)) u) a m))
  | users_favorited (u r : ObjectId) :
      users_step m
        (alter (λ x, User.with_favoriteRecipes (addToSet r (User.favoriteRecipes x)) x) u m)
  | users_unfavorited (u r : ObjectId) :
      users_step m
        (alter (λ x, User.with_favoriteRecipes (pull r (User.favoriteRecipes x)) x) u m)
  | users_recipe_deleted (r : ObjectId) :
      users_step m
        ((λ u, if bool_decide (r ∈ User.favoriteRecipes u)
               then User.with_favoriteRecipes (pull r (User.favoriteRecipes u)) u
               else u) <$> m).

(** The follow relation reads the same from both ends: among stored users,
    [b] is in [a.following] exactly when [a] is in [b.followers]. *)
Definition follow_symmetric (m : gmap ObjectId User.t) : Prop :=
  ∀ a b ua ub, m !! a = Some ua → m !! b = Some ub →
    (b ∈ User.following ua ↔ a ∈ User.followers ub).

(** No id occurs twice in a user's following, followers or favorites. *)
Definition user_lists_NoDup (m : gmap ObjectId User.t) : Prop :=
  ∀ a ua, m !! a = Some ua →
    NoDup (User.following ua) ∧ NoDup (User.followers ua)
    ∧ NoDup (User.favoriteRecipes ua).

(** ** More of the comment and recipe controllers *)

(** The notification a like of a comment asks for. *)
Definition commentLikeNotification (u cid : ObjectId) (c : Comment.t) : Notification.t :=
  Notification.mk (Comment.author c) u "like" "liked your comment" None (Some cid).

(** No id occurs twice in the like list of a stored comment. *)
Definition comment_likes_NoDup (m : gmap ObjectId Comment.t) : Prop :=
  ∀ id c, m !! id = Some c → NoDup (Comment.likes c).

(** [updateComment] of comment-crud.controller.ts *)
Definition updateComment (userId commentId : ObjectId) (content : string) (now : Date)
  : M Comment.t :=
  let* comment := Comment_findById commentId in
  match comment with
  | None => throw NotFoundError "Comment not found"
  | Some comment =>
    if negb (same (Comment.author comment) userId)
    then throw AuthorizationError "You can only update your own comments"
    else
      let comment :=
        Comment.mk content (Comment.author comment) (Comment.recipe comment)
          (Comment.parentComment comment) (Comment.likes comment) true (Some now) in
      Comment_save commentId comment ;;
      ret comment
  end.

Definition Recipe_with_views (v : Z) (r : Recipe.t) : Recipe.t :=
  Recipe.mk (Recipe.title r) (Recipe.description r) (Recipe.author r)
    (Recipe.ingredients r) (Recipe.cuisineType r) (Recipe.mealType r)
    (Recipe.dietaryRestrictions r) (Recipe.tags r) (Recipe.difficulty r)
    (Recipe.cookTime r) v (Recipe.likes r) (Recipe.ratings r)
    (Recipe.isPublic r) (Recipe.isPublished r).

(** [getRecipeById] of recipe-crud.controller.ts: every fetch counts a view. *)
Definition getRecipeById (id : ObjectId) : M Recipe.t :=
  let* found := Recipe_findById id in
  match found with
  | None => throw NotFoundError "Recipe not found"
  | Some recipe =>
    (* Increment view count *)
    let recipe := Recipe_with_views (Recipe.views recipe + 1)%Z recipe in
    Recipe_save id recipe ;;
    ret recipe
  end.

(** [n] fetches of the same recipe in a row. *)
Fixpoint fetches (n : nat) (id : ObjectId) (s : Store) : Store :=
  match n with
  | O => s
  | S n' => fetches n' id (after (getRecipeById id) s)
  end.

(** ** Instance methods of the recipe model (recipe-methods.model.ts)

    Each method changes [this] and saves it; the function is the document
    that is saved. *)

(** [addRating]: drop the user's entries, then push the new one; the review
    is kept only when truthy. *)
Definition Recipe_addRating (userId : ObjectId) (rating : Z) (review : option string)
    (now : Date) (r : Recipe.t) : Recipe.t :=
  Recipe.with_ratings
    (filter (λ x, Rating.userId x ≠ userId) (Recipe.ratings r)
     ++ [Rating.mk userId rating (if truthy review then review else None) now]) r.

Definition Recipe_removeRating (userId : ObjectId) (r : Recipe.t) : Recipe.t :=
  Recipe.with_ratings (filter (λ x, Rating.userId x ≠ userId) (Recipe.ratings r)) r.

Definition Recipe_addLike (userId : ObjectId) (r : Recipe.t) : Recipe.t :=
  if includes userId (Recipe.likes r) then r
  else Recipe.with_likes (Recipe.likes r ++ [userId]) r.

Definition Recipe_removeLike (userId : ObjectId) (r : Recipe.t) : Recipe.t :=
  Recipe.with_likes (pull userId (Recipe.likes r)) r.

Definition Recipe_isLikedBy (userId : ObjectId) (r : Recipe.t) : bool :=
  existsb (λ id, same id userId) (Recipe.likes r).

(** Every stored rating value lies between 1 and 5. *)
Definition ratings_in_range (r : Recipe.t) : Prop :=
  Forall (λ x, (1 ≤ Rating.rating x ≤ 5)%Z) (Recipe.ratings r).

(** ** The notification schema, its [createNotification] static and the
    inbox controllers (notification.model.ts, notification.controller.ts) *)

(** A stored notification document. *)
Module NotificationDoc.
Record t : Type := mk {
  recipient : ObjectId;
  sender : ObjectId;
  type : string;
  title : string;
  message : string;
  recipeId : option ObjectId;
  commentId : option ObjectId;
  userId : option ObjectId;
  isRead : bool;
  readAt : option Date
}.
Definition with_read (now : Date) (d : t) : t :=
  mk (recipient d) (sender d) (type d) (title d) (message d)
     (recipeId d) (commentId d) (userId d) true (Some now).
End NotificationDoc.

(** What a caller hands to [Notification.create], path by path of the
    schema. A key the schema does not declare is dropped before
    validation; [isRead] and [readAt] are set by no caller. *)
Module NotificationInput.
Record t : Type := mk {
  recipient : ObjectId;
  sender : ObjectId;
  type : string;
  title : option string;
  message : option string;
  recipeId : option ObjectId;
  commentId : option ObjectId;
  userId : option ObjectId
}.
End NotificationInput.

(** The [enum] of the [type] path. *)
Definition notificationTypes : list string :=
  ["recipe_like"; "recipe_comment"; "recipe_rating"; "user_follow";
   "recipe_published"; "comment_reply"].

(** A [String] path with [required], [trim] and [maxlength]: the setter
    trims, [required] refuses an absent or empty value and [maxlength] a
    longer one. The result is the value that is stored. *)
Definition requiredString (maxlength : nat) (o : option string) : option string :=
  match o with
  | Some v =>
    let v := trim v in
    if bool_decide (v = EmptyString) then None
    else if (String.length v <=? maxlength)%nat then Some v else None
  | None => None
  end.

(** [notificationSchema]: the document that validation lets through, with
    the default of [isRead]. *)
Definition notificationSchema (i : NotificationInput.t) : option NotificationDoc.t :=
  if bool_decide (NotificationInput.type i ∈ notificationTypes) then
    match requiredString 100 (NotificationInput.title i),
          requiredString 500 (NotificationInput.message i) with
    | Some title, Some message =>
      Some (NotificationDoc.mk
              (NotificationInput.recipient i) (NotificationInput.sender i)
              (NotificationInput.type i) title message
              (NotificationInput.recipeId i) (NotificationInput.commentId i)
              (NotificationInput.userId i) false None)
    | _, _ => None
    end
  else None.

(** The controllers' object literal as [Notification.create] reads it:
    [relatedRecipe] and [relatedComment] are no paths of the schema, and no
    controller gives a [title]. *)
Definition literal (n : Notification.t) : NotificationInput.t :=
  NotificationInput.mk (Notification.recipient n) (Notification.sender n)
    (Notification.type n) None (Some (Notification.message n)) None None None.

(** Does [notificationSchema] let a controller's literal through. *)
Definition notificationSchemaAccepts (n : Notification.t) : bool :=
  match notificationSchema (literal n) with
  | Some _ => true
  | None => false
  end.

(** The notifications collection. *)
Abbreviation Inbox := (gmap string NotificationDoc.t) (only parsing).

(** The argument of [createNotification]. *)
Record NotificationData : Type := mkNotificationData {
  nd_recipient : ObjectId;
  nd_sender : ObjectId;
  nd_type : string;
  nd_recipeId : option ObjectId;
  nd_commentId : option ObjectId
}.

(** The [switch] of [createNotification]: title and message by type. *)
Definition titleAndMessage (type : string) : string * string :=
  if String.eqb type "recipe_like" then ("Recipe Liked", "liked your recipe")
  else if String.eqb type "recipe_comment" then ("New Comment", "commented on your recipe")
  else if String.eqb type "recipe_rating" then ("Recipe Rated", "rated your recipe")
  else if String.eqb type "user_follow" then ("New Follower", "started following you")
  else if String.eqb type "recipe_published" then ("New Recipe", "published a new recipe")
  else if String.eqb type "comment_reply" then ("Comment Reply", "replied to your comment")
  else ("Notification", "has an update for you").

(** [Notification.createNotification(data)]; the driver draws [newId]. A
    thrown error is given by its message. *)
Definition createNotification (newId : ObjectId) (data : NotificationData) (box : Inbox)
  : Inbox * (string + NotificationDoc.t) :=
  (* Don't create notification if sender and recipient are the same *)
  if same (nd_recipient data) (nd_sender data)
  then (box, inl "Cannot create notification for self-action")
  else
    let (title, message) := titleAndMessage (nd_type data) in
    let notificationData :=
      NotificationInput.mk (nd_recipient data) (nd_sender data) (nd_type data)
        (Some title) (Some message)
        (nd_recipeId data) (nd_commentId data) (Some (nd_sender data)) in
    match notificationSchema notificationData with
    | None => (box, inl "Notification validation failed")
    | Some doc =>
      match box !! newId with
      | Some _ => (box, inl "E11000 duplicate key error")
      | None => (<[newId := doc]> box, inr doc)
      end
    end.

(** The filter [{ recipient: userId, isRead: false }]. *)
Definition unreadOf (userId : ObjectId) (kd : string * NotificationDoc.t) : Prop :=
  NotificationDoc.recipient kd.2 = userId ∧ NotificationDoc.isRead kd.2 = false.

#[global] Instance unreadOf_dec userId kd : Decision (unreadOf userId kd).
Proof. unfold unreadOf. apply _. Defined.

(** [getUnreadCount]: [Notification.countDocuments] under that filter. *)
Definition getUnreadCount (userId : ObjectId) (box : Inbox) : Z :=
  Z.of_nat (size (filter (unreadOf userId) box)).

(** The controller [markAsRead]. *)
Definition markAsRead (userId notificationId : ObjectId) (now : Date) (box : Inbox)
  : Inbox * (AppError + string) :=
  match box !! notificationId with
  | None => (box, inl (mkError NotFoundError "Notification not found"))
  | Some notification =>
    if negb (same (NotificationDoc.recipient notification) userId)
    then (box, inl (mkError AuthorizationError
                      "You can only mark your own notifications as read"))
    else (<[notificationId := NotificationDoc.with_read now notification]> box,
          inr "Notification marked as read")
  end.

(** The controller [markAllAsRead] (and the static of the same name):
    [updateMany] under the unread filter. *)
Definition markAllAsRead (userId : ObjectId) (now : Date) (box : Inbox)
  : Inbox * (AppError + string) :=
  ((λ d, if bool_decide (NotificationDoc.recipient d = userId
                         ∧ NotificationDoc.isRead d = false)
         then NotificationDoc.with_read now d else d) <$> box,
   inr "All notifications marked as read").

(** The controller [deleteNotification]. *)
Definition deleteNotification (userId notificationId : ObjectId) (box : Inbox)
  : Inbox * (AppError + string) :=
  match box !! notificationId with
  | None => (box, inl (mkError NotFoundError "Notification not found"))
  | Some notification =>
    if negb (same (NotificationDoc.recipient notification) userId)
    then (box, inl (mkError AuthorizationError
                      "You can only delete your own notifications"))
    else (delete notificationId box, inr "Notification deleted successfully")
  end.

(** ** Login lockout (user.model.ts) *)

(** The two paths of a user document the lockout methods read and write.
    [loginAttempts] has the default 0, which is what an unset path reads
    as and what [$inc] starts from. *)
Module Login.
Record t : Type := mk {
  loginAttempts : Z;
  lockUntil : option Date
}.
End Login.

(** The virtual [isLocked]: [!!(this.lockUntil && this.lockUntil > new Date())]. *)
Definition isLocked (now : Date) (u : Login.t) : bool :=
  match Login.lockUntil u with
  | Some t => (now <? t)%Z
  | None => false
  end.

Definition lockTime : Z := (2 * 60 * 60 * 1000)%Z.

(** [incrementLoginAttempts], read at one clock value. *)
Definition incrementLoginAttempts (now : Date) (u : Login.t) : Login.t :=
  (* If we have a previous lock that has expired, restart at 1 *)
  if match Login.lockUntil u with
     | Some t => (t <? now)%Z
     | None => false
     end
  then Login.mk 1 None
  else
    (* If we have hit max attempts and it isn't locked, lock the account *)
    if (5 <=? Login.loginAttempts u + 1)%Z && negb (isLocked now u)
    then Login.mk (Login.loginAttempts u + 1) (Some (now + lockTime)%Z)
    else Login.mk (Login.loginAttempts u + 1) (Login.lockUntil u).

(** [resetLoginAttempts]: both paths unset. *)
Definition resetLoginAttempts (u : Login.t) : Login.t := Login.mk 0 None.

(** Failed logins at the given clock values, one after the other. *)
Definition failedLogins (times : list Date) (u : Login.t) : Login.t :=
  foldl (λ u now, incrementLoginAttempts now u) u times.

(** ** Profile update (user-profile.controller.ts) *)

(** [req.body] of [updateProfile], for the three id lists of a user: a key
    the body does not carry is [None]. The route checks no body. *)
Record ProfileBody : Type := mkProfileBody {
  body_following : option (list ObjectId);
  body_followers : option (list ObjectId);
  body_favoriteRecipes : option (list ObjectId)
}.

(** [updateProfile]: the body, less five sensitive keys none of which is
    one of the lists, goes to [User.findByIdAndUpdate], which sets each
    path the body names and returns the updated document, or null. *)
Definition updateProfile (userId : ObjectId) (updateData : ProfileBody) : M User.t :=
  User_findByIdAndUpdate userId
    (λ u, User.mk (User.username u)
            (default (User.following u) (body_following updateData))
            (default (User.followers u) (body_followers updateData))
            (default (User.favoriteRecipes u) (body_favoriteRecipes updateData))) ;;
  let* user := User_findById userId in
  match user with
  | None => throw NotFoundError "User not found"
  | Some user => ret user
  end.

(** ** The notification of a rating, and a liked recipe for the examples *)

(** The notification a first rating of [recipe] by [u] asks for. *)
Definition ratingNotification (u rid : ObjectId) (recipe : Recipe.t) : Notification.t :=
  Notification.mk (Recipe.author recipe) u "rating"
    ("rated your recipe " +:+ quoted (Recipe.title recipe)) (Some rid) None.

Module Liked.
(** alice's recipe, liked by bob. *)
Definition pasta : Recipe.t := Recipe.with_likes [Demo.bob] Demo.pasta.
Definition store : Store := mkStore (users Demo.store) {["r1" := pasta]} ∅ [].
End Liked.

(** * Properties *)

(** ** Derived average rating *)

Lemma ratings_sum_from (a : Z) (rs : list Rating.t) :
  foldl (λ acc r, acc + Rating.rating r)%Z a rs
  = (a + foldr Z.add 0 (Rating.rating <$> rs))%Z.
Proof.
  revert a. induction rs as [|r rs IH]; intros a.
  - simpl. lia.
  - rewrite fmap_cons. simpl. rewrite IH. lia.
Qed.

Lemma ratings_sum_values (rs : list Rating.t) :
  ratings_sum rs = foldr Z.add 0%Z (Rating.rating <$> rs).
Proof. unfold ratings_sum. rewrite ratings_sum_from. lia. Qed.

(** [Math.round] picks the integer within one half, ties upward. *)
Lemma Math_round_bounds (q : Q) :
  (inject_Z (Math_round q) - (1 # 2) <= q)%Q ∧ (q < inject_Z (Math_round q) + (1 # 2))%Q.
Proof.
  unfold Math_round.
  pose proof (Qfloor_le (q + (1 # 2))) as Hlo.
  pose proof (Qlt_floor (q + (1 # 2))) as Hhi.
  rewrite inject_Z_plus in Hhi. change (inject_Z 1) with 1%Q in Hhi.
  split; lra.
Qed.

(** C1. The derived [averageRating] of a recipe is 0 when the ratings list
    is empty and otherwise the mean of the rating values rounded to one
    decimal place: a whole number of tenths within half a tenth of the mean,
    a tie going up. It is a function of the ratings list alone: any recipe
    document carrying the same list reads the same average, so nothing is
    stored beside the list. *)
Theorem averageRating_round1_of_mean (r : Recipe.t) :
  let values := Rating.rating <$> Recipe.ratings r in
  match values with
  | [] => averageRating r = 0%Q
  | _ :: _ =>
    let mean := (inject_Z (foldr Z.add 0%Z values) / inject_Z (Z.of_nat (length values)))%Q in
    ∃ k : Z,
      averageRating r = (inject_Z k / 10)%Q
      ∧ (mean - (1 # 20) < averageRating r)%Q
      ∧ (averageRating r <= mean + (1 # 20))%Q
  end
  ∧ ∀ r' : Recipe.t,
      averageRating (Recipe.with_ratings (Recipe.ratings r) r') = averageRating r.
Proof.
  split; [|reflexivity].
  unfold averageRating. rewrite ratings_sum_values.
  rewrite <- (length_fmap Rating.rating (Recipe.ratings r)).
  destruct (Rating.rating <$> Recipe.ratings r) as [|v vs]; simpl length.
  - reflexivity.
  - rewrite bool_decide_eq_false_2 by discriminate.
    set (mean := (inject_Z (foldr Z.add 0%Z (v :: vs)) / inject_Z (Z.of_nat (S (length vs))))%Q).
    exists (Math_round (mean * 10)). split; [reflexivity|].
    destruct (Math_round_bounds (mean * 10)) as [Hlo Hhi].
    clearbody mean.
    assert (Htenths : (inject_Z (Math_round (mean * 10)) / 10 * 10
                       == inject_Z (Math_round (mean * 10)))%Q) by field.
    set (avg := (inject_Z (Math_round (mean * 10)) / 10)%Q) in *.
    clearbody avg. split; lra.
Qed.

(** Four ratings of 5 average 5.0; a fifth rating of 1 brings the average
    to 21/5 = 4.2. *)
Example averageRating_four_fives :
  (averageRating (Demo.rated Demo.four_fives) == 5)%Q
  ∧ (averageRating (Demo.rated (Demo.four_fives ++ [("u5", 1%Z)])) == 42 # 10)%Q
  ∧ ratingsCount (Demo.rated (Demo.four_fives ++ [("u5", 1%Z)])) = 5%Z.
Proof. split; [|split]; vm_compute; reflexivity. Qed.

(** A tie goes up: ratings 1 and 2 and 2 and 2 have mean 1.75, read as 1.8. *)
Example averageRating_tie_goes_up :
  (averageRating
     (Demo.rated [("u1", 1%Z); ("u2", 2%Z); ("u3", 2%Z); ("u4", 2%Z)]) == 18 # 10)%Q.
Proof. vm_compute. reflexivity. Qed.

(** ** Running a controller by hand *)

Ltac unfold_m :=
  unfold after, answer, bind, gets, modify, throw, ret, when in *.

Ltac unfold_model :=
  unfold Notification_create, Recipe_findById, Recipe_save, Recipe_findByIdAndDelete,
    Comment_findById, Comment_save, Comment_findByIdAndDelete, Comment_create,
    Comment_deleteMany_parentComment, Comment_deleteMany_recipe,
    User_findById, User_findByIdAndUpdate, User_updateMany_pull_favorite in *.

Ltac exec :=
  unfold_model;
  repeat (progress (unfold_m; simpl in *) || (case_match; simplify_eq/=)).

Lemma findIndex_Some {A} (p : A → bool) (l : list A) (i : nat) :
  findIndex p l = Some i →
  ∃ x, l !! i = Some x ∧ p x = true ∧ ∀ j y, l !! j = Some y → j < i → p y ≠ true.
Proof.
  unfold findIndex. intros H.
  destruct (list_find (λ x, p x = true) l) as [[j x]|] eqn:E; simplify_eq/=.
  apply list_find_Some in E as (? & ? & ?). eauto.
Qed.

Lemma findIndex_None {A} (p : A → bool) (l : list A) :
  findIndex p l = None → Forall (λ x, p x = false) l.
Proof.
  unfold findIndex. intros H.
  destruct (list_find (λ x, p x = true) l) as [[j x]|] eqn:E; simplify_eq/=.
  apply list_find_None in E. eapply Forall_impl; [exact E|].
  intros x Hx. simpl in Hx. destruct (p x); congruence.
Qed.

Lemma same_true (a b : ObjectId) : same a b = true ↔ a = b.
Proof. unfold same. apply bool_decide_eq_true. Qed.

Lemma same_false (a b : ObjectId) : same a b = false ↔ a ≠ b.
Proof. unfold same. apply bool_decide_eq_false. Qed.

(** ** One rating per user *)

Lemma alter_keeps_userIds (rs : list Rating.t) (i : nat) (v : Z) (now : Date) :
  Rating.userId <$> alter (λ r, Rating.mk (Rating.userId r) v (Rating.review r) now) i rs
  = Rating.userId <$> rs.
Proof.
  revert i. induction rs as [|r rs IH]; intros [|i]; simpl; try reflexivity.
  f_equal. apply IH.
Qed.

Lemma rating_step_NoDup (rs rs' : list Rating.t) :
  rating_step rs rs' →
  NoDup (Rating.userId <$> rs) → NoDup (Rating.userId <$> rs').
Proof.
  intros [|i v now|x Hx] Hnd.
  - exact Hnd.
  - rewrite alter_keeps_userIds. exact Hnd.
  - rewrite fmap_app. simpl. apply NoDup_app. repeat split.
    + exact Hnd.
    + intros y Hy Hin. apply list_elem_of_singleton in Hin. subst y. contradiction.
    + apply NoDup_singleton.
Qed.

Lemma NoDup_userIds_at_most_one (rs : list Rating.t) (u : ObjectId) :
  NoDup (Rating.userId <$> rs) →
  length (filter (λ x, Rating.userId x = u) rs) ≤ 1.
Proof.
  induction rs as [|r rs IH]; intros Hnd; simpl.
  - lia.
  - rewrite fmap_cons in Hnd. apply NoDup_cons in Hnd as [Hnotin Hnd].
    rewrite filter_cons. case_decide as Hu.
    + simpl. destruct (filter (λ x, Rating.userId x = u) rs) as [|y ys] eqn:E;
        [simpl; lia|].
      exfalso. apply Hnotin.
      assert (Hy : y ∈ filter (λ x, Rating.userId x = u) rs) by (rewrite E; left).
      apply list_elem_of_filter in Hy as [Hyu Hy].
      rewrite Hu, <- Hyu. apply list_elem_of_fmap. eauto.
    + apply IH, Hnd.
Qed.

Section RatingInvariant.
Context (schemaAccepts : Notification.t → bool).

Lemma rateRecipe_ratings u rid v now s id r' :
  recipes (after (rateRecipe schemaAccepts u rid v now) s) !! id = Some r' →
  ∃ r, recipes s !! id = Some r ∧ rating_step (Recipe.ratings r) (Recipe.ratings r').
Proof.
  unfold rateRecipe. exec; intros Hr'.
  all: try (eexists; split; [eassumption|constructor]; fail).
  all: apply lookup_insert_Some in Hr' as [[-> <-]|[_ Hr']];
    try (eexists; split; [eassumption|constructor]; fail).
  all: eexists; split; [eassumption|]; simpl.
  all: match goal with
       | H : findIndex _ _ = None |- _ =>
         apply findIndex_None in H; rewrite Forall_forall in H
       end.
  all: constructor; simpl; intros Hin;
    apply list_elem_of_fmap in Hin as (x & Hx & Hin);
    match goal with
    | H : ∀ x, _ → _ |- _ => specialize (H x Hin); apply same_false in H
    end; congruence.
Qed.

(** Every other controller leaves each ratings array as it found it. *)
Lemma handle_ratings req s id r' :
  recipes (handle schemaAccepts req s) !! id = Some r' →
  ∃ r, recipes s !! id = Some r ∧ rating_step (Recipe.ratings r) (Recipe.ratings r').
Proof.
  destruct req; simpl; [apply rateRecipe_ratings|..].
  all: unfold toggleLikeRecipe, followUser, unfollowUser, addToFavorites,
         removeFromFavorites, addComment, deleteComment, likeComment,
         unlikeComment, toggleCommentLike, deleteRecipe.
  all: exec; intros Hr'.
  all: try (eexists; split; [eassumption|constructor]; fail).
  all: try (apply lookup_insert_Some in Hr' as [[-> <-]|[_ Hr']];
            eexists; (split; [eassumption|constructor]); fail).
  all: apply lookup_delete_Some in Hr' as [_ Hr'];
    eexists; (split; [eassumption|constructor]).
Qed.

Lemma run_keeps_one_rating_per_user reqs s :
  (∀ id r, recipes s !! id = Some r → NoDup (Rating.userId <$> Recipe.ratings r)) →
  ∀ id r, recipes (run schemaAccepts reqs s) !! id = Some r →
          NoDup (Rating.userId <$> Recipe.ratings r).
Proof.
  revert s. induction reqs as [|req reqs IH]; intros s Hinv; simpl.
  - exact Hinv.
  - apply IH. intros id r' Hr'.
    apply handle_ratings in Hr' as (r & Hr & Hstep).
    eapply rating_step_NoDup; eauto.
Qed.

Lemma alter_at_entry (rs : list Rating.t) (i : nat) (old : Rating.t) f :
  rs !! i = Some old → alter f i rs = <[i := f old]> rs.
Proof.
  revert i. induction rs as [|r rs IH]; intros [|i] H; simplify_eq/=; try reflexivity.
  f_equal. apply IH, H.
Qed.

Lemma findIndex_of_entry (rs : list Rating.t) (i : nat) (old : Rating.t) :
  NoDup (Rating.userId <$> rs) →
  rs !! i = Some old →
  findIndex (λ r, same (Rating.userId r) (Rating.userId old)) rs = Some i.
Proof.
  intros Hnd Hi.
  destruct (findIndex (λ r, same (Rating.userId r) (Rating.userId old)) rs)
    as [j|] eqn:E.
  - apply findIndex_Some in E as (x & Hj & Hx & _). apply same_true in Hx.
    f_equal. eapply NoDup_lookup; [exact Hnd| |].
    + rewrite list_lookup_fmap, Hj. simpl. rewrite Hx. reflexivity.
    + rewrite list_lookup_fmap, Hi. reflexivity.
  - apply findIndex_None in E. rewrite Forall_forall in E.
    assert (Hin : old ∈ rs) by (eapply list_elem_of_lookup_2; eauto).
    specialize (E old Hin). apply same_false in E. congruence.
Qed.

(** A user who has an entry gets it rewritten where it stands. *)
Lemma rateRecipe_overwrites u rid v now s recipe i old :
  (1 ≤ v ≤ 5)%Z →
  recipes s !! rid = Some recipe →
  NoDup (Rating.userId <$> Recipe.ratings recipe) →
  Recipe.ratings recipe !! i = Some old →
  Rating.userId old = u →
  let recipe' :=
    Recipe.with_ratings
      (<[i := Rating.mk u v (Rating.review old) now]> (Recipe.ratings recipe)) recipe in
  rateRecipe schemaAccepts u rid v now s
  = (with_recipes <[rid := recipe']> s,
     inr (mkRateData (averageRating recipe') (ratingsCount recipe'))).
Proof.
  intros Hv Hr Hnd Hi Hu recipe'. unfold rateRecipe.
  assert ((bool_decide (v = 0%Z) || (v <? 1)%Z || (5 <? v)%Z) = false) as ->.
  { rewrite !orb_false_iff, bool_decide_eq_false, !Z.ltb_ge. lia. }
  unfold_model. unfold_m. rewrite Hr. subst u.
  rewrite (findIndex_of_entry _ i old Hnd Hi).
  rewrite (alter_at_entry _ i old _ Hi). reflexivity.
Qed.
End RatingInvariant.

(** One entry per user. From a store in which no ratings list names a user
    twice, no run of
    requests (rate calls included, by any users, on any recipes, with any
    values, answered or thrown) leads to a recipe whose ratings hold more
    than one entry of a user U; and a valid rate call by a user who already
    has an entry answers with success and rewrites that entry's value and
    timestamp at its index, leaving the list's length, the entry's user
    and every other entry as they were. *)
Theorem rateRecipe_one_entry_per_user
    (schemaAccepts : Notification.t → bool) (s : Store) :
  (∀ id r, recipes s !! id = Some r → NoDup (Rating.userId <$> Recipe.ratings r)) →
  (∀ reqs id r u,
     recipes (run schemaAccepts reqs s) !! id = Some r →
     length (filter (λ x, Rating.userId x = u) (Recipe.ratings r)) ≤ 1)
  ∧ (∀ u rid v now recipe i old,
       (1 ≤ v ≤ 5)%Z →
       recipes s !! rid = Some recipe →
       Recipe.ratings recipe !! i = Some old →
       Rating.userId old = u →
       let ratings' :=
         <[i := Rating.mk u v (Rating.review old) now]> (Recipe.ratings recipe) in
       after (rateRecipe schemaAccepts u rid v now) s
       = with_recipes <[rid := Recipe.with_ratings ratings' recipe]> s
       ∧ (∃ d, answer (rateRecipe schemaAccepts u rid v now) s = inr d
               ∧ rd_totalRatings d = Z.of_nat (length (Recipe.ratings recipe)))
       ∧ length ratings' = length (Recipe.ratings recipe)).
Proof.
  intros Hinv. split.
  - intros reqs id r u Hr. apply NoDup_userIds_at_most_one.
    eapply run_keeps_one_rating_per_user; eauto.
  - intros u rid v now recipe i old Hv Hr Hi Hu ratings'.
    pose proof (rateRecipe_overwrites schemaAccepts u rid v now s recipe i old
                  Hv Hr (Hinv _ _ Hr) Hi Hu) as E.
    unfold after, answer. rewrite E. simpl. split; [reflexivity|]. split.
    + eexists. split; [reflexivity|]. simpl. unfold ratingsCount. simpl.
      rewrite length_insert. reflexivity.
    + apply length_insert.
Qed.

Lemma rateRecipe_one_entry_per_user_witness :
  (∀ id r, recipes Demo.store_rated !! id = Some r →
           NoDup (Rating.userId <$> Recipe.ratings r))
  ∧ (∀ reqs id r u,
       recipes (run acceptAll reqs Demo.store_rated) !! id = Some r →
       length (filter (λ x, Rating.userId x = u) (Recipe.ratings r)) ≤ 1)
  ∧ after (rateRecipe acceptAll Demo.bob "r1" 2 200%Z) Demo.store_rated
    = with_recipes
        <["r1" := Recipe.with_ratings
                    [Rating.mk Demo.bob 2 (Some "Great recipe!") 200%Z] Demo.pasta]>
        Demo.store_rated.
Proof.
  assert (Hinv : ∀ id r, recipes Demo.store_rated !! id = Some r →
                         NoDup (Rating.userId <$> Recipe.ratings r)).
  { intros id r H. change (recipes Demo.store_rated) with
      ({["r1" := Demo.pasta_rated]} : gmap ObjectId Recipe.t) in H.
    apply lookup_singleton_Some in H as [_ <-]. apply NoDup_singleton. }
  split; [exact Hinv|].
  destruct (rateRecipe_one_entry_per_user acceptAll Demo.store_rated Hinv) as [Hcount Hover].
  split; [exact Hcount|].
  refine (proj1 (Hover Demo.bob "r1" 2%Z 200%Z Demo.pasta_rated 0
                   (Rating.mk Demo.bob 4 (Some "Great recipe!") 100%Z) _ _ _ _)).
  - lia.
  - reflexivity.
  - reflexivity.
  - reflexivity.
Defined.

(** ** Self-notification suppression *)

Section NoSelfNotification.
Context (schemaAccepts : Notification.t → bool).

Lemma guard_differs (a b : ObjectId) : negb (same a b) = true → a ≠ b.
Proof. intros H. apply negb_true_iff in H. apply same_false in H. exact H. Qed.

(** Each request leaves only notifications between two different users. *)
Lemma handle_no_self_notification req s :
  Forall not_to_self (notifications s) →
  Forall not_to_self (notifications (handle schemaAccepts req s)).
Proof.
  intros Hs. destruct req; simpl.
  all: unfold rateRecipe, toggleLikeRecipe, followUser, unfollowUser, addToFavorites,
         removeFromFavorites, addComment, deleteComment, likeComment,
         unlikeComment, toggleCommentLike, deleteRecipe.
  all: exec; try assumption.
  all: repeat (apply Forall_app; split); try assumption.
  all: apply Forall_singleton; unfold not_to_self; simpl.
  all: try (apply guard_differs; assumption).
  all: match goal with
       | H : same ?a ?b = false |- ?b ≠ ?a =>
         apply same_false in H; congruence
       end.
Qed.
End NoSelfNotification.

(** C3. In a store whose notifications all have a recipient other than
    their sender, no run of requests (rating, liking a recipe, following,
    unfollowing, favoriting, commenting, replying, deleting or liking a
    comment, deleting a recipe), whatever each one answers, leaves a
    notification whose recipient equals its sender. *)
Theorem no_self_notification
    (schemaAccepts : Notification.t → bool) (reqs : list Request) (s : Store) :
  Forall not_to_self (notifications s) →
  Forall not_to_self (notifications (run schemaAccepts reqs s)).
Proof.
  revert s. induction reqs as [|req reqs IH]; intros s Hs; simpl.
  - exact Hs.
  - apply IH, handle_no_self_notification, Hs.
Qed.

Lemma no_self_notification_witness :
  Forall not_to_self (notifications Demo.store)
  ∧ Forall not_to_self (notifications (run acceptAll Demo.session Demo.store))
  ∧ length (notifications (run acceptAll Demo.session Demo.store)) = 6.
Proof.
  assert (H0 : Forall not_to_self (notifications Demo.store)) by constructor.
  split; [exact H0|]. split.
  - exact (no_self_notification acceptAll Demo.session Demo.store H0).
  - vm_compute. reflexivity.
Defined.

(** ** Like toggle *)

Lemma findIndex_same_None (l : list ObjectId) (u : ObjectId) :
  findIndex (λ id, same id u) l = None ↔ u ∉ l.
Proof.
  split.
  - intros H Hin. apply findIndex_None in H. rewrite Forall_forall in H.
    specialize (H u Hin). apply same_false in H. congruence.
  - intros Hnin. destruct (findIndex (λ id, same id u) l) as [i|] eqn:E; [|reflexivity].
    apply findIndex_Some in E as (x & Hi & Hx & _). apply same_true in Hx. subst x.
    exfalso. apply Hnin. eapply list_elem_of_lookup_2; eauto.
Qed.

Lemma findIndex_same_Some (l : list ObjectId) (u : ObjectId) (i : nat) :
  findIndex (λ id, same id u) l = Some i → l !! i = Some u.
Proof.
  intros H. apply findIndex_Some in H as (x & Hi & Hx & _).
  apply same_true in Hx. congruence.
Qed.

Lemma findIndex_pushed (l : list ObjectId) (u : ObjectId) :
  u ∉ l → findIndex (λ id, same id u) (l ++ [u]) = Some (length l).
Proof.
  unfold findIndex. induction l as [|x l IH]; intros Hnin; simpl.
  - rewrite decide_True by (apply same_true; reflexivity). reflexivity.
  - apply not_elem_of_cons in Hnin as [Hne Hnin].
    rewrite decide_False by (intros Hx; apply same_true in Hx; congruence).
    specialize (IH Hnin).
    destruct (list_find (λ x0, same x0 u = true) (l ++ [u])) as [[j y]|];
      simplify_eq/=. reflexivity.
Qed.

Lemma delete_pushed (l : list ObjectId) (u : ObjectId) :
  delete (length l) (l ++ [u]) = l.
Proof. induction l as [|x l IH]; simpl; [reflexivity|]. f_equal. exact IH. Qed.

Lemma NoDup_delete_not_elem (l : list ObjectId) (u : ObjectId) (i : nat) :
  NoDup l → l !! i = Some u → u ∉ delete i l.
Proof.
  intros Hnd Hi Hin.
  apply list_elem_of_lookup in Hin as [j Hj].
  destruct (decide (j < i)) as [Hlt|Hge].
  - rewrite list_lookup_delete_lt in Hj by exact Hlt.
    pose proof (NoDup_lookup _ _ _ _ Hnd Hi Hj). lia.
  - rewrite list_lookup_delete_ge in Hj by lia.
    pose proof (NoDup_lookup _ _ _ _ Hnd Hi Hj). lia.
Qed.

Lemma with_likes_same (r : Recipe.t) : Recipe.with_likes (Recipe.likes r) r = r.
Proof. destruct r. reflexivity. Qed.

Section LikeToggle.
Context (schemaAccepts : Notification.t → bool).

Lemma toggleLikeRecipe_unlikes u rid s recipe i :
  recipes s !! rid = Some recipe →
  findIndex (λ id, same id u) (Recipe.likes recipe) = Some i →
  let recipe' := Recipe.with_likes (delete i (Recipe.likes recipe)) recipe in
  toggleLikeRecipe schemaAccepts u rid s
  = (with_recipes <[rid := recipe']> s, inr (mkLikeData false (likesCount recipe'))).
Proof.
  intros Hr Hi recipe'. unfold toggleLikeRecipe. unfold_model. unfold_m.
  rewrite Hr, Hi. reflexivity.
Qed.

Lemma toggleLikeRecipe_likes u rid s recipe :
  recipes s !! rid = Some recipe →
  findIndex (λ id, same id u) (Recipe.likes recipe) = None →
  Recipe.author recipe = u ∨ schemaAccepts (likeNotification u rid recipe) = true →
  let recipe' := Recipe.with_likes (Recipe.likes recipe ++ [u]) recipe in
  ∃ ns, toggleLikeRecipe schemaAccepts u rid s
        = (with_recipes <[rid := recipe']> (with_notifications (λ l, l ++ ns) s),
           inr (mkLikeData true (likesCount recipe'))).
Proof.
  intros Hr Hi Hok recipe'. unfold toggleLikeRecipe. unfold_model. unfold_m.
  rewrite Hr, Hi. simpl.
  destruct (same (Recipe.author recipe) u) eqn:Ha; simpl.
  - exists []. unfold with_notifications, with_recipes. simpl.
    rewrite app_nil_r. destruct s; reflexivity.
  - destruct Hok as [Hok|Hok]; [apply same_false in Ha; contradiction|].
    unfold likeNotification in Hok. rewrite Hok. simpl.
    eexists [_]. reflexivity.
Qed.
End LikeToggle.

(** Two toggles when the like can be notified. For a stored recipe whose
    like list has no repeated id, and a user
    whose like can be notified (the user is the author, so nothing is sent,
    or the store accepts the like notification), two toggleLike calls in a
    row both answer, the second answer undoes the first, and the recipe ends
    with the like set it started with: the same ids (the list is a
    permutation of the original) and the same [likesCount]. *)
Theorem toggleLikeRecipe_twice_restores
    (schemaAccepts : Notification.t → bool) (u rid : ObjectId) (s : Store)
    (recipe : Recipe.t) :
  recipes s !! rid = Some recipe →
  NoDup (Recipe.likes recipe) →
  Recipe.author recipe = u ∨ schemaAccepts (likeNotification u rid recipe) = true →
  let toggle := toggleLikeRecipe schemaAccepts u rid in
  let s1 := after toggle s in
  let s2 := after toggle s1 in
  ∃ recipe2 d1 d2,
    answer toggle s = inr d1
    ∧ answer toggle s1 = inr d2
    ∧ recipes s2 !! rid = Some recipe2
    ∧ Recipe.likes recipe2 ≡ₚ Recipe.likes recipe
    ∧ likesCount recipe2 = likesCount recipe
    ∧ ld_likesCount d2 = likesCount recipe
    ∧ ld_isLiked d1 = negb (bool_decide (u ∈ Recipe.likes recipe))
    ∧ ld_isLiked d2 = bool_decide (u ∈ Recipe.likes recipe).
Proof.
  intros Hr Hnd Hok toggle s1 s2. subst s2 s1 toggle. unfold after, answer.
  destruct (findIndex (λ id, same id u) (Recipe.likes recipe)) as [i|] eqn:Hi.
  - (* liked: unlike, then like again *)
    pose proof (findIndex_same_Some _ _ _ Hi) as Hu.
    rewrite (toggleLikeRecipe_unlikes schemaAccepts u rid s recipe i Hr Hi). simpl.
    set (recipe1 := Recipe.with_likes (delete i (Recipe.likes recipe)) recipe).
    set (s1 := with_recipes <[rid := recipe1]> s).
    assert (Hr1 : recipes s1 !! rid = Some recipe1) by apply lookup_insert_eq.
    assert (Hi1 : findIndex (λ id, same id u) (Recipe.likes recipe1) = None).
    { apply findIndex_same_None. simpl. eapply NoDup_delete_not_elem; eauto. }
    destruct (toggleLikeRecipe_likes schemaAccepts u rid s1 recipe1 Hr1 Hi1 Hok)
      as [ns E].
    rewrite E. simpl.
    assert (Hperm : delete i (Recipe.likes recipe) ++ [u] ≡ₚ Recipe.likes recipe).
    { rewrite (delete_Permutation _ _ _ Hu) at 2. symmetry. apply Permutation_cons_append. }
    exists (Recipe.with_likes (Recipe.likes recipe1 ++ [u]) recipe1).
    eexists _, _. split; [reflexivity|]. split; [reflexivity|]. split_and!.
    + apply lookup_insert_eq.
    + exact Hperm.
    + unfold likesCount. simpl. rewrite (Permutation_length Hperm). reflexivity.
    + simpl. unfold likesCount. simpl. rewrite (Permutation_length Hperm). reflexivity.
    + simpl. symmetry. apply negb_false_iff, bool_decide_eq_true.
      eapply list_elem_of_lookup_2; eauto.
    + simpl. symmetry. apply bool_decide_eq_true.
      eapply list_elem_of_lookup_2; eauto.
  - (* not liked: like, then unlike *)
    pose proof (proj1 (findIndex_same_None _ _) Hi) as Hnin.
    destruct (toggleLikeRecipe_likes schemaAccepts u rid s recipe Hr Hi Hok) as [ns E].
    rewrite E. simpl.
    set (recipe1 := Recipe.with_likes (Recipe.likes recipe ++ [u]) recipe).
    set (s1 := with_recipes <[rid := recipe1]> (with_notifications (λ l, l ++ ns) s)).
    assert (Hr1 : recipes s1 !! rid = Some recipe1) by apply lookup_insert_eq.
    assert (Hi1 : findIndex (λ id, same id u) (Recipe.likes recipe1)
                  = Some (length (Recipe.likes recipe)))
      by (apply findIndex_pushed; exact Hnin).
    rewrite (toggleLikeRecipe_unlikes schemaAccepts u rid s1 recipe1 _ Hr1 Hi1). simpl.
    exists (Recipe.with_likes (delete (length (Recipe.likes recipe)) (Recipe.likes recipe1))
              recipe1).
    eexists _, _. split; [reflexivity|]. split; [reflexivity|]. split_and!.
    + apply lookup_insert_eq.
    + simpl. rewrite delete_pushed. reflexivity.
    + unfold likesCount. simpl. rewrite delete_pushed. reflexivity.
    + simpl. unfold likesCount. simpl. rewrite delete_pushed. reflexivity.
    + simpl. symmetry. apply negb_true_iff, bool_decide_eq_false. exact Hnin.
    + simpl. symmetry. apply bool_decide_eq_false. exact Hnin.
Qed.

Lemma toggleLikeRecipe_twice_restores_witness :
  recipes Demo.store !! "r1" = Some Demo.pasta
  ∧ NoDup (Recipe.likes Demo.pasta)
  ∧ (Recipe.author Demo.pasta = Demo.bob
     ∨ acceptAll (likeNotification Demo.bob "r1" Demo.pasta) = true)
  ∧ ∃ recipe2 d1 d2,
      answer (toggleLikeRecipe acceptAll Demo.bob "r1") Demo.store = inr d1
      ∧ answer (toggleLikeRecipe acceptAll Demo.bob "r1")
               (after (toggleLikeRecipe acceptAll Demo.bob "r1") Demo.store) = inr d2
      ∧ recipes (after (toggleLikeRecipe acceptAll Demo.bob "r1")
                   (after (toggleLikeRecipe acceptAll Demo.bob "r1") Demo.store))
          !! "r1" = Some recipe2
      ∧ Recipe.likes recipe2 ≡ₚ Recipe.likes Demo.pasta
      ∧ likesCount recipe2 = likesCount Demo.pasta
      ∧ ld_likesCount d2 = likesCount Demo.pasta
      ∧ ld_isLiked d1 = negb (bool_decide (Demo.bob ∈ Recipe.likes Demo.pasta))
      ∧ ld_isLiked d2 = bool_decide (Demo.bob ∈ Recipe.likes Demo.pasta).
Proof.
  assert (H1 : recipes Demo.store !! "r1" = Some Demo.pasta) by reflexivity.
  assert (H2 : NoDup (Recipe.likes Demo.pasta)) by constructor.
  assert (H3 : Recipe.author Demo.pasta = Demo.bob
               ∨ acceptAll (likeNotification Demo.bob "r1" Demo.pasta) = true)
    by (right; reflexivity).
  split; [exact H1|]. split; [exact H2|]. split; [exact H3|].
  exact (toggleLikeRecipe_twice_restores acceptAll Demo.bob "r1" Demo.store Demo.pasta
           H1 H2 H3).
Defined.

(** The like list of a recipe stays free of repeats under every request. *)

Lemma likes_step_NoDup (ls ls' : list ObjectId) :
  likes_step ls ls' → NoDup ls → NoDup ls'.
Proof.
  intros [|i|u Hu] Hnd.
  - exact Hnd.
  - eapply sublist_NoDup; [exact Hnd|apply sublist_delete].
  - apply NoDup_app. repeat split.
    + exact Hnd.
    + intros y Hy Hin. apply list_elem_of_singleton in Hin. subst y. contradiction.
    + apply NoDup_singleton.
Qed.

Section LikesInvariant.
Context (schemaAccepts : Notification.t → bool).

Lemma handle_likes req s id r' :
  recipes (handle schemaAccepts req s) !! id = Some r' →
  ∃ r, recipes s !! id = Some r ∧ likes_step (Recipe.likes r) (Recipe.likes r').
Proof.
  destruct req; simpl.
  all: unfold rateRecipe, toggleLikeRecipe, followUser, unfollowUser, addToFavorites,
         removeFromFavorites, addComment, deleteComment, likeComment,
         unlikeComment, toggleCommentLike, deleteRecipe.
  all: exec; intros Hr'.
  all: try (eexists; split; [eassumption|constructor]; fail).
  all: try (apply lookup_delete_Some in Hr' as [_ Hr'];
            eexists; (split; [eassumption|constructor]); fail).
  all: apply lookup_insert_Some in Hr' as [[-> <-]|[_ Hr']];
    try (eexists; split; [eassumption|constructor]; fail).
  all: eexists; split; [eassumption|]; simpl; constructor.
  all: apply findIndex_same_None; assumption.
Qed.

Lemma run_keeps_likes_NoDup reqs s :
  (∀ id r, recipes s !! id = Some r → NoDup (Recipe.likes r)) →
  ∀ id r, recipes (run schemaAccepts reqs s) !! id = Some r → NoDup (Recipe.likes r).
Proof.
  revert s. induction reqs as [|req reqs IH]; intros s Hinv; simpl.
  - exact Hinv.
  - apply IH. intros id r' Hr'.
    apply handle_likes in Hr' as (r & Hr & Hstep).
    eapply likes_step_NoDup; eauto.
Qed.
End LikesInvariant.

(** ** Discovery: visibility *)

(** The sibling read paths ([getUserRecipes], [Recipe.findPublished]) only
    return recipes that are both published and public. *)
Lemma userRecipesFilter_visible regexTest userId (r : Recipe.t) :
  matches regexTest (userRecipesFilter userId) r = true →
  Recipe.isPublished r = true ∧ Recipe.isPublic r = true.
Proof.
  unfold matches, userRecipesFilter. simpl. rewrite !andb_true_iff, !bool_decide_eq_true.
  tauto.
Qed.

Lemma findPublishedFilter_visible regexTest (r : Recipe.t) :
  matches regexTest findPublishedFilter r = true →
  Recipe.isPublished r = true ∧ Recipe.isPublic r = true.
Proof.
  unfold matches, findPublishedFilter. simpl. rewrite !andb_true_iff, !bool_decide_eq_true.
  tauto.
Qed.

(** What the search filter does guarantee: every match is published. *)
Lemma buildSearchFilter_published regexTest parseInt (q : Query.t) (r : Recipe.t) :
  matches regexTest (buildSearchFilter parseInt q) r = true →
  Recipe.isPublished r = true.
Proof.
  unfold matches, buildSearchFilter. simpl. rewrite !andb_true_iff, !bool_decide_eq_true.
  tauto.
Qed.

(** With no query parameter at all, the search filter is exactly the
    published flag. *)
Lemma buildSearchFilter_none regexTest parseInt (r : Recipe.t) :
  matches regexTest (buildSearchFilter parseInt Query.none) r = Recipe.isPublished r.
Proof.
  unfold matches, buildSearchFilter. simpl. rewrite !andb_true_r.
  destruct (Recipe.isPublished r); reflexivity.
Qed.

(** C5. The search filter never carries an [isPublic] key, whatever the
    query, and the category listing filters on [isPublished] alone. On the
    store whose only recipe is published but private, the search with no
    parameters returns that recipe (total 1) and the category listing
    reports its cuisine, meal type, dietary tag and tag. *)
Theorem getAllRecipes_returns_private_recipe :
  (∀ parseInt q, Filter.isPublic (buildSearchFilter parseInt q) = None)
  ∧ Filter.isPublic publishedFilter = None
  ∧ Recipe.isPublished Demo.pasta = true
  ∧ Recipe.isPublic Demo.pasta = false
  ∧ answer (getAllRecipes noMatch parseDecimal naturalOrder Query.none) Demo.store
    = inr (mkSearchData [("r1", Demo.pasta)] (mkPagination 1 10 1 1 false false))
  ∧ answer (getCategories noMatch) Demo.store
    = inr (mkCategories ["Italian"] ["Dinner"] ["Vegetarian"] ["quick"]).
Proof.
  split; [reflexivity|]. split; [reflexivity|]. split; [reflexivity|].
  split; [reflexivity|]. split; vm_compute; reflexivity.
Qed.

(** ** Discovery: pagination *)

(** [Math.ceil(total / limit)] for a positive limit is the number of pages
    of [limit] items needed for [total] items. *)
Lemma Math_ceil_div_bounds (t l : Z) :
  (0 < l)%Z →
  let c := Math_ceil (inject_Z t / inject_Z l) in
  (t ≤ c * l)%Z ∧ ((c - 1) * l < t)%Z.
Proof.
  intros Hl c.
  pose proof (Qle_ceiling (inject_Z t / inject_Z l)) as Hhi.
  pose proof (Qceiling_lt (inject_Z t / inject_Z l)) as Hlo.
  fold (Math_ceil (inject_Z t / inject_Z l)) in Hhi, Hlo. fold c in Hhi, Hlo.
  assert (Hlq : (0 < inject_Z l)%Q) by (unfold Qlt; simpl; lia).
  set (x := (inject_Z t / inject_Z l)%Q) in *.
  assert (Hx : (x * inject_Z l == inject_Z t)%Q).
  { unfold x. field. intros E. rewrite E in Hlq. exact (Qlt_irrefl 0 Hlq). }
  clearbody c x.
  pose proof (Qmult_le_compat_r _ _ (inject_Z l) Hhi (Qlt_le_weak _ _ Hlq)) as Mhi.
  pose proof (Qmult_lt_compat_r _ _ (inject_Z l) Hlq Hlo) as Mlo.
  rewrite Hx in Mhi, Mlo.
  rewrite <- inject_Z_mult in Mhi, Mlo.
  unfold Qle in Mhi. unfold Qlt in Mlo. cbn [inject_Z Qnum Qden] in Mhi, Mlo.
  split; lia.
Qed.

Lemma orDefault_nonzero (n : option Z) (d : Z) : d ≠ 0%Z → orDefault n d ≠ 0%Z.
Proof.
  intros Hd. unfold orDefault. destruct n as [v|]; [|exact Hd].
  case_bool_decide; assumption.
Qed.

Section Pagination.
Context (regexTest : string → string → bool).
Context (parseInt : string → option Z).
Context (sortDocs : SortSpec → list (ObjectId * Recipe.t) → list (ObjectId * Recipe.t)).

(** C9. The page size [L] of a search is never 0, a search that carries no
    pattern (no [keywords], [search] or [ingredients], whose text the source
    turns into a regular expression that may not compile) answers whenever
    its skip [(page - 1) * L] is not negative, and every answer
    carries a pagination object with the requested page and size, the
    number [total] of recipes matching the filter, a [totalPages] that is
    the ceiling of [total / L] (the integer with
    [totalPages - 1 < total / L <= totalPages]; for a positive [L], the
    least count of pages of [L] items that holds [total] items), and a
    [hasNextPage] that is true exactly when [page < totalPages]. *)
Theorem getAllRecipes_pagination (q : Query.t) (s : Store) :
  let p := requestedPage parseInt q in
  let L := requestedLimit parseInt q in
  let t := Z.of_nat (length (Recipe_find regexTest (buildSearchFilter parseInt q) s)) in
  L ≠ 0%Z
  ∧ (truthy (Query.keywords q) = false →
     truthy (Query.search q) = false →
     truthy (Query.ingredients q) = false →
     (0 ≤ (p - 1) * L)%Z →
     ∃ d, answer (getAllRecipes regexTest parseInt sortDocs q) s = inr d)
  ∧ ∀ d, answer (getAllRecipes regexTest parseInt sortDocs q) s = inr d →
      page (sd_pagination d) = p
      ∧ limit (sd_pagination d) = L
      ∧ total (sd_pagination d) = t
      ∧ (inject_Z (totalPages (sd_pagination d)) - 1 < inject_Z t / inject_Z L)%Q
      ∧ (inject_Z t / inject_Z L <= inject_Z (totalPages (sd_pagination d)))%Q
      ∧ ((0 < L)%Z →
         (t ≤ totalPages (sd_pagination d) * L)%Z
         ∧ ((totalPages (sd_pagination d) - 1) * L < t)%Z)
      ∧ (hasNextPage (sd_pagination d) = true
         ↔ (page (sd_pagination d) < totalPages (sd_pagination d))%Z).
Proof.
  intros p L t. split_and!.
  - apply orDefault_nonzero. discriminate.
  - intros _ _ _ Hskip.
    unfold answer, getAllRecipes, Recipe_find_page, Recipe_countDocuments. unfold_m.
    fold p L. assert (((p - 1) * L <? 0)%Z = false) as -> by (apply Z.ltb_ge; exact Hskip).
    simpl. eexists. reflexivity.
  - intros d.
    unfold answer, getAllRecipes, Recipe_find_page, Recipe_countDocuments. unfold_m.
    fold p L. destruct ((p - 1) * L <? 0)%Z; simpl; [discriminate|].
    fold t. intros Hd. inversion Hd; subst d; clear Hd. simpl.
    split_and!; try reflexivity.
    + pose proof (Qceiling_lt (inject_Z t / inject_Z L)) as Hlo.
      unfold Z.sub in Hlo. rewrite inject_Z_plus, inject_Z_opp in Hlo. exact Hlo.
    + apply Qle_ceiling.
    + intros HL. apply Math_ceil_div_bounds. exact HL.
    + apply Z.ltb_lt.
Qed.
End Pagination.

Lemma getAllRecipes_pagination_witness :
  ∃ d, answer (getAllRecipes noMatch parseDecimal naturalOrder Demo.page2) Demo.cookbook
       = inr d
    ∧ sd_pagination d = mkPagination 2 2 5 3 true true
    ∧ (5 ≤ totalPages (sd_pagination d) * 2)%Z
    ∧ ((totalPages (sd_pagination d) - 1) * 2 < 5)%Z
    ∧ (hasNextPage (sd_pagination d) = true
       ↔ (page (sd_pagination d) < totalPages (sd_pagination d))%Z).
Proof.
  destruct (getAllRecipes_pagination noMatch parseDecimal naturalOrder
              Demo.page2 Demo.cookbook) as (_ & Hanswers & Hshape).
  destruct Hanswers as [d Hd];
    [reflexivity|reflexivity|reflexivity|vm_compute; discriminate|].
  exists d. split; [exact Hd|].
  destruct (Hshape d Hd) as (_ & _ & _ & _ & _ & Hpages & Hnext).
  split.
  - vm_compute in Hd. inversion Hd. reflexivity.
  - destruct Hpages as [Hhi Hlo]; [vm_compute; reflexivity|].
    split; [exact Hhi|]. split; [exact Hlo|exact Hnext].
Defined.

(** Page 2 of 3, two recipes per page, five published recipes. *)
Example getAllRecipes_page2 :
  match answer (getAllRecipes noMatch parseDecimal naturalOrder Demo.page2) Demo.cookbook with
  | inr d => sd_pagination d = mkPagination 2 2 5 3 true true
  | inl _ => False
  end.
Proof. vm_compute. reflexivity. Qed.

(** ** Follow conflict *)

Lemma existsb_same (l : list ObjectId) (x : ObjectId) :
  existsb (λ id, same id x) l = true ↔ x ∈ l.
Proof.
  induction l as [|y l IH]; simpl.
  - split; [discriminate|]. intros H. inversion H.
  - rewrite orb_true_iff, IH, same_true, elem_of_cons. split; intros [H|H]; auto.
Qed.

(** C7, as the code has it. When both users exist, [a] is not [b] and [b]
    is already in [a.following], [follow(a, b)] throws a ValidationError
    (not a ConflictError) with the message below and leaves the whole store
    as it was: neither user's following or followers list changes and no
    notification is added. *)
Theorem followUser_already_following
    (schemaAccepts : Notification.t → bool) (a b : ObjectId) (s : Store)
    (ua ub : User.t) :
  a ≠ b →
  users s !! a = Some ua →
  users s !! b = Some ub →
  b ∈ User.following ua →
  answer (followUser schemaAccepts a b) s
  = inl (mkError ValidationError "You are already following this user")
  ∧ after (followUser schemaAccepts a b) s = s
  ∧ users (after (followUser schemaAccepts a b) s) !! a = Some ua
  ∧ users (after (followUser schemaAccepts a b) s) !! b = Some ub
  ∧ notifications (after (followUser schemaAccepts a b) s) = notifications s.
Proof.
  intros Hne Ha Hb Hin.
  assert (E : followUser schemaAccepts a b s
              = (s, inl (mkError ValidationError "You are already following this user"))).
  { unfold followUser. rewrite (proj2 (same_false a b) Hne).
    unfold_model. unfold_m. rewrite Hb, Ha.
    rewrite (proj2 (existsb_same _ _) Hin). reflexivity. }
  unfold answer, after. rewrite E. simpl. auto.
Qed.

Lemma followUser_already_following_witness :
  Demo.bob ≠ Demo.alice
  ∧ users Demo.store_following !! Demo.bob = Some (User.mk "bob" [Demo.alice] [] ["r1"])
  ∧ users Demo.store_following !! Demo.alice = Some (User.mk "alice" [] [Demo.bob] [])
  ∧ Demo.alice ∈ User.following (User.mk "bob" [Demo.alice] [] ["r1"])
  ∧ answer (followUser acceptAll Demo.bob Demo.alice) Demo.store_following
    = inl (mkError ValidationError "You are already following this user")
  ∧ after (followUser acceptAll Demo.bob Demo.alice) Demo.store_following
    = Demo.store_following.
Proof.
  assert (H1 : Demo.bob ≠ Demo.alice) by discriminate.
  assert (H2 : users Demo.store_following !! Demo.bob
               = Some (User.mk "bob" [Demo.alice] [] ["r1"])) by reflexivity.
  assert (H3 : users Demo.store_following !! Demo.alice
               = Some (User.mk "alice" [] [Demo.bob] [])) by reflexivity.
  assert (H4 : Demo.alice ∈ User.following (User.mk "bob" [Demo.alice] [] ["r1"]))
    by (simpl; left).
  split; [exact H1|]. split; [exact H2|]. split; [exact H3|]. split; [exact H4|].
  destruct (followUser_already_following acceptAll Demo.bob Demo.alice
              Demo.store_following _ _ H1 H2 H3 H4) as (Hans & Hafter & _).
  split; [exact Hans|exact Hafter].
Defined.

(** C7 as the claim words it fails: the error thrown for a repeated follow
    is not of the Conflict class. *)
Lemma followUser_conflict_counterexample :
  Demo.alice ∈ User.following (User.mk "bob" [Demo.alice] [] ["r1"])
  ∧ users Demo.store_following !! Demo.bob = Some (User.mk "bob" [Demo.alice] [] ["r1"])
  ∧ ¬ ∃ msg, answer (followUser acceptAll Demo.bob Demo.alice) Demo.store_following
             = inl (mkError ConflictError msg).
Proof.
  split; [simpl; left|]. split; [reflexivity|].
  intros [msg H]. vm_compute in H. discriminate H.
Qed.

(** ** Cascading deletes *)

Lemma pull_absent (x : ObjectId) (l : list ObjectId) : x ∉ l → pull x l = l.
Proof.
  unfold pull. induction l as [|y l IH]; intros Hnin; [reflexivity|].
  apply not_elem_of_cons in Hnin as [Hne Hnin].
  rewrite filter_cons_True by congruence. f_equal. apply IH, Hnin.
Qed.

(** C8. When the author deletes a comment (a root comment in particular),
    the request answers with success and, in the store it leaves, the
    comment is gone, no stored comment has it as [parentComment], and the
    replies query for it returns nothing; comments that were not its replies
    stay as they were. *)
Theorem deleteComment_removes_replies
    (userId commentId : ObjectId) (s : Store) (comment : Comment.t) :
  comments s !! commentId = Some comment →
  Comment.author comment = userId →
  let s' := after (deleteComment userId commentId) s in
  answer (deleteComment userId commentId) s = inr "Comment deleted successfully"
  ∧ comments s' !! commentId = None
  ∧ (∀ k c, comments s' !! k = Some c → Comment.parentComment c ≠ Some commentId)
  ∧ Comment_find_parentComment commentId s' = []
  ∧ (∀ k c, k ≠ commentId → Comment.parentComment c ≠ Some commentId →
            comments s !! k = Some c → comments s' !! k = Some c).
Proof.
  intros Hc Ha s'.
  assert (E : deleteComment userId commentId s
    = (with_comments
         (λ m, delete commentId
                 (filter (λ kc, Comment.parentComment kc.2 ≠ Some commentId) m)) s,
       inr "Comment deleted successfully")).
  { unfold deleteComment. unfold_model. unfold_m. rewrite Hc.
    rewrite (proj2 (same_true _ _) Ha). reflexivity. }
  subst s'. unfold answer, after. rewrite E. simpl.
  assert (Hnone : ∀ k c,
    delete commentId
      (filter (λ kc, Comment.parentComment kc.2 ≠ Some commentId) (comments s)) !! k
    = Some c → Comment.parentComment c ≠ Some commentId).
  { intros k c H. apply lookup_delete_Some in H as [_ H].
    apply map_lookup_filter_Some in H as [_ H]. exact H. }
  split_and!.
  - reflexivity.
  - apply lookup_delete_eq.
  - exact Hnone.
  - unfold Comment_find_parentComment. simpl.
    apply map_to_list_empty_iff, map_empty. intros k.
    apply map_lookup_filter_None. right. intros c H Hp. simpl in Hp.
    exact (Hnone k c H Hp).
  - intros k c Hk Hp H. rewrite lookup_delete_ne by congruence.
    apply map_lookup_filter_Some. split; [exact H|exact Hp].
Qed.

Lemma deleteComment_removes_replies_witness :
  comments Demo.store_thread !! "c1" = Some Demo.root
  ∧ Comment.author Demo.root = Demo.alice
  ∧ answer (deleteComment Demo.alice "c1") Demo.store_thread
    = inr "Comment deleted successfully"
  ∧ comments (after (deleteComment Demo.alice "c1") Demo.store_thread) !! "c1" = None
  ∧ Comment_find_parentComment "c1" (after (deleteComment Demo.alice "c1") Demo.store_thread)
    = []
  ∧ comments (after (deleteComment Demo.alice "c1") Demo.store_thread) = ∅.
Proof.
  assert (H1 : comments Demo.store_thread !! "c1" = Some Demo.root) by reflexivity.
  assert (H2 : Comment.author Demo.root = Demo.alice) by reflexivity.
  split; [exact H1|]. split; [exact H2|].
  destruct (deleteComment_removes_replies Demo.alice "c1" Demo.store_thread Demo.root H1 H2)
    as (Hans & Hgone & _ & Hfind & _).
  split; [exact Hans|]. split; [exact Hgone|]. split; [exact Hfind|].
  vm_compute. reflexivity.
Defined.

(** The cascade is one level deep: a reply to a reply of the deleted comment
    is not a reply to it, and stays. *)
Example deleteComment_keeps_deeper_replies :
  comments (after (deleteComment Demo.alice "c1") Demo.store_deep)
  = {["c3" := Demo.third]}.
Proof. vm_compute. reflexivity. Qed.

(** C10. When the author deletes a recipe, the request answers with
    success and, in the store it leaves, the recipe is gone, no comment
    belongs to it, and no user has its id among the favorites: every user
    keeps the other favorites, in order, and every other field; comments of
    other recipes stay. *)
Theorem deleteRecipe_cascades
    (userId recipeId : ObjectId) (s : Store) (recipe : Recipe.t) :
  recipes s !! recipeId = Some recipe →
  Recipe.author recipe = userId →
  let s' := after (deleteRecipe userId recipeId) s in
  answer (deleteRecipe userId recipeId) s = inr "Recipe deleted successfully"
  ∧ recipes s' !! recipeId = None
  ∧ (∀ k c, comments s' !! k = Some c → Comment.recipe c ≠ recipeId)
  ∧ Comment_find_recipe recipeId s' = []
  ∧ (∀ k u, users s' !! k = Some u → recipeId ∉ User.favoriteRecipes u)
  ∧ (∀ k u, users s !! k = Some u →
            users s' !! k
            = Some (User.with_favoriteRecipes (pull recipeId (User.favoriteRecipes u)) u))
  ∧ (∀ k c, Comment.recipe c ≠ recipeId →
            comments s !! k = Some c → comments s' !! k = Some c).
Proof.
  intros Hr Ha s'.
  assert (E : deleteRecipe userId recipeId s
    = (mkStore
         ((λ u, if bool_decide (recipeId ∈ User.favoriteRecipes u)
                then User.with_favoriteRecipes (pull recipeId (User.favoriteRecipes u)) u
                else u) <$> users s)
         (delete recipeId (recipes s))
         (filter (λ kc, Comment.recipe kc.2 ≠ recipeId) (comments s))
         (notifications s),
       inr "Recipe deleted successfully")).
  { unfold deleteRecipe. unfold_model. unfold_m. rewrite Hr.
    rewrite (proj2 (same_true _ _) Ha). reflexivity. }
  subst s'. unfold answer, after. rewrite E. simpl.
  assert (Hpulled : ∀ u : User.t,
    (if bool_decide (recipeId ∈ User.favoriteRecipes u)
     then User.with_favoriteRecipes (pull recipeId (User.favoriteRecipes u)) u
     else u)
    = User.with_favoriteRecipes (pull recipeId (User.favoriteRecipes u)) u).
  { intros u. case_bool_decide as Hin; [reflexivity|].
    destruct u as [n fg fr fav]. unfold User.with_favoriteRecipes, pull. simpl in *.
    f_equal. symmetry. apply pull_absent. exact Hin. }
  assert (Hcomments : ∀ k c,
    filter (λ kc, Comment.recipe kc.2 ≠ recipeId) (comments s) !! k = Some c →
    Comment.recipe c ≠ recipeId).
  { intros k c H. apply map_lookup_filter_Some in H as [_ H]. exact H. }
  split_and!.
  - reflexivity.
  - apply lookup_delete_eq.
  - exact Hcomments.
  - unfold Comment_find_recipe. simpl.
    apply map_to_list_empty_iff, map_empty. intros k.
    apply map_lookup_filter_None. right. intros c H Hp. simpl in Hp.
    exact (Hcomments k c H Hp).
  - intros k u H. rewrite lookup_fmap in H.
    destruct (users s !! k) as [u0|]; simplify_eq/=.
    rewrite Hpulled. unfold pull. simpl. intros Hin.
    apply list_elem_of_filter in Hin as [Hne _]. congruence.
  - intros k u H. rewrite lookup_fmap, H. simpl. rewrite Hpulled. reflexivity.
  - intros k c Hc H. apply map_lookup_filter_Some. split; [exact H|exact Hc].
Qed.

Lemma deleteRecipe_cascades_witness :
  recipes Demo.store_commented !! "r1" = Some Demo.pasta
  ∧ Recipe.author Demo.pasta = Demo.alice
  ∧ answer (deleteRecipe Demo.alice "r1") Demo.store_commented
    = inr "Recipe deleted successfully"
  ∧ recipes (after (deleteRecipe Demo.alice "r1") Demo.store_commented) !! "r1" = None
  ∧ Comment_find_recipe "r1" (after (deleteRecipe Demo.alice "r1") Demo.store_commented) = []
  ∧ users (after (deleteRecipe Demo.alice "r1") Demo.store_commented) !! Demo.bob
    = Some (User.mk "bob" [Demo.alice] [] ["r2"]).
Proof.
  assert (H1 : recipes Demo.store_commented !! "r1" = Some Demo.pasta) by reflexivity.
  assert (H2 : Recipe.author Demo.pasta = Demo.alice) by reflexivity.
  split; [exact H1|]. split; [exact H2|].
  destruct (deleteRecipe_cascades Demo.alice "r1" Demo.store_commented Demo.pasta H1 H2)
    as (Hans & Hgone & _ & Hfind & _ & Husers & _).
  split; [exact Hans|]. split; [exact Hgone|]. split; [exact Hfind|].
  exact (Husers Demo.bob (User.mk "bob" [Demo.alice] [] ["r1"; "r2"; "r1"]) eq_refl).
Defined.

(** ** Replies *)

Section Replies.
Context (schemaAccepts : Notification.t → bool).



End Replies.




(** * Further properties of the write path *)

#[local] Set Warnings "-clear-no-such-hyp".

(** ** Set updates on id arrays *)

Lemma elem_of_addToSet (x y : ObjectId) (l : list ObjectId) :
  y ∈ addToSet x l ↔ y = x ∨ y ∈ l.
Proof.
  unfold addToSet. case_bool_decide as Hx.
  - split; [auto|]. intros [->|H]; assumption.
  - rewrite elem_of_app. rewrite (list_elem_of_singleton y x). tauto.
Qed.

Lemma elem_of_pull (x y : ObjectId) (l : list ObjectId) :
  y ∈ pull x l ↔ y ≠ x ∧ y ∈ l.
Proof. unfold pull. exact (list_elem_of_filter (λ z, z ≠ x) l y). Qed.

Lemma NoDup_addToSet (x : ObjectId) (l : list ObjectId) :
  NoDup l → NoDup (addToSet x l).
Proof.
  intros Hnd. unfold addToSet. case_bool_decide as Hx; [exact Hnd|].
  apply NoDup_app. repeat split; [exact Hnd| |apply NoDup_singleton].
  intros y Hy Hin. apply list_elem_of_singleton in Hin. subst y. contradiction.
Qed.

Lemma NoDup_pull (x : ObjectId) (l : list ObjectId) : NoDup l → NoDup (pull x l).
Proof. intros Hnd. unfold pull. apply NoDup_filter. exact Hnd. Qed.

Lemma addToSet_new (x : ObjectId) (l : list ObjectId) : x ∉ l → addToSet x l = l ++ [x].
Proof. intros H. unfold addToSet. rewrite bool_decide_eq_false_2 by exact H. reflexivity. Qed.

Lemma pull_pushed (x : ObjectId) (l : list ObjectId) : x ∉ l → pull x (l ++ [x]) = l.
Proof.
  intros H. unfold pull. rewrite filter_app, filter_cons_False, filter_nil, app_nil_r
    by (intros Hx; apply Hx; reflexivity).
  apply (pull_absent x l H).
Qed.

(** ** What a request does to the users collection *)

Section UsersEffect.
Context (schemaAccepts : Notification.t → bool).

Lemma perform_after req s :
  after (perform schemaAccepts req) s = handle schemaAccepts req s.
Proof.
  destruct req; simpl; unfold after, bind, ret;
    match goal with |- context [match ?m s with _ => _ end] => destruct (m s) as [s' [e|a]] end;
    reflexivity.
Qed.

Lemma handle_users req s :
  users_step (users s) (users (handle schemaAccepts req s)).
Proof.
  destruct req; simpl.
  all: unfold rateRecipe, toggleLikeRecipe, followUser, unfollowUser, addToFavorites,
         removeFromFavorites, addComment, deleteComment, likeComment,
         unlikeComment, toggleCommentLike, deleteRecipe.
  all: exec; try (constructor; fail).
  all: try (constructor; match goal with H : same _ _ = false |- _ =>
                           apply same_false in H; exact H end).
Qed.
End UsersEffect.

(** ** Errors thrown before any write *)

(** X1. Whatever the request, an answer that is a ValidationError, a
    NotFoundError or an AuthorizationError comes with an untouched store:
    the controllers throw these before their first write. *)
Theorem business_errors_write_nothing
    (schemaAccepts : Notification.t → bool) (req : Request) (s : Store) (e : AppError) :
  answer (perform schemaAccepts req) s = inl e →
  business_error e →
  after (perform schemaAccepts req) s = s.
Proof.
  intros Hans Hbe. unfold business_error in Hbe.
  destruct req; simpl in *.
  all: unfold rateRecipe, toggleLikeRecipe, followUser, unfollowUser, addToFavorites,
         removeFromFavorites, addComment, deleteComment, likeComment,
         unlikeComment, toggleCommentLike, deleteRecipe in *.
  all: exec; try reflexivity; try discriminate.
  all: destruct Hbe as [Hk|[Hk|Hk]]; discriminate Hk.
Qed.

Lemma business_errors_write_nothing_witness :
  answer (perform rejectAll (UnfollowUser Demo.alice Demo.bob)) Demo.store_following
  = inl (mkError ValidationError "You are not following this user")
  ∧ business_error (mkError ValidationError "You are not following this user")
  ∧ after (perform rejectAll (UnfollowUser Demo.alice Demo.bob)) Demo.store_following
    = Demo.store_following.
Proof.
  assert (H1 : answer (perform rejectAll (UnfollowUser Demo.alice Demo.bob))
                 Demo.store_following
               = inl (mkError ValidationError "You are not following this user"))
    by (vm_compute; reflexivity).
  assert (H2 : business_error (mkError ValidationError "You are not following this user"))
    by (left; reflexivity).
  split; [exact H1|]. split; [exact H2|].
  exact (business_errors_write_nothing rejectAll (UnfollowUser Demo.alice Demo.bob)
           Demo.store_following _ H1 H2).
Defined.

(** ** The social graph and the favorites as sets *)

Ltac users_lookups :=
  repeat match goal with
         | H : context [alter _ _ _ !! _] |- _ => rewrite lookup_alter in H
         | H : context [(_ <$> _) !! _] |- _ => rewrite lookup_fmap in H
         end;
  repeat case_decide; subst;
  repeat match goal with
         | H : _ <$> (?m !! ?k) = Some _ |- _ =>
           let E := fresh "E" in destruct (m !! k) eqn:E; simplify_eq/=
         end;
  simplify_eq/=.

Lemma users_step_symmetric (m m' : gmap ObjectId User.t) :
  users_step m m' → follow_symmetric m → follow_symmetric m'.
Proof.
  intros Hstep Hsym. unfold follow_symmetric in *.
  destruct Hstep as [|a b Hab|a b Hab|u r|u r|r]; [exact Hsym|..];
    intros c d uc ud Hc Hd; users_lookups;
    repeat case_bool_decide; simpl;
    rewrite ?elem_of_addToSet, ?elem_of_pull;
    try (match goal with
         | H1 : m !! c = Some ?x, H2 : m !! d = Some ?y |- _ =>
           pose proof (Hsym c d x y H1 H2)
         | H1 : m !! c = Some ?x |- _ =>
           pose proof (Hsym c c x x H1 H1)
         end);
    naive_solver.
Qed.

Lemma users_step_NoDup (m m' : gmap ObjectId User.t) :
  users_step m m' → user_lists_NoDup m → user_lists_NoDup m'.
Proof.
  intros Hstep Hnd. unfold user_lists_NoDup in *.
  destruct Hstep as [|a b Hab|a b Hab|u r|u r|r]; [exact Hnd|..];
    intros c uc Hc; users_lookups;
    repeat case_bool_decide; simpl;
    match goal with
    | H : m !! _ = Some ?x |- _ => destruct (Hnd _ x H) as (H1 & H2 & H3)
    end;
    split_and!; auto using NoDup_addToSet, NoDup_pull.
Qed.

(** The twelve controllers of [Request] keep the follow relation
    two-sided: from a store in which, among
    stored users, [b] is in [a.following] exactly when [a] is in
    [b.followers], every run of requests leads to such a store, whatever
    the requests answer (a follow whose notification is refused included:
    both sides are written before the notification). *)
Theorem run_keeps_follow_symmetric
    (schemaAccepts : Notification.t → bool) (reqs : list Request) (s : Store) :
  follow_symmetric (users s) →
  follow_symmetric (users (run schemaAccepts reqs s)).
Proof.
  revert s. induction reqs as [|req reqs IH]; intros s Hs; simpl; [exact Hs|].
  apply IH. eapply users_step_symmetric; [apply handle_users|exact Hs].
Qed.

Lemma run_keeps_follow_symmetric_witness :
  follow_symmetric (users Demo.store)
  ∧ follow_symmetric
      (users (run rejectAll [FollowUser Demo.bob Demo.alice; FollowUser Demo.carol Demo.alice;
                             UnfollowUser Demo.bob Demo.alice] Demo.store))
  ∧ User.followers
      <$> users (run rejectAll [FollowUser Demo.bob Demo.alice; FollowUser Demo.carol Demo.alice;
                                UnfollowUser Demo.bob Demo.alice] Demo.store) !! Demo.alice
    = Some [Demo.carol].
Proof.
  assert (H0 : follow_symmetric (users Demo.store)).
  { intros a b ua ub Ha Hb. unfold Demo.store in Ha, Hb. simpl in Ha, Hb.
    assert (Hnil : ∀ x u, (<[Demo.alice := Demo.user "alice"]>
                             (<[Demo.bob := Demo.user "bob"]>
                                (<[Demo.carol := Demo.user "carol"]> ∅))
                           : gmap ObjectId User.t) !! x = Some u →
                          User.following u = [] ∧ User.followers u = []).
    { intros x u Hx.
      apply lookup_insert_Some in Hx as [[_ <-]|[_ Hx]]; [split; reflexivity|].
      apply lookup_insert_Some in Hx as [[_ <-]|[_ Hx]]; [split; reflexivity|].
      apply lookup_insert_Some in Hx as [[_ <-]|[_ Hx]]; [split; reflexivity|].
      rewrite lookup_empty in Hx. discriminate Hx. }
    destruct (Hnil a ua Ha) as [-> _]. destruct (Hnil b ub Hb) as [_ ->].
    split; intros H; inversion H. }
  split; [exact H0|]. split.
  - exact (run_keeps_follow_symmetric rejectAll _ Demo.store H0).
  - vm_compute. reflexivity.
Defined.

(** The twelve controllers of [Request] repeat no id in a user's
    following, followers or
    favorites: from a store whose users have no repeats in these three
    lists, every run of requests leads to such a store. *)
Theorem run_keeps_user_lists_NoDup
    (schemaAccepts : Notification.t → bool) (reqs : list Request) (s : Store) :
  user_lists_NoDup (users s) →
  user_lists_NoDup (users (run schemaAccepts reqs s)).
Proof.
  revert s. induction reqs as [|req reqs IH]; intros s Hs; simpl; [exact Hs|].
  apply IH. eapply users_step_NoDup; [apply handle_users|exact Hs].
Qed.

Lemma run_keeps_user_lists_NoDup_witness :
  user_lists_NoDup (users Demo.store_following)
  ∧ user_lists_NoDup
      (users (run acceptAll [AddToFavorites Demo.alice "r1"; AddToFavorites Demo.alice "r1";
                             FollowUser Demo.alice Demo.bob] Demo.store_following)).
Proof.
  assert (H0 : user_lists_NoDup (users Demo.store_following)).
  { intros a ua Ha. unfold Demo.store_following in Ha. simpl in Ha.
    apply lookup_insert_Some in Ha as [[_ <-]|[_ Ha]];
      [simpl; split_and!; repeat constructor; set_solver|].
    apply lookup_insert_Some in Ha as [[_ <-]|[_ Ha]];
      [simpl; split_and!; repeat constructor; set_solver|].
    rewrite lookup_empty in Ha. discriminate Ha. }
  split; [exact H0|].
  exact (run_keeps_user_lists_NoDup acceptAll _ Demo.store_following H0).
Defined.

(** ** Follow and unfollow *)

Lemma existsb_same_false (l : list ObjectId) (x : ObjectId) :
  existsb (λ id, same id x) l = false ↔ x ∉ l.
Proof.
  rewrite <- existsb_same. destruct (existsb (λ id, same id x) l); split; congruence.
Qed.

Section Follow.
Context (schemaAccepts : Notification.t → bool).

Lemma followUser_passes a b s ua ub :
  a ≠ b →
  users s !! a = Some ua →
  users s !! b = Some ub →
  b ∉ User.following ua →
  followUser schemaAccepts a b s
  = let m' :=
      alter (λ u, User.with_followers (addToSet a (User.followers u)) u) b
        (alter (λ u, User.with_following (addToSet b (User.following u)) u) a (users s)) in
    if schemaAccepts (followNotification a b ua)
    then (mkStore m' (recipes s) (comments s)
            (notifications s ++ [followNotification a b ua]),
          inr ("You are now following " +:+ User.username ub))
    else (mkStore m' (recipes s) (comments s) (notifications s),
          inl (mkError MongooseValidationError "Notification validation failed")).
Proof.
  intros Hne Ha Hb Hnin. unfold followUser.
  rewrite (proj2 (same_false a b) Hne). unfold_model. unfold_m.
  rewrite Hb, Ha, (proj2 (existsb_same_false _ _) Hnin). simpl.
  unfold followNotification. destruct (schemaAccepts _); reflexivity.
Qed.

Lemma unfollowUser_passes a b s ua ub :
  a ≠ b →
  users s !! a = Some ua →
  users s !! b = Some ub →
  b ∈ User.following ua →
  unfollowUser a b s
  = (with_users
       (λ m, alter (λ u, User.with_followers (pull a (User.followers u)) u) b
               (alter (λ u, User.with_following (pull b (User.following u)) u) a m)) s,
     inr ("You have unfollowed " +:+ User.username ub)).
Proof.
  intros Hne Ha Hb Hin. unfold unfollowUser.
  rewrite (proj2 (same_false a b) Hne). unfold_model. unfold_m.
  rewrite Hb, Ha, (proj2 (existsb_same _ _) Hin). reflexivity.
Qed.
End Follow.

Lemma followed_lookups (m : gmap ObjectId User.t) (a b : ObjectId) (ua ub : User.t) :
  a ≠ b →
  m !! a = Some ua →
  m !! b = Some ub →
  b ∉ User.following ua →
  let m' := alter (λ u, User.with_followers (addToSet a (User.followers u)) u) b
              (alter (λ u, User.with_following (addToSet b (User.following u)) u) a m) in
  m' !! a = Some (User.with_following (User.following ua ++ [b]) ua)
  ∧ m' !! b = Some (User.with_followers (addToSet a (User.followers ub)) ub)
  ∧ ∀ c, c ≠ a → c ≠ b → m' !! c = m !! c.
Proof.
  intros Hne Ha Hb Hnin m'. unfold m'. split_and!.
  - rewrite lookup_alter_ne by congruence.
    rewrite lookup_alter_eq, Ha. simpl. rewrite addToSet_new by exact Hnin. reflexivity.
  - rewrite lookup_alter_eq. rewrite lookup_alter_ne by congruence. rewrite Hb. reflexivity.
  - intros c Hca Hcb. rewrite !lookup_alter_ne by congruence. reflexivity.
Qed.

(** X4. A follow that passes its checks (two different stored users, [b]
    not yet in [a.following]) appends [b] to [a.following], adds [a] to
    [b.followers] and leaves every other user alone, whether or not its
    notification is accepted: if it is, the request answers and exactly the
    follow notification from [a] to [b] is appended; if it is refused, the
    request throws the Mongoose error with the follow already written and
    no notification added. *)
Theorem followUser_writes_then_notifies
    (schemaAccepts : Notification.t → bool) (a b : ObjectId) (s : Store)
    (ua ub : User.t) :
  a ≠ b →
  users s !! a = Some ua →
  users s !! b = Some ub →
  b ∉ User.following ua →
  let s' := after (followUser schemaAccepts a b) s in
  users s' !! a = Some (User.with_following (User.following ua ++ [b]) ua)
  ∧ users s' !! b = Some (User.with_followers (addToSet a (User.followers ub)) ub)
  ∧ (∀ c, c ≠ a → c ≠ b → users s' !! c = users s !! c)
  ∧ recipes s' = recipes s ∧ comments s' = comments s
  ∧ (if schemaAccepts (followNotification a b ua)
     then answer (followUser schemaAccepts a b) s
          = inr ("You are now following " +:+ User.username ub)
          ∧ notifications s' = notifications s ++ [followNotification a b ua]
     else answer (followUser schemaAccepts a b) s
          = inl (mkError MongooseValidationError "Notification validation failed")
          ∧ notifications s' = notifications s).
Proof.
  intros Hne Ha Hb Hnin s'. subst s'. unfold after, answer.
  rewrite (followUser_passes schemaAccepts a b s ua ub Hne Ha Hb Hnin). simpl.
  destruct (followed_lookups (users s) a b ua ub Hne Ha Hb Hnin) as (Hla & Hlb & Hlc).
  destruct (schemaAccepts (followNotification a b ua)); simpl.
  all: split_and!; try reflexivity; try exact Hla; try exact Hlb; exact Hlc.
Qed.

Lemma followUser_writes_then_notifies_witness :
  Demo.bob ≠ Demo.alice
  ∧ users Demo.store !! Demo.bob = Some (Demo.user "bob")
  ∧ users Demo.store !! Demo.alice = Some (Demo.user "alice")
  ∧ (Demo.alice ∉ User.following (Demo.user "bob"))
  ∧ users (after (followUser rejectAll Demo.bob Demo.alice) Demo.store) !! Demo.bob
    = Some (User.mk "bob" [Demo.alice] [] [])
  ∧ users (after (followUser rejectAll Demo.bob Demo.alice) Demo.store) !! Demo.alice
    = Some (User.mk "alice" [] [Demo.bob] [])
  ∧ answer (followUser rejectAll Demo.bob Demo.alice) Demo.store
    = inl (mkError MongooseValidationError "Notification validation failed").
Proof.
  assert (H1 : Demo.bob ≠ Demo.alice) by discriminate.
  assert (H2 : users Demo.store !! Demo.bob = Some (Demo.user "bob")) by reflexivity.
  assert (H3 : users Demo.store !! Demo.alice = Some (Demo.user "alice")) by reflexivity.
  assert (H4 : Demo.alice ∉ User.following (Demo.user "bob")) by (simpl; set_solver).
  split; [exact H1|]. split; [exact H2|]. split; [exact H3|]. split; [exact H4|].
  destruct (followUser_writes_then_notifies rejectAll Demo.bob Demo.alice Demo.store
              _ _ H1 H2 H3 H4) as (Ha & Hb & _ & _ & _ & Hn).
  split; [exact Ha|]. split; [exact Hb|]. exact (proj1 Hn).
Defined.


(** X5. Following and then unfollowing puts both users back: for two
    different stored users with [b] not in [a.following] and [a] not in
    [b.followers], [follow(a, b)] followed by [unfollow(a, b)] leaves the
    users collection, the recipes and the comments exactly as they were,
    whether or not the follow notification was accepted; the unfollow
    answers in both cases and never adds or removes a notification. *)
Theorem follow_then_unfollow_restores
    (schemaAccepts : Notification.t → bool) (a b : ObjectId) (s : Store)
    (ua ub : User.t) :
  a ≠ b →
  users s !! a = Some ua →
  users s !! b = Some ub →
  b ∉ User.following ua →
  a ∉ User.followers ub →
  let s1 := after (followUser schemaAccepts a b) s in
  let s2 := after (unfollowUser a b) s1 in
  answer (unfollowUser a b) s1 = inr ("You have unfollowed " +:+ User.username ub)
  ∧ users s2 = users s
  ∧ recipes s2 = recipes s
  ∧ comments s2 = comments s
  ∧ notifications s2 = notifications s1.
Proof.
  intros Hne Ha Hb Hnin Hnin' s1 s2.
  destruct (followed_lookups (users s) a b ua ub Hne Ha Hb Hnin) as (Ha1 & Hb1 & Hc1).
  assert (Hs1 : users s1
    = alter (λ u, User.with_followers (addToSet a (User.followers u)) u) b
        (alter (λ u, User.with_following (addToSet b (User.following u)) u) a (users s))
      ∧ recipes s1 = recipes s ∧ comments s1 = comments s).
  { subst s1. unfold after.
    rewrite (followUser_passes schemaAccepts a b s ua ub Hne Ha Hb Hnin). simpl.
    destruct (schemaAccepts _); simpl; split_and!; reflexivity. }
  destruct Hs1 as (Hu1 & Hr1 & Hcm1). rewrite <- Hu1 in Ha1, Hb1, Hc1.
  assert (Hin1 : b ∈ User.following (User.with_following (User.following ua ++ [b]) ua)).
  { simpl. apply elem_of_app. right. left. }
  pose proof (unfollowUser_passes a b s1 _ _ Hne Ha1 Hb1 Hin1) as E.
  subst s2. unfold answer, after. rewrite E. simpl.
  split_and!; try reflexivity; try assumption.
  apply map_eq. intros c.
  destruct (decide (c = a)) as [->|Hca]; [|destruct (decide (c = b)) as [->|Hcb]].
  - rewrite lookup_alter_ne by congruence. rewrite lookup_alter_eq, Ha1, Ha. simpl.
    destruct ua as [n fg fr fav]. unfold User.with_following. simpl in *.
    rewrite pull_pushed by exact Hnin. reflexivity.
  - rewrite lookup_alter_eq. rewrite lookup_alter_ne by congruence. rewrite Hb1, Hb. simpl.
    destruct ub as [n fg fr fav]. unfold User.with_followers. simpl in *.
    rewrite addToSet_new by exact Hnin'. rewrite pull_pushed by exact Hnin'. reflexivity.
  - rewrite !lookup_alter_ne by congruence. apply Hc1; assumption.
Qed.

Lemma follow_then_unfollow_restores_witness :
  Demo.bob ≠ Demo.alice
  ∧ users Demo.store !! Demo.bob = Some (Demo.user "bob")
  ∧ users Demo.store !! Demo.alice = Some (Demo.user "alice")
  ∧ (Demo.alice ∉ User.following (Demo.user "bob"))
  ∧ (Demo.bob ∉ User.followers (Demo.user "alice"))
  ∧ users (after (unfollowUser Demo.bob Demo.alice)
             (after (followUser acceptAll Demo.bob Demo.alice) Demo.store))
    = users Demo.store.
Proof.
  assert (H1 : Demo.bob ≠ Demo.alice) by discriminate.
  assert (H2 : users Demo.store !! Demo.bob = Some (Demo.user "bob")) by reflexivity.
  assert (H3 : users Demo.store !! Demo.alice = Some (Demo.user "alice")) by reflexivity.
  assert (H4 : Demo.alice ∉ User.following (Demo.user "bob")) by (simpl; set_solver).
  assert (H5 : Demo.bob ∉ User.followers (Demo.user "alice")) by (simpl; set_solver).
  split; [exact H1|]. split; [exact H2|]. split; [exact H3|]. split; [exact H4|].
  split; [exact H5|].
  destruct (follow_then_unfollow_restores acceptAll Demo.bob Demo.alice Demo.store
              _ _ H1 H2 H3 H4 H5) as (_ & Hu & _).
  exact Hu.
Defined.

(** ** Favorites *)

(** X6. Favorites are strict, not idempotent: for a stored recipe and a
    stored user who has not favorited it, [addToFavorites] answers and
    appends the recipe id; adding it again throws ValidationError; removing
    it answers and gives back the very store the first call started from;
    and removing it once more throws ValidationError. *)
Theorem favorites_add_then_remove
    (userId recipeId : ObjectId) (s : Store) (recipe : Recipe.t) (user : User.t) :
  recipes s !! recipeId = Some recipe →
  users s !! userId = Some user →
  recipeId ∉ User.favoriteRecipes user →
  let s1 := after (addToFavorites userId recipeId) s in
  answer (addToFavorites userId recipeId) s = inr "Recipe added to favorites"
  ∧ users s1 !! userId
    = Some (User.with_favoriteRecipes (User.favoriteRecipes user ++ [recipeId]) user)
  ∧ addToFavorites userId recipeId s1
    = (s1, inl (mkError ValidationError "Recipe is already in your favorites"))
  ∧ removeFromFavorites userId recipeId s1 = (s, inr "Recipe removed from favorites")
  ∧ removeFromFavorites userId recipeId s
    = (s, inl (mkError ValidationError "Recipe is not in your favorites")).
Proof.
  intros Hr Hu Hnin s1.
  assert (E1 : addToFavorites userId recipeId s
    = (with_users (alter (λ x, User.with_favoriteRecipes
                                 (addToSet recipeId (User.favoriteRecipes x)) x) userId) s,
       inr "Recipe added to favorites")).
  { unfold addToFavorites. unfold_model. unfold_m.
    rewrite Hr, Hu, (proj2 (existsb_same_false _ _) Hnin). reflexivity. }
  subst s1. unfold answer, after. rewrite E1. simpl.
  set (s1 := with_users _ s).
  assert (Hu1 : users s1 !! userId
    = Some (User.with_favoriteRecipes (User.favoriteRecipes user ++ [recipeId]) user)).
  { unfold s1. simpl. rewrite lookup_alter_eq, Hu. simpl.
    rewrite addToSet_new by exact Hnin. reflexivity. }
  assert (Hr1 : recipes s1 !! recipeId = Some recipe) by exact Hr.
  assert (Hin1 : recipeId ∈ User.favoriteRecipes
            (User.with_favoriteRecipes (User.favoriteRecipes user ++ [recipeId]) user)).
  { simpl. apply elem_of_app. right. left. }
  split_and!.
  - reflexivity.
  - exact Hu1.
  - unfold addToFavorites. unfold_model. unfold_m.
    rewrite Hr1, Hu1, (proj2 (existsb_same _ _) Hin1). reflexivity.
  - unfold removeFromFavorites. unfold_model. unfold_m.
    rewrite Hr1, Hu1, (proj2 (existsb_same _ _) Hin1). simpl. f_equal.
    destruct s as [us rs cs ns]. unfold s1, with_users. simpl in *. f_equal.
    apply map_eq. intros c. destruct (decide (c = userId)) as [->|Hc].
    + rewrite !lookup_alter_eq, Hu. simpl.
      destruct user as [n fg fr fav]. unfold User.with_favoriteRecipes. simpl in *.
      rewrite addToSet_new by exact Hnin. rewrite pull_pushed by exact Hnin. reflexivity.
    + rewrite !lookup_alter_ne by congruence. reflexivity.
  - unfold removeFromFavorites. unfold_model. unfold_m.
    rewrite Hr, Hu, (proj2 (existsb_same_false _ _) Hnin). reflexivity.
Qed.

Lemma favorites_add_then_remove_witness :
  recipes Demo.store !! "r1" = Some Demo.pasta
  ∧ users Demo.store !! Demo.bob = Some (Demo.user "bob")
  ∧ ("r1" ∉ User.favoriteRecipes (Demo.user "bob"))
  ∧ users (after (addToFavorites Demo.bob "r1") Demo.store) !! Demo.bob
    = Some (User.mk "bob" [] [] ["r1"])
  ∧ removeFromFavorites Demo.bob "r1" (after (addToFavorites Demo.bob "r1") Demo.store)
    = (Demo.store, inr "Recipe removed from favorites").
Proof.
  assert (H1 : recipes Demo.store !! "r1" = Some Demo.pasta) by reflexivity.
  assert (H2 : users Demo.store !! Demo.bob = Some (Demo.user "bob")) by reflexivity.
  assert (H3 : "r1" ∉ User.favoriteRecipes (Demo.user "bob")) by (simpl; set_solver).
  split; [exact H1|]. split; [exact H2|]. split; [exact H3|].
  destruct (favorites_add_then_remove Demo.bob "r1" Demo.store _ _ H1 H2 H3)
    as (_ & Ha & _ & Hrm & _).
  split; [exact Ha|exact Hrm].
Defined.

(** ** Comment likes *)

Lemma includes_true (u : ObjectId) (l : list ObjectId) : includes u l = true ↔ u ∈ l.
Proof. unfold includes. apply bool_decide_eq_true. Qed.

Lemma includes_false (u : ObjectId) (l : list ObjectId) : includes u l = false ↔ u ∉ l.
Proof. unfold includes. apply bool_decide_eq_false. Qed.

Section CommentLikes.
Context (schemaAccepts : Notification.t → bool).

Lemma handle_comment_likes_NoDup req s :
  comment_likes_NoDup (comments s) →
  comment_likes_NoDup (comments (handle schemaAccepts req s)).
Proof.
  intros Hnd. unfold comment_likes_NoDup in *. destruct req; simpl.
  all: unfold rateRecipe, toggleLikeRecipe, followUser, unfollowUser, addToFavorites,
         removeFromFavorites, addComment, deleteComment, likeComment,
         unlikeComment, toggleCommentLike, deleteRecipe.
  all: exec; try exact Hnd.
  all: intros id c' Hc'.
  all: repeat match goal with
         | H : delete _ _ !! _ = Some _ |- _ => apply lookup_delete_Some in H as [_ H]
         | H : filter _ _ !! _ = Some _ |- _ => apply map_lookup_filter_Some in H as [H _]
         | H : <[_ := _]> _ !! _ = Some _ |- _ =>
           apply lookup_insert_Some in H as [[-> <-]|[_ H]]
         end.
  all: try (eapply Hnd; eassumption).
  all: simpl; try constructor.
  all: try (apply NoDup_pull; eapply Hnd; eassumption).
  all: apply NoDup_app; repeat split; try apply NoDup_singleton;
    try (eapply Hnd; eassumption).
  all: intros y Hy Hin; apply list_elem_of_singleton in Hin; subst y;
    match goal with H : includes _ _ = false |- _ => apply includes_false in H end;
    contradiction.
Qed.

Lemma likeComment_passes u cid s c :
  comments s !! cid = Some c →
  u ∉ Comment.likes c →
  likeComment schemaAccepts u cid s
  = let c' := Comment.with_likes (Comment.likes c ++ [u]) c in
    let s' := with_comments <[cid := c']> s in
    if same (Comment.author c) u then (s', inr (Z.of_nat (length (Comment.likes c'))))
    else if schemaAccepts (commentLikeNotification u cid c)
    then (with_notifications (λ l, l ++ [commentLikeNotification u cid c]) s',
          inr (Z.of_nat (length (Comment.likes c'))))
    else (s', inl (mkError MongooseValidationError "Notification validation failed")).
Proof.
  intros Hc Hnin. unfold likeComment. unfold_model. unfold_m.
  rewrite Hc, (proj2 (includes_false _ _) Hnin). simpl.
  unfold commentLikeNotification.
  destruct (same (Comment.author c) u); simpl; [reflexivity|].
  destruct (schemaAccepts _); reflexivity.
Qed.

Lemma toggleCommentLike_likes u cid s c :
  comments s !! cid = Some c →
  u ∉ Comment.likes c →
  toggleCommentLike schemaAccepts u cid s
  = let c' := Comment.with_likes (Comment.likes c ++ [u]) c in
    let s' := with_comments <[cid := c']> s in
    if same (Comment.author c) u
    then (s', inr (mkLikeData true (Z.of_nat (length (Comment.likes c')))))
    else if schemaAccepts (commentLikeNotification u cid c)
    then (with_comments <[cid := c']>
            (with_notifications (λ l, l ++ [commentLikeNotification u cid c]) s),
          inr (mkLikeData true (Z.of_nat (length (Comment.likes c')))))
    else (s, inl (mkError MongooseValidationError "Notification validation failed")).
Proof.
  intros Hc Hnin. unfold toggleCommentLike. unfold_model. unfold_m.
  rewrite Hc, (proj2 (includes_false _ _) Hnin). simpl.
  unfold commentLikeNotification.
  destruct (same (Comment.author c) u); simpl; [reflexivity|].
  destruct (schemaAccepts _); reflexivity.
Qed.

Lemma toggleCommentLike_unlikes u cid s c :
  comments s !! cid = Some c →
  u ∈ Comment.likes c →
  toggleCommentLike schemaAccepts u cid s
  = let c' := Comment.with_likes (pull u (Comment.likes c)) c in
    (with_comments <[cid := c']> s,
     inr (mkLikeData false (Z.of_nat (length (Comment.likes c'))))).
Proof.
  intros Hc Hin. unfold toggleCommentLike. unfold_model. unfold_m.
  rewrite Hc, (proj2 (includes_true _ _) Hin). reflexivity.
Qed.

Lemma unlikeComment_passes u cid s c :
  comments s !! cid = Some c →
  u ∈ Comment.likes c →
  unlikeComment u cid s
  = let c' := Comment.with_likes (pull u (Comment.likes c)) c in
    (with_comments <[cid := c']> s, inr (Z.of_nat (length (Comment.likes c')))).
Proof.
  intros Hc Hin. unfold unlikeComment. unfold_model. unfold_m.
  rewrite Hc, (proj2 (includes_true _ _) Hin). reflexivity.
Qed.
End CommentLikes.

(** X7. No id is ever repeated in the like list of a comment: from a store
    whose comments have like lists without repeats, every run of requests
    leads to such a store. *)
Theorem run_keeps_comment_likes_NoDup
    (schemaAccepts : Notification.t → bool) (reqs : list Request) (s : Store) :
  comment_likes_NoDup (comments s) →
  comment_likes_NoDup (comments (run schemaAccepts reqs s)).
Proof.
  revert s. induction reqs as [|req reqs IH]; intros s Hs; simpl; [exact Hs|].
  apply IH, handle_comment_likes_NoDup, Hs.
Qed.

Lemma run_keeps_comment_likes_NoDup_witness :
  comment_likes_NoDup (comments Demo.store)
  ∧ comment_likes_NoDup (comments (run acceptAll Demo.session Demo.store)).
Proof.
  assert (H0 : comment_likes_NoDup (comments Demo.store)).
  { intros id c H. unfold Demo.store in H. simpl in H.
    rewrite lookup_empty in H. discriminate H. }
  split; [exact H0|].
  exact (run_keeps_comment_likes_NoDup acceptAll Demo.session Demo.store H0).
Defined.

(** X8. On a stored comment the user has not liked and did not write, the
    two ways to like differ only when the notification is refused. If it is
    accepted, [likeComment] and [toggleCommentLike] leave the same comments
    and the same notifications. If it is refused, both throw the Mongoose
    error, but [likeComment], which saves first, has stored the like, while
    [toggleCommentLike], which notifies first, has left the store untouched. *)
Theorem likeComment_saves_before_notifying
    (schemaAccepts : Notification.t → bool) (u cid : ObjectId) (s : Store)
    (c : Comment.t) :
  comments s !! cid = Some c →
  u ∉ Comment.likes c →
  Comment.author c ≠ u →
  let liked := Comment.with_likes (Comment.likes c ++ [u]) c in
  if schemaAccepts (commentLikeNotification u cid c)
  then comments (after (likeComment schemaAccepts u cid) s) = <[cid := liked]> (comments s)
       ∧ comments (after (toggleCommentLike schemaAccepts u cid) s)
         = <[cid := liked]> (comments s)
       ∧ notifications (after (likeComment schemaAccepts u cid) s)
         = notifications s ++ [commentLikeNotification u cid c]
       ∧ notifications (after (toggleCommentLike schemaAccepts u cid) s)
         = notifications s ++ [commentLikeNotification u cid c]
  else answer (likeComment schemaAccepts u cid) s
       = inl (mkError MongooseValidationError "Notification validation failed")
       ∧ answer (toggleCommentLike schemaAccepts u cid) s
         = inl (mkError MongooseValidationError "Notification validation failed")
       ∧ comments (after (likeComment schemaAccepts u cid) s) = <[cid := liked]> (comments s)
       ∧ after (toggleCommentLike schemaAccepts u cid) s = s.
Proof.
  intros Hc Hnin Hau liked. unfold after, answer.
  rewrite (likeComment_passes schemaAccepts u cid s c Hc Hnin).
  rewrite (toggleCommentLike_likes schemaAccepts u cid s c Hc Hnin).
  rewrite (proj2 (same_false _ _) Hau). simpl.
  destruct (schemaAccepts (commentLikeNotification u cid c)); simpl;
    split_and!; reflexivity.
Qed.

Lemma likeComment_saves_before_notifying_witness :
  comments Demo.store_thread !! "c1" = Some Demo.root
  ∧ (Demo.bob ∉ Comment.likes Demo.root)
  ∧ Comment.author Demo.root ≠ Demo.bob
  ∧ comments (after (likeComment rejectAll Demo.bob "c1") Demo.store_thread) !! "c1"
    = Some (Comment.with_likes [Demo.bob] Demo.root)
  ∧ after (toggleCommentLike rejectAll Demo.bob "c1") Demo.store_thread = Demo.store_thread.
Proof.
  assert (H1 : comments Demo.store_thread !! "c1" = Some Demo.root) by reflexivity.
  assert (H2 : Demo.bob ∉ Comment.likes Demo.root) by (simpl; set_solver).
  assert (H3 : Comment.author Demo.root ≠ Demo.bob) by discriminate.
  split; [exact H1|]. split; [exact H2|]. split; [exact H3|].
  pose proof (likeComment_saves_before_notifying rejectAll Demo.bob "c1" Demo.store_thread
                Demo.root H1 H2 H3) as H.
  simpl in H. destruct H as (_ & _ & Hl & Ht).
  split; [rewrite Hl; apply lookup_insert_eq|exact Ht].
Defined.

(** X9. Liking a comment and then unliking it puts the comments collection
    back: for a stored comment the user has not liked, [likeComment]
    followed by [unlikeComment] leaves every comment as it was (whether or
    not the like notification was accepted), the unlike answers with the
    original like count, and a second [likeComment] in a row is refused
    with ValidationError. *)
Theorem likeComment_then_unlikeComment
    (schemaAccepts : Notification.t → bool) (u cid : ObjectId) (s : Store)
    (c : Comment.t) :
  comments s !! cid = Some c →
  u ∉ Comment.likes c →
  let s1 := after (likeComment schemaAccepts u cid) s in
  answer (likeComment schemaAccepts u cid) s1
  = inl (mkError ValidationError "You have already liked this comment")
  ∧ answer (unlikeComment u cid) s1 = inr (Z.of_nat (length (Comment.likes c)))
  ∧ comments (after (unlikeComment u cid) s1) = comments s
  ∧ answer (unlikeComment u cid) s
    = inl (mkError ValidationError "You have not liked this comment").
Proof.
  intros Hc Hnin s1.
  set (liked := Comment.with_likes (Comment.likes c ++ [u]) c).
  assert (Hs1 : comments s1 = <[cid := liked]> (comments s)).
  { subst s1. unfold after.
    rewrite (likeComment_passes schemaAccepts u cid s c Hc Hnin). simpl.
    destruct (same (Comment.author c) u); [reflexivity|].
    destruct (schemaAccepts _); reflexivity. }
  assert (Hc1 : comments s1 !! cid = Some liked)
    by (rewrite Hs1; apply lookup_insert_eq).
  assert (Hin1 : u ∈ Comment.likes liked).
  { simpl. apply elem_of_app. right. left. }
  split_and!.
  - unfold answer, likeComment. unfold_model. unfold_m.
    rewrite Hc1, (proj2 (includes_true _ _) Hin1). reflexivity.
  - unfold answer. rewrite (unlikeComment_passes u cid s1 liked Hc1 Hin1). simpl.
    rewrite pull_pushed by exact Hnin. reflexivity.
  - unfold after. rewrite (unlikeComment_passes u cid s1 liked Hc1 Hin1). simpl.
    rewrite Hs1. rewrite insert_insert_eq. apply insert_id.
    rewrite Hc. f_equal. destruct c as [ct au rc pc lk ie ea].
    unfold Comment.with_likes. simpl in *. rewrite pull_pushed by exact Hnin. reflexivity.
  - unfold answer, unlikeComment. unfold_model. unfold_m.
    rewrite Hc, (proj2 (includes_false _ _) Hnin). reflexivity.
Qed.

Lemma likeComment_then_unlikeComment_witness :
  comments Demo.store_thread !! "c1" = Some Demo.root
  ∧ (Demo.bob ∉ Comment.likes Demo.root)
  ∧ comments (after (unlikeComment Demo.bob "c1")
                (after (likeComment acceptAll Demo.bob "c1") Demo.store_thread))
    = comments Demo.store_thread.
Proof.
  assert (H1 : comments Demo.store_thread !! "c1" = Some Demo.root) by reflexivity.
  assert (H2 : Demo.bob ∉ Comment.likes Demo.root) by (simpl; set_solver).
  split; [exact H1|]. split; [exact H2|].
  destruct (likeComment_then_unlikeComment acceptAll Demo.bob "c1" Demo.store_thread
              Demo.root H1 H2) as (_ & _ & H & _).
  exact H.
Defined.

(** ** Ownership *)

(** X10. Only the author edits or deletes. If [updateComment],
    [deleteComment] or [deleteRecipe] answers, the caller is the author of
    the stored comment or recipe; for any other caller of a stored comment
    or recipe the request throws AuthorizationError and the store is
    untouched. An answered [updateComment] replaces the content, sets
    [isEdited] and stamps [editedAt], keeping the comment's author,
    recipe, parent and likes. *)
Theorem only_the_author_changes :
  (∀ u cid content now s d,
     answer (updateComment u cid content now) s = inr d →
     ∃ c, comments s !! cid = Some c ∧ Comment.author c = u
          ∧ d = Comment.mk content (Comment.author c) (Comment.recipe c)
                  (Comment.parentComment c) (Comment.likes c) true (Some now)
          ∧ after (updateComment u cid content now) s = with_comments <[cid := d]> s)
  ∧ (∀ u cid s d,
       answer (deleteComment u cid) s = inr d →
       ∃ c, comments s !! cid = Some c ∧ Comment.author c = u)
  ∧ (∀ u rid s d,
       answer (deleteRecipe u rid) s = inr d →
       ∃ r, recipes s !! rid = Some r ∧ Recipe.author r = u)
  ∧ (∀ u cid content now s c,
       comments s !! cid = Some c → Comment.author c ≠ u →
       updateComment u cid content now s
       = (s, inl (mkError AuthorizationError "You can only update your own comments"))
       ∧ deleteComment u cid s
         = (s, inl (mkError AuthorizationError "You can only delete your own comments")))
  ∧ (∀ u rid s r,
       recipes s !! rid = Some r → Recipe.author r ≠ u →
       deleteRecipe u rid s
       = (s, inl (mkError AuthorizationError "You can only delete your own recipes"))).
Proof.
  split_and!.
  - intros u cid content now s d. unfold answer, after, updateComment.
    unfold_model. unfold_m.
    destruct (comments s !! cid) as [c|] eqn:Hc; simpl; [|discriminate].
    destruct (same (Comment.author c) u) eqn:Ha; simpl; [|discriminate].
    intros Hd. inversion Hd; subst d. apply same_true in Ha.
    exists c. split_and!; reflexivity || assumption.
  - intros u cid s d. unfold answer, deleteComment. unfold_model. unfold_m.
    destruct (comments s !! cid) as [c|] eqn:Hc; simpl; [|discriminate].
    destruct (same (Comment.author c) u) eqn:Ha; simpl; [|discriminate].
    intros _. apply same_true in Ha. eauto.
  - intros u rid s d. unfold answer, deleteRecipe. unfold_model. unfold_m.
    destruct (recipes s !! rid) as [r|] eqn:Hr; simpl; [|discriminate].
    destruct (same (Recipe.author r) u) eqn:Ha; simpl; [|discriminate].
    intros _. apply same_true in Ha. eauto.
  - intros u cid content now s c Hc Hne.
    unfold updateComment, deleteComment. unfold_model. unfold_m.
    rewrite Hc, (proj2 (same_false _ _) Hne). split; reflexivity.
  - intros u rid s r Hr Hne. unfold deleteRecipe. unfold_model. unfold_m.
    rewrite Hr, (proj2 (same_false _ _) Hne). reflexivity.
Qed.

(** ** Views *)

Lemma getRecipeById_found id s recipe :
  recipes s !! id = Some recipe →
  getRecipeById id s
  = (with_recipes <[id := Recipe_with_views (Recipe.views recipe + 1) recipe]> s,
     inr (Recipe_with_views (Recipe.views recipe + 1) recipe)).
Proof.
  intros Hr. unfold getRecipeById. unfold_model. unfold_m. rewrite Hr. reflexivity.
Qed.

(** X11. Fetching counts views and nothing else: [n] fetches of a stored
    recipe in a row add exactly [n] to its [views], keep every other field
    of the recipe and every other recipe, and leave users, comments and
    notifications alone; fetching a missing id throws NotFoundError and
    changes nothing. *)
Theorem fetches_count_views (n : nat) (id : ObjectId) (s : Store) :
  match recipes s !! id with
  | Some recipe =>
    recipes (fetches n id s)
    = <[id := Recipe_with_views (Recipe.views recipe + Z.of_nat n) recipe]> (recipes s)
    ∧ users (fetches n id s) = users s
    ∧ comments (fetches n id s) = comments s
    ∧ notifications (fetches n id s) = notifications s
  | None =>
    fetches n id s = s
    ∧ getRecipeById id s = (s, inl (mkError NotFoundError "Recipe not found"))
  end.
Proof.
  destruct (recipes s !! id) as [recipe|] eqn:Hr.
  - revert s recipe Hr. induction n as [|n IH]; intros s recipe Hr.
    + simpl. split_and!; try reflexivity.
      symmetry. apply insert_id. rewrite Hr. f_equal.
      destruct recipe. unfold Recipe_with_views. simpl. f_equal. lia.
    + simpl. unfold after. rewrite (getRecipeById_found id s recipe Hr). simpl.
      set (recipe1 := Recipe_with_views (Recipe.views recipe + 1) recipe).
      set (s1 := with_recipes <[id := recipe1]> s).
      assert (Hr1 : recipes s1 !! id = Some recipe1) by apply lookup_insert_eq.
      destruct (IH s1 recipe1 Hr1) as (Hrec & Hu & Hc & Hn).
      split_and!; try assumption.
      rewrite Hrec. unfold s1. simpl. rewrite insert_insert_eq. f_equal.
      unfold recipe1, Recipe_with_views. simpl. f_equal. lia.
  - assert (E : getRecipeById id s = (s, inl (mkError NotFoundError "Recipe not found"))).
    { unfold getRecipeById. unfold_model. unfold_m. rewrite Hr. reflexivity. }
    split; [|exact E].
    induction n as [|n IH]; simpl; [reflexivity|].
    unfold after. rewrite E. simpl. exact IH.
Qed.

(** ** Instance methods of the recipe model *)

Lemma with_ratings_same (r : Recipe.t) : Recipe.with_ratings (Recipe.ratings r) r = r.
Proof. destruct r. reflexivity. Qed.

Lemma filter_other_user_all (u : ObjectId) (rs : list Rating.t) :
  u ∉ Rating.userId <$> rs → filter (λ x, Rating.userId x ≠ u) rs = rs.
Proof.
  induction rs as [|x rs IH]; intros Hnin; [reflexivity|].
  rewrite fmap_cons in Hnin. apply not_elem_of_cons in Hnin as [Hne Hnin].
  rewrite filter_cons_True by congruence. f_equal. apply IH, Hnin.
Qed.

(** X12. The model's [addRating] leaves exactly one entry for the user,
    whatever the list held before: the new one, at the end of the list, with
    the review kept only when it is a non-empty string. The entries of the
    other users stay, in their order. [removeRating] leaves no entry for the
    user, is idempotent, and undoes an [addRating] for a user who had no
    entry. *)
Theorem addRating_one_entry_at_end
    (u : ObjectId) (v : Z) (review : option string) (now : Date) (r : Recipe.t) :
  let entry := Rating.mk u v (if truthy review then review else None) now in
  let r' := Recipe_addRating u v review now r in
  filter (λ x, Rating.userId x = u) (Recipe.ratings r') = [entry]
  ∧ last (Recipe.ratings r') = Some entry
  ∧ filter (λ x, Rating.userId x ≠ u) (Recipe.ratings r')
    = filter (λ x, Rating.userId x ≠ u) (Recipe.ratings r)
  ∧ filter (λ x, Rating.userId x = u) (Recipe.ratings (Recipe_removeRating u r)) = []
  ∧ Recipe_removeRating u (Recipe_removeRating u r) = Recipe_removeRating u r
  ∧ Recipe_removeRating u r' = Recipe_removeRating u r
  ∧ (u ∉ Rating.userId <$> Recipe.ratings r → Recipe_removeRating u r' = r).
Proof.
  intros entry r'. subst r'. unfold Recipe_addRating, Recipe_removeRating. simpl.
  fold entry.
  assert (Hnone : ∀ l : list Rating.t, filter (λ x, Rating.userId x = u)
                         (filter (λ x, Rating.userId x ≠ u) l) = []).
  { intros l. induction l as [|x l IH]; [reflexivity|].
    rewrite (filter_cons (λ x, Rating.userId x ≠ u)). case_decide as Hx; [|exact IH].
    rewrite filter_cons_False by exact Hx. exact IH. }
  assert (Hidem : ∀ l : list Rating.t, filter (λ x, Rating.userId x ≠ u)
                         (filter (λ x, Rating.userId x ≠ u) l)
                       = filter (λ x, Rating.userId x ≠ u) l).
  { intros l. induction l as [|x l IH]; [reflexivity|].
    rewrite (filter_cons (λ x, Rating.userId x ≠ u)). case_decide as Hx; [|exact IH].
    rewrite filter_cons_True by exact Hx. f_equal. exact IH. }
  assert (Hdrop : filter (λ x, Rating.userId x ≠ u)
                    (filter (λ x, Rating.userId x ≠ u) (Recipe.ratings r) ++ [entry])
                  = filter (λ x, Rating.userId x ≠ u) (Recipe.ratings r)).
  { rewrite filter_app, Hidem.
    rewrite filter_cons_False by (intros Hx; apply Hx; reflexivity).
    rewrite filter_nil. apply app_nil_r. }
  split_and!.
  - rewrite filter_app, Hnone. rewrite filter_cons_True by reflexivity. reflexivity.
  - apply last_snoc.
  - exact Hdrop.
  - apply Hnone.
  - destruct r. unfold Recipe.with_ratings. simpl. f_equal. apply Hidem.
  - destruct r. unfold Recipe.with_ratings. simpl in *. f_equal. exact Hdrop.
  - intros Hnin. rewrite Hdrop. rewrite filter_other_user_all by exact Hnin.
    destruct r. reflexivity.
Qed.

Lemma Recipe_isLikedBy_elem (u : ObjectId) (r : Recipe.t) :
  Recipe_isLikedBy u r = true ↔ u ∈ Recipe.likes r.
Proof. unfold Recipe_isLikedBy. apply existsb_same. Qed.

(** X13. The model's like methods treat the like list as a set: after
    [addLike] the user is liked by, after [removeLike] not; neither changes
    whether another user is; [addLike] is idempotent and keeps a list
    without repeats free of repeats; and [removeLike] undoes an [addLike]
    for a user who had not liked. *)
Theorem model_likes_as_set (u : ObjectId) (r : Recipe.t) :
  Recipe_isLikedBy u (Recipe_addLike u r) = true
  ∧ Recipe_isLikedBy u (Recipe_removeLike u r) = false
  ∧ (∀ v, v ≠ u →
          Recipe_isLikedBy v (Recipe_addLike u r) = Recipe_isLikedBy v r
          ∧ Recipe_isLikedBy v (Recipe_removeLike u r) = Recipe_isLikedBy v r)
  ∧ Recipe_addLike u (Recipe_addLike u r) = Recipe_addLike u r
  ∧ (NoDup (Recipe.likes r) → NoDup (Recipe.likes (Recipe_addLike u r)))
  ∧ (u ∉ Recipe.likes r → Recipe_removeLike u (Recipe_addLike u r) = r).
Proof.
  assert (Hadd : ∀ v, v ∈ Recipe.likes (Recipe_addLike u r) ↔ v = u ∨ v ∈ Recipe.likes r).
  { intros v. unfold Recipe_addLike. destruct (includes u (Recipe.likes r)) eqn:Hi.
    - apply includes_true in Hi. split; [auto|]. intros [->|H]; assumption.
    - simpl. rewrite elem_of_app. rewrite (list_elem_of_singleton v u). tauto. }
  assert (Hrm : ∀ v, v ∈ Recipe.likes (Recipe_removeLike u r) ↔ v ≠ u ∧ v ∈ Recipe.likes r).
  { intros v. unfold Recipe_removeLike. simpl. apply elem_of_pull. }
  assert (Hbool : ∀ b1 b2 : bool, (b1 = true ↔ b2 = true) → b1 = b2).
  { intros [] [] [H1 H2]; auto. symmetry. auto. }
  split_and!.
  - apply Recipe_isLikedBy_elem, Hadd. left. reflexivity.
  - destruct (Recipe_isLikedBy u (Recipe_removeLike u r)) eqn:E; [|reflexivity].
    apply Recipe_isLikedBy_elem, Hrm in E. destruct E as [E _]. contradiction.
  - intros v Hv. split; apply Hbool; rewrite !Recipe_isLikedBy_elem.
    + rewrite Hadd. tauto.
    + rewrite Hrm. tauto.
  - unfold Recipe_addLike at 1.
    rewrite (proj2 (includes_true u _)); [reflexivity|]. apply Hadd. left. reflexivity.
  - intros Hnd. unfold Recipe_addLike. destruct (includes u (Recipe.likes r)) eqn:Hi;
      [exact Hnd|]. apply includes_false in Hi. simpl.
    apply NoDup_app. repeat split; [exact Hnd| |apply NoDup_singleton].
    intros y Hy Hin. apply list_elem_of_singleton in Hin. subst y. contradiction.
  - intros Hnin. unfold Recipe_addLike, Recipe_removeLike.
    rewrite (proj2 (includes_false _ _) Hnin). destruct r. unfold Recipe.with_likes.
    simpl in *. rewrite pull_pushed by exact Hnin. reflexivity.
Qed.

(** ** Rating values and the range of the average *)

Lemma in_range_sum (vs : list Z) :
  Forall (λ v, (1 ≤ v ≤ 5)%Z) vs →
  (Z.of_nat (length vs) ≤ foldr Z.add 0 vs ≤ 5 * Z.of_nat (length vs))%Z.
Proof.
  induction 1 as [|v vs Hv _ IH]; simpl foldr; simpl length; lia.
Qed.

(** The average of a non-empty list of values between 1 and 5 lies between
    1 and 5: rounding to tenths cannot leave the interval, its ends being
    whole tenths. *)
Lemma averageRating_bounds (r : Recipe.t) :
  ratings_in_range r →
  Recipe.ratings r ≠ [] →
  (1 <= averageRating r)%Q ∧ (averageRating r <= 5)%Q.
Proof.
  unfold ratings_in_range, averageRating. intros Hin Hne.
  rewrite ratings_sum_values.
  assert (Hvs : Forall (λ v, (1 ≤ v ≤ 5)%Z) (Rating.rating <$> Recipe.ratings r)).
  { apply Forall_fmap. exact Hin. }
  apply in_range_sum in Hvs. rewrite length_fmap in Hvs.
  destruct (Recipe.ratings r) as [|x rs] eqn:E; [congruence|].
  rewrite bool_decide_eq_false_2 by discriminate.
  set (n := Z.of_nat (length (x :: rs))) in *.
  set (sum := foldr Z.add 0%Z (Rating.rating <$> x :: rs)) in *.
  assert (Hn : (0 < n)%Z) by (subst n; simpl length; lia).
  clearbody n sum.
  assert (Hnq : (0 < inject_Z n)%Q) by (unfold Qlt; simpl; lia).
  assert (Hlo : (1 <= inject_Z sum / inject_Z n)%Q).
  { apply Qle_shift_div_l; [exact Hnq|]. rewrite Qmult_1_l.
    rewrite <- Zle_Qle. lia. }
  assert (Hhi : (inject_Z sum / inject_Z n <= 5)%Q).
  { apply Qle_shift_div_r; [exact Hnq|].
    change 5%Q with (inject_Z 5). rewrite <- inject_Z_mult, <- Zle_Qle. lia. }
  set (mean := (inject_Z sum / inject_Z n)%Q) in *. clearbody mean.
  destruct (Math_round_bounds (mean * 10)) as [Hk1 Hk2].
  set (k := Math_round (mean * 10)) in *. clearbody k.
  assert (Hk : (10 ≤ k ≤ 50)%Z).
  { assert (H1 : (inject_Z k <= 101 # 2)%Q) by lra.
    assert (H2 : (19 # 2 < inject_Z k)%Q) by lra.
    unfold Qle in H1. unfold Qlt in H2. simpl in H1, H2. lia. }
  split.
  - apply Qle_shift_div_l; [reflexivity|]. rewrite Qmult_1_l.
    change 10%Q with (inject_Z 10). rewrite <- Zle_Qle. lia.
  - apply Qle_shift_div_r; [reflexivity|].
    change (5 * 10)%Q with (inject_Z 50). rewrite <- Zle_Qle. lia.
Qed.

Section RatingRange.
Context (schemaAccepts : Notification.t → bool).

(** [rateRecipe] writes a value only past its range check; the other
    controllers write no rating. *)
Lemma handle_ratings_in_range req s id r' :
  recipes (handle schemaAccepts req s) !! id = Some r' →
  ∃ r, recipes s !! id = Some r ∧ (ratings_in_range r → ratings_in_range r').
Proof.
  unfold ratings_in_range.
  destruct req; simpl.
  all: unfold rateRecipe, toggleLikeRecipe, followUser, unfollowUser, addToFavorites,
         removeFromFavorites, addComment, deleteComment, likeComment,
         unlikeComment, toggleCommentLike, deleteRecipe.
  all: exec; intros Hr'.
  all: try (eexists; split; [eassumption|tauto]; fail).
  all: try (apply lookup_delete_Some in Hr' as [_ Hr'];
            eexists; split; [eassumption|tauto]; fail).
  all: apply lookup_insert_Some in Hr' as [[-> <-]|[_ Hr']];
    try (eexists; split; [eassumption|tauto]; fail).
  all: eexists; (split; [eassumption|]); simpl; intros Hin; try exact Hin.
  all: match goal with
       | H : _ || _ || _ = false |- _ =>
         rewrite !orb_false_iff, !Z.ltb_ge in H; destruct H as [[_ ?] ?]
       end.
  all: try (apply Forall_app; split; [exact Hin|];
            apply Forall_singleton; simpl; lia).
  all: apply Forall_alter; [exact Hin|]; intros; simpl; lia.
Qed.

Lemma run_keeps_ratings_in_range reqs s :
  (∀ id r, recipes s !! id = Some r → ratings_in_range r) →
  ∀ id r, recipes (run schemaAccepts reqs s) !! id = Some r → ratings_in_range r.
Proof.
  revert s. induction reqs as [|req reqs IH]; intros s Hinv; simpl.
  - exact Hinv.
  - apply IH. intros id r' Hr'.
    apply handle_ratings_in_range in Hr' as (r & Hr & Hstep). eauto.
Qed.
End RatingRange.

(** X14. From a store whose rating values all lie between 1 and 5, no run
    of requests leads to a rating value outside that range, and every
    stored recipe reads an average of 0 (no ratings) or between 1 and 5. *)
Theorem run_keeps_average_in_range
    (schemaAccepts : Notification.t → bool) (s : Store) :
  (∀ id r, recipes s !! id = Some r → ratings_in_range r) →
  ∀ reqs id r,
    recipes (run schemaAccepts reqs s) !! id = Some r →
    ratings_in_range r
    ∧ match Recipe.ratings r with
      | [] => averageRating r = 0%Q
      | _ :: _ => (1 <= averageRating r)%Q ∧ (averageRating r <= 5)%Q
      end.
Proof.
  intros Hinv reqs id r Hr.
  pose proof (run_keeps_ratings_in_range schemaAccepts reqs s Hinv id r Hr) as Hin.
  split; [exact Hin|].
  destruct (Recipe.ratings r) as [|x rs] eqn:E.
  - unfold averageRating. rewrite E. reflexivity.
  - apply averageRating_bounds; [exact Hin|]. rewrite E. discriminate.
Qed.

Lemma run_keeps_average_in_range_witness :
  (∀ id r, recipes Demo.store_rated !! id = Some r → ratings_in_range r)
  ∧ ∀ reqs id r,
      recipes (run acceptAll reqs Demo.store_rated) !! id = Some r →
      ratings_in_range r
      ∧ match Recipe.ratings r with
        | [] => averageRating r = 0%Q
        | _ :: _ => (1 <= averageRating r)%Q ∧ (averageRating r <= 5)%Q
        end.
Proof.
  assert (Hinv : ∀ id r, recipes Demo.store_rated !! id = Some r → ratings_in_range r).
  { intros id r H. change (recipes Demo.store_rated) with
      ({["r1" := Demo.pasta_rated]} : gmap ObjectId Recipe.t) in H.
    apply lookup_singleton_Some in H as [_ <-].
    apply Forall_singleton. simpl. lia. }
  split; [exact Hinv|].
  exact (run_keeps_average_in_range acceptAll Demo.store_rated Hinv).
Defined.

(** ** The controller and the model method report the same aggregate *)

Lemma sum_Permutation (vs ws : list Z) :
  vs ≡ₚ ws → foldr Z.add 0%Z vs = foldr Z.add 0%Z ws.
Proof. induction 1; simpl; lia. Qed.

(** The average and the count read the rating values as a multiset. *)
Lemma averageRating_values (r1 r2 : Recipe.t) :
  Rating.rating <$> Recipe.ratings r1 ≡ₚ Rating.rating <$> Recipe.ratings r2 →
  averageRating r1 = averageRating r2 ∧ ratingsCount r1 = ratingsCount r2.
Proof.
  intros Hp.
  assert (Hlen : length (Recipe.ratings r1) = length (Recipe.ratings r2)).
  { apply Permutation_length in Hp. rewrite !length_fmap in Hp. exact Hp. }
  unfold averageRating, ratingsCount. rewrite !ratings_sum_values.
  rewrite (sum_Permutation _ _ Hp), Hlen. split; reflexivity.
Qed.

Lemma values_overwritten (rs : list Rating.t) (i : nat) (old new new' : Rating.t) :
  NoDup (Rating.userId <$> rs) →
  rs !! i = Some old →
  Rating.rating new = Rating.rating new' →
  Rating.rating <$> <[i := new]> rs
  ≡ₚ Rating.rating <$> (filter (λ x, Rating.userId x ≠ Rating.userId old) rs ++ [new']).
Proof.
  intros Hnd Hi Hv. revert i Hnd Hi.
  induction rs as [|r rs IH]; intros [|i] Hnd Hi; simplify_eq/=.
  - apply NoDup_cons in Hnd as [Hnin _].
    rewrite filter_cons_False by (intros H; apply H; reflexivity).
    rewrite filter_other_user_all by exact Hnin.
    rewrite fmap_app. simpl. rewrite Hv. apply Permutation_cons_append.
  - apply NoDup_cons in Hnd as [Hnin Hnd].
    rewrite filter_cons_True.
    + simpl. constructor. apply IH; assumption.
    + intros Heq. apply Hnin. rewrite Heq. apply list_elem_of_fmap.
      exists old. split; [reflexivity|]. eapply list_elem_of_lookup_2; eauto.
Qed.

(** X15. Whenever [rateRecipe] answers, on a recipe whose ratings name no
    user twice, the average and the count it reports are those the model's
    [addRating] gives for the same user and value, whatever review is
    passed to it: the controller rewrites the entry where it stands and
    keeps its review, the model method moves it to the end, and the
    aggregate reads neither the order nor the review. *)
Theorem rateRecipe_reports_as_addRating
    (schemaAccepts : Notification.t → bool)
    (u rid : ObjectId) (v : Z) (review : option string) (now : Date)
    (s : Store) (recipe : Recipe.t) (d : RateData) :
  recipes s !! rid = Some recipe →
  NoDup (Rating.userId <$> Recipe.ratings recipe) →
  answer (rateRecipe schemaAccepts u rid v now) s = inr d →
  rd_averageRating d = averageRating (Recipe_addRating u v review now recipe)
  ∧ rd_totalRatings d = ratingsCount (Recipe_addRating u v review now recipe).
Proof.
  intros Hr Hnd. unfold rateRecipe. exec; intros Hd; simplify_eq/=.
  all: apply averageRating_values; unfold Recipe_addRating; simpl.
  - match goal with
    | H : findIndex _ _ = Some _ |- _ =>
      apply findIndex_Some in H as (old & Hi & Hu & _); apply same_true in Hu
    end.
    rewrite (alter_at_entry _ _ old _ Hi). subst u.
    apply values_overwritten; [assumption|assumption|reflexivity].
  - match goal with
    | H : findIndex _ _ = None |- _ =>
      apply findIndex_None in H; rewrite Forall_forall in H
    end.
    rewrite filter_other_user_all; [rewrite !fmap_app; reflexivity|].
    intros Hin. apply list_elem_of_fmap in Hin as (x & Hx & Hin).
    match goal with
    | H : ∀ x, _ → _ |- _ => specialize (H x Hin); apply same_false in H
    end. congruence.
  - match goal with
    | H : findIndex _ _ = None |- _ =>
      apply findIndex_None in H; rewrite Forall_forall in H
    end.
    rewrite filter_other_user_all; [rewrite !fmap_app; reflexivity|].
    intros Hin. apply list_elem_of_fmap in Hin as (x & Hx & Hin).
    match goal with
    | H : ∀ x, _ → _ |- _ => specialize (H x Hin); apply same_false in H
    end. congruence.
Qed.

Lemma rateRecipe_reports_as_addRating_witness :
  ∃ d, answer (rateRecipe acceptAll Demo.bob "r1" 2 200%Z) Demo.store_rated = inr d
       ∧ rd_averageRating d
         = averageRating (Recipe_addRating Demo.bob 2 (Some "Fine") 200%Z Demo.pasta_rated)
       ∧ rd_totalRatings d = 1%Z.
Proof.
  eexists. split; [reflexivity|].
  refine (rateRecipe_reports_as_addRating acceptAll Demo.bob "r1" 2%Z (Some "Fine") 200%Z
            Demo.store_rated Demo.pasta_rated _ _ _ _).
  - reflexivity.
  - apply NoDup_singleton.
  - reflexivity.
Defined.

(** ** Discovery: what a page holds *)

Lemma Recipe_find_stored regexTest (f : Filter.t) (s : Store) (id : ObjectId) (r : Recipe.t) :
  (id, r) ∈ Recipe_find regexTest f s ↔
  recipes s !! id = Some r ∧ matches regexTest f r = true.
Proof.
  unfold Recipe_find. rewrite list_elem_of_filter. simpl.
  rewrite elem_of_map_to_list. tauto.
Qed.

Lemma Recipe_find_NoDup regexTest (f : Filter.t) (s : Store) :
  NoDup (Recipe_find regexTest f s).*1.
Proof.
  unfold Recipe_find.
  eapply sublist_NoDup; [apply (NoDup_fst_map_to_list (recipes s))|].
  apply fmap_sublist, sublist_filter.
Qed.

Lemma page_sublist {A} (n k : nat) (l : list A) : take n (drop k l) `sublist_of` l.
Proof. etrans; [apply sublist_take|apply sublist_drop]. Qed.

Section Pages.
Context (regexTest : string → string → bool).
Context (parseInt : string → option Z).
Context (sortDocs : SortSpec → list (ObjectId * Recipe.t) → list (ObjectId * Recipe.t)).

(** X16. If sorting only rearranges the matching documents, every answer
    of the search holds stored recipes that are published and satisfy the
    filter built from the query, no recipe twice, and exactly as many of
    them as the page size allows of what is left past the skipped ones; for
    a positive page size, a page past the last one is empty. *)
Theorem getAllRecipes_page_contents (q : Query.t) (s : Store) (d : SearchData) :
  (∀ sp l, sortDocs sp l ≡ₚ l) →
  answer (getAllRecipes regexTest parseInt sortDocs q) s = inr d →
  let f := buildSearchFilter parseInt q in
  let p := sd_pagination d in
  (∀ id r, (id, r) ∈ sd_recipes d →
           recipes s !! id = Some r
           ∧ Recipe.isPublished r = true
           ∧ matches regexTest f r = true)
  ∧ NoDup (sd_recipes d).*1
  ∧ Z.of_nat (length (sd_recipes d))
    = Z.min (Z.abs (limit p)) (Z.max 0 (total p - (page p - 1) * limit p))
  ∧ ((0 < limit p)%Z → (totalPages p < page p)%Z → sd_recipes d = []).
Proof.
  intros Hsort.
  unfold answer, getAllRecipes, Recipe_find_page, Recipe_countDocuments. unfold_m.
  set (pg := requestedPage parseInt q). set (L := requestedLimit parseInt q).
  set (f := buildSearchFilter parseInt q).
  destruct ((pg - 1) * L <? 0)%Z eqn:Hskip; simpl; [discriminate|].
  apply Z.ltb_ge in Hskip.
  intros Hd. inversion Hd; subst d; clear Hd. simpl.
  set (found := Recipe_find regexTest f s).
  set (sorted := sortDocs (buildSortOptions q) found).
  assert (Hp : sorted ≡ₚ found) by apply Hsort.
  assert (Hlen : length sorted = length found) by (apply Permutation_length, Hp).
  split_and!.
  - intros id r Hin.
    assert (Hf : (id, r) ∈ found).
    { rewrite <- Hp. eapply elem_of_sublist; [exact Hin|apply page_sublist]. }
    apply Recipe_find_stored in Hf as [Hr Hm].
    split_and!; [exact Hr| |exact Hm].
    eapply buildSearchFilter_published. exact Hm.
  - eapply sublist_NoDup; [|apply fmap_sublist, page_sublist].
    rewrite Hp. apply Recipe_find_NoDup.
  - rewrite length_take, length_drop, Hlen. lia.
  - intros HL Hpast.
    destruct (Math_ceil_div_bounds (Z.of_nat (length found)) L HL) as [Hhi _].
    apply length_zero_iff_nil. rewrite length_take, length_drop, Hlen.
    assert (Z.of_nat (length found) ≤ (pg - 1) * L)%Z by nia.
    lia.
Qed.
End Pages.

Lemma getAllRecipes_page_contents_witness :
  (∀ sp l, naturalOrder sp l ≡ₚ l)
  ∧ ∃ d, answer (getAllRecipes noMatch parseDecimal naturalOrder Demo.page2) Demo.cookbook
         = inr d
      ∧ NoDup (sd_recipes d).*1
      ∧ Z.of_nat (length (sd_recipes d)) = 2%Z.
Proof.
  assert (Hsort : ∀ sp l, naturalOrder sp l ≡ₚ l) by reflexivity.
  split; [exact Hsort|].
  destruct (getAllRecipes_page_contents noMatch parseDecimal naturalOrder
              Demo.page2 Demo.cookbook _ Hsort eq_refl) as (_ & Hnd & Hlen & _).
  eexists. split; [reflexivity|].
  split; [exact Hnd|]. etrans; [exact Hlen|]. vm_compute. reflexivity.
Defined.

(** ** Discovery: categories *)

Lemma matches_publishedFilter regexTest (r : Recipe.t) :
  matches regexTest publishedFilter r = Recipe.isPublished r.
Proof.
  unfold matches, publishedFilter. simpl. rewrite !andb_true_r.
  destruct (Recipe.isPublished r); reflexivity.
Qed.

Lemma elem_of_distinct regexTest (field : Recipe.t → list string) (s : Store) (v : string) :
  v ∈ distinct regexTest field publishedFilter s ↔
  v ≠ EmptyString
  ∧ ∃ id r, recipes s !! id = Some r ∧ Recipe.isPublished r = true ∧ v ∈ field r.
Proof.
  unfold distinct. rewrite list_elem_of_filter, elem_of_remove_dups.
  rewrite list_elem_of_join. split.
  - intros [Hne (l & Hv & Hl)]. split; [exact Hne|].
    apply list_elem_of_fmap in Hl as ([id r] & -> & Hin).
    apply Recipe_find_stored in Hin as [Hr Hm]. rewrite matches_publishedFilter in Hm.
    simpl in Hv. exists id, r. split_and!; assumption.
  - intros [Hne (id & r & Hr & Hp & Hv)]. split; [exact Hne|].
    exists (field r). split; [exact Hv|].
    apply list_elem_of_fmap. exists (id, r). split; [reflexivity|].
    apply Recipe_find_stored. rewrite matches_publishedFilter. auto.
Qed.

Lemma distinct_NoDup regexTest (field : Recipe.t → list string) (f : Filter.t) (s : Store) :
  NoDup (distinct regexTest field f s).
Proof. unfold distinct. apply NoDup_filter, NoDup_remove_dups. Qed.

(** X17. The category listing names each value once and never the empty
    string, and a value is listed exactly when some stored published
    recipe carries it: as its cuisine, among its meal types, among its
    dietary restrictions, or among its tags. No regular expression is
    consulted. *)
Theorem getCategories_sound_and_complete
    (regexTest : string → string → bool) (s : Store) :
  ∃ c, answer (getCategories regexTest) s = inr c
    ∧ after (getCategories regexTest) s = s
    ∧ NoDup (cuisineTypes c) ∧ NoDup (mealTypes c)
    ∧ NoDup (cat_dietaryRestrictions c) ∧ NoDup (cat_tags c)
    ∧ ∀ v,
        let listed (field : Recipe.t → list string) :=
          v ≠ EmptyString
          ∧ ∃ id r, recipes s !! id = Some r ∧ Recipe.isPublished r = true ∧ v ∈ field r in
        (v ∈ cuisineTypes c ↔ listed (λ r, [Recipe.cuisineType r]))
        ∧ (v ∈ mealTypes c ↔ listed Recipe.mealType)
        ∧ (v ∈ cat_dietaryRestrictions c ↔ listed Recipe.dietaryRestrictions)
        ∧ (v ∈ cat_tags c ↔ listed Recipe.tags).
Proof.
  eexists. split; [reflexivity|]. split; [reflexivity|]. simpl.
  split_and!; try apply distinct_NoDup.
  intros v. split_and!; apply elem_of_distinct.
Qed.

(** ** Notifications: what the schema lets through *)

Lemma notificationSchema_enum (i : NotificationInput.t) :
  is_Some (notificationSchema i) → NotificationInput.type i ∈ notificationTypes.
Proof.
  unfold notificationSchema. case_bool_decide as Hin; [auto|].
  intros [d Hd]. discriminate.
Qed.

(** X18. [createNotification] under a fresh id stores a document exactly
    when the sender is not the recipient and the type is one of the six of
    the schema. The stored document is unread, carries the sender as
    [data.userId], the given recipe and comment ids, and the title and
    message of its type; every refusal leaves the collection as it was. *)
Theorem createNotification_stores_iff
    (newId : ObjectId) (data : NotificationData) (box : Inbox) :
  box !! newId = None →
  match createNotification newId data box with
  | (box', inr d) =>
    nd_recipient data ≠ nd_sender data
    ∧ nd_type data ∈ notificationTypes
    ∧ box' = <[newId := d]> box
    ∧ d = NotificationDoc.mk (nd_recipient data) (nd_sender data) (nd_type data)
            (titleAndMessage (nd_type data)).1 (titleAndMessage (nd_type data)).2
            (nd_recipeId data) (nd_commentId data) (Some (nd_sender data)) false None
  | (box', inl _) =>
    box' = box
    ∧ (nd_recipient data = nd_sender data ∨ nd_type data ∉ notificationTypes)
  end.
Proof.
  intros Hnew. unfold createNotification.
  destruct (same (nd_recipient data) (nd_sender data)) eqn:Hself.
  { apply same_true in Hself. auto. }
  apply same_false in Hself.
  destruct (decide (nd_type data ∈ notificationTypes)) as [Hin|Hout].
  - destruct data as [r sd ty rid cid]. simpl in *.
    unfold notificationTypes in Hin.
    repeat (apply elem_of_cons in Hin as [->|Hin]);
      [..|apply elem_of_nil in Hin; contradiction].
    all: cbn; rewrite Hnew; split_and!; try reflexivity; try assumption.
    all: unfold notificationTypes; set_solver.
  - destruct (titleAndMessage (nd_type data)) as [title message].
    unfold notificationSchema. simpl.
    rewrite bool_decide_eq_false_2 by exact Hout. auto.
Qed.

Lemma createNotification_stores_iff_witness :
  (∅ : Inbox) !! "n1" = None
  ∧ ∃ d, createNotification "n1"
           (mkNotificationData Demo.alice Demo.bob "user_follow" None None) ∅
         = ({["n1" := d]}, inr d)
       ∧ NotificationDoc.title d = "New Follower"
       ∧ NotificationDoc.isRead d = false.
Proof.
  assert (Hnew : (∅ : Inbox) !! "n1" = None) by reflexivity.
  split; [exact Hnew|].
  pose proof (createNotification_stores_iff "n1"
                (mkNotificationData Demo.alice Demo.bob "user_follow" None None) ∅ Hnew)
    as H.
  destruct (createNotification "n1"
              (mkNotificationData Demo.alice Demo.bob "user_follow" None None) ∅)
    as [box' [e|d]] eqn:E.
  - exfalso. destruct H as [_ [H|H]]; [discriminate H|].
    apply H. unfold notificationTypes. simpl. set_solver.
  - destruct H as (_ & _ & -> & Hd). exists d. split; [reflexivity|].
    rewrite Hd. split; reflexivity.
Defined.

Lemma notificationSchemaAccepts_never (n : Notification.t) :
  notificationSchemaAccepts n = false.
Proof.
  unfold notificationSchemaAccepts, notificationSchema, literal. simpl.
  destruct (bool_decide (Notification.type n ∈ notificationTypes)); reflexivity.
Qed.

Section Refusing.
Context (schemaAccepts : Notification.t → bool).
Hypothesis refuses : ∀ n, schemaAccepts n = false.

Lemma handle_refusing req s :
  notifications (handle schemaAccepts req s) = notifications s.
Proof.
  destruct req; simpl.
  all: unfold rateRecipe, toggleLikeRecipe, followUser, unfollowUser, addToFavorites,
         removeFromFavorites, addComment, deleteComment, likeComment,
         unlikeComment, toggleCommentLike, deleteRecipe.
  all: exec; try reflexivity.
  all: repeat match goal with
       | H : schemaAccepts ?n = true |- _ => rewrite refuses in H; discriminate H
       end.
Qed.

Lemma run_refusing reqs s :
  notifications (run schemaAccepts reqs s) = notifications s.
Proof.
  revert s. induction reqs as [|req reqs IH]; intros s; [reflexivity|].
  etrans; [apply (IH (handle schemaAccepts req s))|apply handle_refusing].
Qed.

Lemma rateRecipe_refused u rid v now s recipe :
  recipes s !! rid = Some recipe →
  (1 ≤ v ≤ 5)%Z →
  Recipe.author recipe ≠ u →
  u ∉ Rating.userId <$> Recipe.ratings recipe →
  rateRecipe schemaAccepts u rid v now s
  = (s, inl (mkError MongooseValidationError "Notification validation failed")).
Proof.
  intros Hr Hv Ha Hu. unfold rateRecipe.
  assert ((bool_decide (v = 0%Z) || (v <? 1)%Z || (5 <? v)%Z) = false) as ->.
  { rewrite !orb_false_iff, bool_decide_eq_false, !Z.ltb_ge. lia. }
  unfold_model. unfold_m. rewrite Hr.
  destruct (findIndex (λ r, same (Rating.userId r) u) (Recipe.ratings recipe))
    as [i|] eqn:E.
  - apply findIndex_Some in E as (x & Hi & Hx & _). apply same_true in Hx.
    exfalso. apply Hu. apply list_elem_of_fmap. exists x. split; [auto|].
    eapply list_elem_of_lookup_2; eauto.
  - simpl. rewrite (proj2 (same_false _ _) Ha). simpl. rewrite refuses. reflexivity.
Qed.

Lemma toggleLikeRecipe_refused u rid s recipe :
  recipes s !! rid = Some recipe →
  Recipe.author recipe ≠ u →
  u ∉ Recipe.likes recipe →
  toggleLikeRecipe schemaAccepts u rid s
  = (s, inl (mkError MongooseValidationError "Notification validation failed")).
Proof.
  intros Hr Ha Hu. unfold toggleLikeRecipe.
  unfold_model. unfold_m. rewrite Hr.
  destruct (findIndex (λ id, same id u) (Recipe.likes recipe)) as [i|] eqn:E.
  - apply findIndex_Some in E as (x & Hi & Hx & _). apply same_true in Hx. subst x.
    exfalso. apply Hu. eapply list_elem_of_lookup_2; eauto.
  - simpl. rewrite (proj2 (same_false _ _) Ha). simpl. rewrite refuses. reflexivity.
Qed.
End Refusing.

(** X19. [notificationSchema] lets no notification of the controllers
    through: their object literal has no [title], which the schema
    requires (and their types [like], [comment], [reply], [rating] and
    [follow] are outside its enum). With the schema as written, no run of
    requests adds a notification, and a first rating or a like of a recipe
    by someone other than its author is answered with the validation error
    and not stored, the notification being created before the save. *)
Theorem notificationSchema_refuses_the_controllers :
  (∀ n, notificationSchema (literal n) = None)
  ∧ (∀ reqs s, notifications (run notificationSchemaAccepts reqs s) = notifications s)
  ∧ (∀ u rid v now s recipe,
       recipes s !! rid = Some recipe →
       (1 ≤ v ≤ 5)%Z →
       Recipe.author recipe ≠ u →
       u ∉ Rating.userId <$> Recipe.ratings recipe →
       rateRecipe notificationSchemaAccepts u rid v now s
       = (s, inl (mkError MongooseValidationError "Notification validation failed")))
  ∧ (∀ u rid s recipe,
       recipes s !! rid = Some recipe →
       Recipe.author recipe ≠ u →
       u ∉ Recipe.likes recipe →
       toggleLikeRecipe notificationSchemaAccepts u rid s
       = (s, inl (mkError MongooseValidationError "Notification validation failed"))).
Proof.
  split_and!.
  - intros n. pose proof (notificationSchemaAccepts_never n) as H.
    unfold notificationSchemaAccepts in H.
    destruct (notificationSchema (literal n)); [discriminate H|reflexivity].
  - intros reqs s. apply run_refusing. exact notificationSchemaAccepts_never.
  - intros u rid v now s recipe. apply rateRecipe_refused.
    exact notificationSchemaAccepts_never.
  - intros u rid s recipe. apply toggleLikeRecipe_refused.
    exact notificationSchemaAccepts_never.
Qed.

(** A rating by bob of alice's recipe, under the schema as written. *)
Example rateRecipe_under_the_schema :
  rateRecipe notificationSchemaAccepts Demo.bob "r1" 5 10%Z Demo.store
  = (Demo.store, inl (mkError MongooseValidationError "Notification validation failed")).
Proof. vm_compute. reflexivity. Qed.

(** ** The inbox: reading and deleting notifications *)

Section Counting.
Context (P : string * NotificationDoc.t → Prop) `{!∀ x, Decision (P x)}.

Lemma size_filter_delete (m : Inbox) (i : string) (x : NotificationDoc.t) :
  m !! i = Some x →
  size (filter P m) = (if decide (P (i, x)) then 1 else 0) + size (filter P (delete i m)).
Proof.
  intros Hi. rewrite map_filter_delete. destruct (decide (P (i, x))) as [Hp|Hp].
  - assert (Hf : filter P m !! i = Some x) by (apply map_lookup_filter_Some; auto).
    rewrite map_size_delete_Some by eauto.
    pose proof (map_size_ne_0_lookup_2 (filter P m) i (mk_is_Some _ _ Hf)). lia.
  - rewrite map_size_delete_None; [reflexivity|].
    apply map_lookup_filter_None. right. intros y Hy. congruence.
Qed.

Lemma size_filter_insert (m : Inbox) (i : string) (y : NotificationDoc.t) :
  size (filter P (<[i := y]> m))
  = (if decide (P (i, y)) then 1 else 0) + size (filter P (delete i m)).
Proof.
  destruct (decide (P (i, y))) as [Hp|Hp].
  - rewrite <- insert_delete_eq. rewrite map_filter_insert_True by exact Hp.
    rewrite map_size_insert_None; [reflexivity|].
    apply map_lookup_filter_None. left. apply lookup_delete_eq.
  - rewrite map_filter_insert_False by exact Hp. reflexivity.
Qed.
End Counting.

Lemma unreadOf_with_read (u : ObjectId) (i : string) (now : Date) (d : NotificationDoc.t) :
  ¬ unreadOf u (i, NotificationDoc.with_read now d).
Proof. unfold unreadOf. simpl. intros [_ H]. discriminate. Qed.

(** X20. [markAsRead] and [deleteNotification] act for the recipient only:
    a missing id is a NotFoundError and another user's notification an
    AuthorizationError, both leaving the collection as it was. For the
    recipient, [markAsRead] stamps the one document read at the current
    time (again, if it was read already) and [deleteNotification] removes
    it; either way the recipient's unread count drops by one if the
    document was unread and every other user's count stays. *)
Theorem inbox_recipient_only
    (u id : ObjectId) (now : Date) (box : Inbox) :
  let unread (d : NotificationDoc.t) : Z :=
    if NotificationDoc.isRead d then 0%Z else 1%Z in
  match markAsRead u id now box with
  | (box', inr _) =>
    ∃ d, box !! id = Some d ∧ NotificationDoc.recipient d = u
         ∧ box' = <[id := NotificationDoc.with_read now d]> box
         ∧ getUnreadCount u box' = (getUnreadCount u box - unread d)%Z
         ∧ ∀ v, v ≠ u → getUnreadCount v box' = getUnreadCount v box
  | (box', inl e) =>
    box' = box
    ∧ match box !! id with
      | None => kind e = NotFoundError
      | Some d => NotificationDoc.recipient d ≠ u ∧ kind e = AuthorizationError
      end
  end
  ∧ match deleteNotification u id box with
    | (box', inr _) =>
      ∃ d, box !! id = Some d ∧ NotificationDoc.recipient d = u
           ∧ box' = delete id box
           ∧ getUnreadCount u box' = (getUnreadCount u box - unread d)%Z
           ∧ ∀ v, v ≠ u → getUnreadCount v box' = getUnreadCount v box
    | (box', inl e) =>
      box' = box
      ∧ match box !! id with
        | None => kind e = NotFoundError
        | Some d => NotificationDoc.recipient d ≠ u ∧ kind e = AuthorizationError
        end
    end.
Proof.
  intros unread. unfold markAsRead, deleteNotification, getUnreadCount.
  destruct (box !! id) as [d|] eqn:Hd; [|split; split; reflexivity].
  destruct (same (NotificationDoc.recipient d) u) eqn:Hu; simpl.
  2:{ apply same_false in Hu. split; (split; [reflexivity|]); auto. }
  apply same_true in Hu.
  assert (Hmine : (if decide (unreadOf u (id, d)) then 1 else 0)%nat
                  = Z.to_nat (unread d)).
  { unfold unread. destruct (decide (unreadOf u (id, d))) as [[_ Hr]|Hn].
    - simpl in Hr. rewrite Hr. reflexivity.
    - destruct (NotificationDoc.isRead d) eqn:Hr; [reflexivity|].
      exfalso. apply Hn. split; assumption. }
  assert (Hother : ∀ v d', v ≠ u → NotificationDoc.recipient d' = u →
                           ¬ unreadOf v (id, d')).
  { intros v d' Hv Hr [Hr' _]. simpl in Hr'. congruence. }
  assert (Hrange : (0 ≤ unread d)%Z) by (unfold unread; destruct (NotificationDoc.isRead d); lia).
  split; exists d; split_and!; try reflexivity; try exact Hu.
  - rewrite (size_filter_insert (unreadOf u)), (size_filter_delete (unreadOf u) box id d Hd).
    rewrite decide_False by apply unreadOf_with_read. rewrite Hmine. lia.
  - intros v Hv.
    rewrite (size_filter_insert (unreadOf v)), (size_filter_delete (unreadOf v) box id d Hd).
    rewrite !decide_False; [reflexivity|apply Hother; auto|apply unreadOf_with_read].
  - rewrite (size_filter_delete (unreadOf u) box id d Hd). rewrite Hmine. lia.
  - intros v Hv.
    rewrite (size_filter_delete (unreadOf v) box id d Hd).
    rewrite decide_False by (apply Hother; auto). reflexivity.
Qed.

(** X21. [markAllAsRead] leaves the user with no unread notification. It
    adds and removes no document, stamps the user's unread ones read at the
    current time, keeps the ones already read with their earlier [readAt],
    and changes no document and no unread count of any other user. *)
Theorem markAllAsRead_clears_unread (u : ObjectId) (now : Date) (box : Inbox) :
  let box' := (markAllAsRead u now box).1 in
  getUnreadCount u box' = 0%Z
  ∧ dom box' = dom box
  ∧ (∀ id d, box !! id = Some d →
       box' !! id
       = Some (if bool_decide (NotificationDoc.recipient d = u)
                  && negb (NotificationDoc.isRead d)
               then NotificationDoc.with_read now d else d))
  ∧ (∀ v, v ≠ u → getUnreadCount v box' = getUnreadCount v box).
Proof.
  intros box'. subst box'. unfold markAllAsRead, getUnreadCount. simpl.
  set (f := λ d : NotificationDoc.t,
              if bool_decide (NotificationDoc.recipient d = u
                              ∧ NotificationDoc.isRead d = false)
              then NotificationDoc.with_read now d else d).
  split_and!.
  - assert (E : filter (unreadOf u) (f <$> box) = ∅).
    { apply map_empty_filter. intros id d' Hd'.
      rewrite lookup_fmap in Hd'. destruct (box !! id) as [d|]; simplify_eq/=.
      unfold f. case_bool_decide as Hc; [apply unreadOf_with_read|].
      exact Hc. }
    rewrite E, map_size_empty. reflexivity.
  - apply dom_fmap_L.
  - intros id d Hd. rewrite lookup_fmap, Hd. simpl. f_equal. unfold f.
    destruct (NotificationDoc.isRead d) eqn:Hr; simpl.
    + rewrite andb_false_r. rewrite bool_decide_eq_false_2; [reflexivity|].
      intros [_ H]. discriminate.
    + rewrite andb_true_r. case_bool_decide as H1; case_bool_decide as H2;
        try reflexivity; exfalso; tauto.
  - intros v Hv. f_equal. f_equal.
    apply map_filter_strong_ext. intros id d. rewrite lookup_fmap.
    unfold unreadOf. simpl. split.
    + intros [[Hr Hunread] Hl]. destruct (box !! id) as [d0|]; simplify_eq/=.
      unfold f in *. case_bool_decide as Hc; simpl in *; [discriminate|]. auto.
    + intros [[Hr Hunread] Hl]. rewrite Hl. simpl. unfold f.
      rewrite bool_decide_eq_false_2 by (intros [? _]; congruence). auto.
Qed.

(** ** Login lockout *)

Lemma failedLogins_snoc (ts : list Date) (t : Date) (u : Login.t) :
  failedLogins (ts ++ [t]) u = incrementLoginAttempts t (failedLogins ts u).
Proof. unfold failedLogins. rewrite foldl_app. reflexivity. Qed.

(** Below the threshold an account without a lock only counts. *)
Lemma failedLogins_counting (ts : list Date) (u : Login.t) :
  Login.lockUntil u = None →
  (Login.loginAttempts u + Z.of_nat (length ts) < 5)%Z →
  failedLogins ts u = Login.mk (Login.loginAttempts u + Z.of_nat (length ts)) None.
Proof.
  revert u. induction ts as [|t ts IH]; intros [a l] Hl Ha; simpl in *; subst l.
  - f_equal. lia.
  - unfold failedLogins in *. simpl. unfold incrementLoginAttempts at 2. simpl.
    assert ((5 <=? a + 1)%Z = false) as -> by (apply Z.leb_gt; lia). simpl.
    rewrite IH; simpl; [f_equal; lia|reflexivity|lia].
Qed.

(** While the lock holds, a failed login counts and leaves the lock. *)
Lemma failedLogins_locked (ts : list Date) (u : Login.t) (until : Date) :
  Login.lockUntil u = Some until →
  Forall (λ t, (t < until)%Z) ts →
  failedLogins ts u
  = Login.mk (Login.loginAttempts u + Z.of_nat (length ts)) (Some until).
Proof.
  revert u. induction ts as [|t ts IH]; intros [a l] Hl Hts; simpl in *; subst l.
  - f_equal. lia.
  - apply Forall_cons in Hts as [Ht Hts].
    unfold failedLogins in *. simpl. unfold incrementLoginAttempts at 2, isLocked. simpl.
    assert ((until <? t)%Z = false) as -> by (apply Z.ltb_ge; lia).
    assert ((t <? until)%Z = true) as -> by (apply Z.ltb_lt; lia).
    rewrite andb_false_r.
    rewrite IH; simpl; [f_equal; lia|reflexivity|exact Hts].
Qed.

(** X22. For an account without a lock and with fewer than five counted
    attempts, failed logins only count until the count reaches five; the
    failed login that brings it to five, at time [t], locks the account
    until two hours after [t]. Failed logins during the lock count on but
    neither extend nor lift it, so the account reads as locked at any time
    before [t] plus two hours; the first failed login after that time
    clears the lock and restarts the count at 1, and a reset clears both. *)
Theorem lockout_after_five_failures
    (u : Login.t) (before during : list Date) (t late : Date) :
  Login.lockUntil u = None →
  (Login.loginAttempts u + Z.of_nat (length before) = 4)%Z →
  Forall (λ x, (x < t + lockTime)%Z) during →
  (t + lockTime < late)%Z →
  let locked := failedLogins (before ++ [t]) u in
  (∀ (k : nat) now, isLocked now (failedLogins (take k before) u) = false)
  ∧ locked = Login.mk 5 (Some (t + lockTime)%Z)
  ∧ Login.lockUntil (failedLogins during locked) = Some (t + lockTime)%Z
  ∧ (∀ now, (now < t + lockTime)%Z → isLocked now (failedLogins during locked) = true)
  ∧ incrementLoginAttempts late (failedLogins during locked) = Login.mk 1 None
  ∧ (∀ now, isLocked now (resetLoginAttempts (failedLogins during locked)) = false).
Proof.
  intros Hl Ha Hduring Hlate locked.
  assert (Hlocked : locked = Login.mk 5 (Some (t + lockTime)%Z)).
  { subst locked. rewrite failedLogins_snoc.
    rewrite (failedLogins_counting before u Hl) by lia.
    unfold incrementLoginAttempts, isLocked. simpl.
    assert ((5 <=? Login.loginAttempts u + Z.of_nat (length before) + 1)%Z = true) as ->
      by (apply Z.leb_le; lia).
    simpl. f_equal. lia. }
  assert (Hstill : failedLogins during locked
                   = Login.mk (5 + Z.of_nat (length during)) (Some (t + lockTime)%Z)).
  { rewrite Hlocked. rewrite (failedLogins_locked during _ (t + lockTime)%Z);
      [reflexivity|reflexivity|exact Hduring]. }
  split_and!.
  - intros k now. rewrite failedLogins_counting; [reflexivity|exact Hl|].
    rewrite length_take. lia.
  - exact Hlocked.
  - rewrite Hstill. reflexivity.
  - intros now Hnow. rewrite Hstill. unfold isLocked. simpl. apply Z.ltb_lt. exact Hnow.
  - rewrite Hstill. unfold incrementLoginAttempts. simpl.
    assert ((t + lockTime <? late)%Z = true) as -> by (apply Z.ltb_lt; exact Hlate).
    reflexivity.
  - intros now. reflexivity.
Qed.

Lemma lockout_after_five_failures_witness :
  Login.lockUntil (Login.mk 2 None) = None
  ∧ failedLogins ([10; 20] ++ [30])%Z (Login.mk 2 None)
    = Login.mk 5 (Some (30 + lockTime)%Z)
  ∧ isLocked 5000%Z
      (failedLogins [40; 50]%Z (failedLogins ([10; 20] ++ [30])%Z (Login.mk 2 None)))
    = true
  ∧ incrementLoginAttempts 8000000%Z
      (failedLogins [40; 50]%Z (failedLogins ([10; 20] ++ [30])%Z (Login.mk 2 None)))
    = Login.mk 1 None.
Proof.
  destruct (lockout_after_five_failures (Login.mk 2 None)
              [10; 20]%Z [40; 50]%Z 30%Z 8000000%Z)
    as (_ & Hlocked & _ & Hheld & Hlate & _).
  - reflexivity.
  - reflexivity.
  - repeat constructor.
  - reflexivity.
  - split; [reflexivity|]. split; [exact Hlocked|]. split; [|exact Hlate].
    apply Hheld. reflexivity.
Defined.

(** ** Toggling a comment like *)

(** X23. For a stored comment the user has not liked, whose like
    notification is not refused (the user is the author, or the schema
    accepts it), two [toggleCommentLike] calls answer liked with one more
    like and then not liked with the original count, and leave every
    comment, user and recipe as they were; the second call adds no
    notification. *)
Theorem toggleCommentLike_twice_restores
    (schemaAccepts : Notification.t → bool) (u cid : ObjectId) (s : Store)
    (c : Comment.t) :
  comments s !! cid = Some c →
  u ∉ Comment.likes c →
  same (Comment.author c) u || schemaAccepts (commentLikeNotification u cid c) = true →
  let n := Z.of_nat (length (Comment.likes c)) in
  let s1 := after (toggleCommentLike schemaAccepts u cid) s in
  let s2 := after (toggleCommentLike schemaAccepts u cid) s1 in
  answer (toggleCommentLike schemaAccepts u cid) s = inr (mkLikeData true (n + 1))
  ∧ answer (toggleCommentLike schemaAccepts u cid) s1 = inr (mkLikeData false n)
  ∧ comments s2 = comments s
  ∧ users s2 = users s
  ∧ recipes s2 = recipes s
  ∧ notifications s2 = notifications s1.
Proof.
  intros Hc Hnin Hpasses n s1 s2.
  set (liked := Comment.with_likes (Comment.likes c ++ [u]) c).
  assert (Hlen : Z.of_nat (length (Comment.likes liked)) = (n + 1)%Z).
  { subst n liked. simpl. rewrite length_app. simpl. lia. }
  assert (Hin1 : u ∈ Comment.likes liked) by (simpl; apply elem_of_app; right; left).
  assert (Hback : ∀ st, comments st = comments s →
            let st1 := with_comments <[cid := liked]> st in
            toggleCommentLike schemaAccepts u cid st1
            = (with_comments <[cid := c]> st1, inr (mkLikeData false n))).
  { intros st Hst st1.
    assert (Hc1 : comments st1 !! cid = Some liked) by apply lookup_insert_eq.
    rewrite (toggleCommentLike_unlikes schemaAccepts u cid _ liked Hc1 Hin1). simpl.
    rewrite pull_pushed by exact Hnin. destruct c; reflexivity. }
  assert (Hins : <[cid := c]> (<[cid := liked]> (comments s)) = comments s).
  { rewrite insert_insert_eq. apply insert_id. exact Hc. }
  pose proof (toggleCommentLike_likes schemaAccepts u cid s c Hc Hnin) as Ht.
  simpl in Ht. fold liked in Ht. subst s2 s1. unfold after, answer. rewrite Ht.
  destruct (same (Comment.author c) u) eqn:Hself;
    [|destruct (schemaAccepts (commentLikeNotification u cid c)) eqn:Hacc];
    simpl in Hpasses; try discriminate Hpasses; simpl.
  - rewrite (Hback s eq_refl). simpl.
    split_and!; try reflexivity; [rewrite <- Hlen; reflexivity|exact Hins].
  - rewrite (Hback (with_notifications
                      (λ l, l ++ [commentLikeNotification u cid c]) s) eq_refl). simpl.
    split_and!; try reflexivity; [rewrite <- Hlen; reflexivity|exact Hins].
Qed.

Lemma toggleCommentLike_twice_restores_witness :
  comments Demo.store_thread !! "c1" = Some Demo.root
  ∧ (Demo.bob ∉ Comment.likes Demo.root)
  ∧ answer (toggleCommentLike acceptAll Demo.bob "c1")
      (after (toggleCommentLike acceptAll Demo.bob "c1") Demo.store_thread)
    = inr (mkLikeData false 0)
  ∧ comments (after (toggleCommentLike acceptAll Demo.bob "c1")
                (after (toggleCommentLike acceptAll Demo.bob "c1") Demo.store_thread))
    = comments Demo.store_thread.
Proof.
  assert (Hc : comments Demo.store_thread !! "c1" = Some Demo.root) by reflexivity.
  assert (Hnin : Demo.bob ∉ Comment.likes Demo.root) by (simpl; apply not_elem_of_nil).
  split; [exact Hc|]. split; [exact Hnin|].
  destruct (toggleCommentLike_twice_restores acceptAll Demo.bob "c1" Demo.store_thread
              Demo.root Hc Hnin eq_refl) as (_ & H2 & H3 & _).
  split; [exact H2|exact H3].
Defined.

(** * The engagement controllers under the notification schema *)

(** ** A first rating and the one after it *)

Lemma findIndex_rating_pushed (l : list Rating.t) (x : Rating.t) (u : ObjectId) :
  Rating.userId x = u →
  u ∉ Rating.userId <$> l →
  findIndex (λ r, same (Rating.userId r) u) (l ++ [x]) = Some (length l).
Proof.
  intros Hx. unfold findIndex. induction l as [|y l IH]; intros Hnin; simpl.
  - rewrite decide_True by (apply same_true; exact Hx). reflexivity.
  - rewrite fmap_cons in Hnin. apply not_elem_of_cons in Hnin as [Hne Hnin].
    rewrite decide_False by (intros Hy; apply same_true in Hy; congruence).
    specialize (IH Hnin).
    destruct (list_find (λ r, same (Rating.userId r) u = true) (l ++ [x])) as [[j z]|];
      simplify_eq/=. reflexivity.
Qed.

Lemma alter_pushed {A} (f : A → A) (l : list A) (x : A) :
  alter f (length l) (l ++ [x]) = l ++ [f x].
Proof. induction l as [|y l IH]; simpl; [reflexivity|]. f_equal. exact IH. Qed.

Section FirstRating.
Context (schemaAccepts : Notification.t → bool).

(** A first rating is appended, unless its notification is refused. *)
Lemma rateRecipe_first u rid v now s recipe :
  recipes s !! rid = Some recipe →
  (1 ≤ v ≤ 5)%Z →
  u ∉ Rating.userId <$> Recipe.ratings recipe →
  let recipe' :=
    Recipe.with_ratings (Recipe.ratings recipe ++ [Rating.mk u v None now]) recipe in
  let d := mkRateData (averageRating recipe') (ratingsCount recipe') in
  rateRecipe schemaAccepts u rid v now s
  = if same (Recipe.author recipe) u
    then (with_recipes <[rid := recipe']> s, inr d)
    else if schemaAccepts (ratingNotification u rid recipe)
    then (with_recipes <[rid := recipe']>
            (with_notifications (λ l, l ++ [ratingNotification u rid recipe]) s),
          inr d)
    else (s, inl (mkError MongooseValidationError "Notification validation failed")).
Proof.
  intros Hr Hv Hu recipe' d. unfold rateRecipe.
  assert ((bool_decide (v = 0%Z) || (v <? 1)%Z || (5 <? v)%Z) = false) as ->.
  { rewrite !orb_false_iff, bool_decide_eq_false, !Z.ltb_ge. lia. }
  unfold_model. unfold_m. rewrite Hr.
  destruct (findIndex (λ r, same (Rating.userId r) u) (Recipe.ratings recipe))
    as [i|] eqn:E.
  - apply findIndex_Some in E as (x & Hi & Hx & _). apply same_true in Hx.
    exfalso. apply Hu. apply list_elem_of_fmap. exists x. split; [auto|].
    eapply list_elem_of_lookup_2; eauto.
  - simpl. unfold ratingNotification.
    destruct (same (Recipe.author recipe) u); simpl; [reflexivity|].
    destruct (schemaAccepts _); reflexivity.
Qed.

(** The call after it rewrites the entry where it stands. *)
Lemma rateRecipe_again u rid v now s recipe old :
  recipes s !! rid = Some recipe →
  (1 ≤ v ≤ 5)%Z →
  u ∉ Rating.userId <$> Recipe.ratings recipe →
  let s1 := with_recipes
              <[rid := Recipe.with_ratings (Recipe.ratings recipe ++ [old]) recipe]> s in
  Rating.userId old = u →
  after (rateRecipe schemaAccepts u rid v now) s1
  = with_recipes
      <[rid := Recipe.with_ratings
                 (Recipe.ratings recipe ++ [Rating.mk u v (Rating.review old) now])
                 recipe]> s.
Proof.
  intros Hr Hv Hu s1 Hold. unfold after, rateRecipe.
  assert ((bool_decide (v = 0%Z) || (v <? 1)%Z || (5 <? v)%Z) = false) as ->.
  { rewrite !orb_false_iff, bool_decide_eq_false, !Z.ltb_ge. lia. }
  unfold_model. unfold_m. subst s1. simpl. rewrite lookup_insert_eq. simpl.
  rewrite (findIndex_rating_pushed _ old u Hold Hu). simpl.
  rewrite alter_pushed. rewrite Hold. unfold with_recipes. simpl.
  rewrite insert_insert_eq. reflexivity.
Qed.
End FirstRating.

(** Under the schema of the repository, a rate call by someone other than
    the author, who has no entry, leaves the store as it was. *)
Lemma rateRecipe_leaves_the_store u rid v now s recipe :
  recipes s !! rid = Some recipe →
  Recipe.author recipe ≠ u →
  u ∉ Rating.userId <$> Recipe.ratings recipe →
  after (rateRecipe notificationSchemaAccepts u rid v now) s = s.
Proof.
  intros Hr Ha Hu. unfold after.
  destruct (decide (1 ≤ v ≤ 5)%Z) as [Hv|Hv].
  - rewrite (rateRecipe_refused _ notificationSchemaAccepts_never u rid v now s recipe
               Hr Hv Ha Hu). reflexivity.
  - unfold rateRecipe.
    assert ((bool_decide (v = 0%Z) || (v <? 1)%Z || (5 <? v)%Z) = true) as ->.
    { rewrite !orb_true_iff, bool_decide_eq_true, !Z.ltb_lt. lia. }
    reflexivity.
Qed.

(** C2. Where the code leaves the claim. A first rating that is not
    refused is appended, and the call after it rewrites that entry where it
    stands, so the list holds the second value once. The schema of the
    repository refuses the notification of every first rating by someone
    other than the author, and the controller creates the notification
    before it saves: each such call answers with the validation error and
    no number of them stores an entry, so there is no first entry for the
    second call to overwrite. On alice's unrated recipe, bob's ratings 5
    and then 4 both fail and the ratings stay empty. *)
Theorem rateRecipe_first_rating_refused :
  (∀ (schemaAccepts : Notification.t → bool) u rid v1 t1 v2 t2 s recipe,
     recipes s !! rid = Some recipe →
     (1 ≤ v1 ≤ 5)%Z → (1 ≤ v2 ≤ 5)%Z →
     u ∉ Rating.userId <$> Recipe.ratings recipe →
     Recipe.author recipe = u ∨ schemaAccepts (ratingNotification u rid recipe) = true →
     let s1 := after (rateRecipe schemaAccepts u rid v1 t1) s in
     let s2 := after (rateRecipe schemaAccepts u rid v2 t2) s1 in
     recipes s1 !! rid
     = Some (Recipe.with_ratings (Recipe.ratings recipe ++ [Rating.mk u v1 None t1]) recipe)
     ∧ recipes s2 !! rid
       = Some (Recipe.with_ratings (Recipe.ratings recipe ++ [Rating.mk u v2 None t2])
                 recipe))
  ∧ (∀ u rid s recipe (calls : list (Z * Date)),
       recipes s !! rid = Some recipe →
       Recipe.author recipe ≠ u →
       u ∉ Rating.userId <$> Recipe.ratings recipe →
       foldl (λ st c, after (rateRecipe notificationSchemaAccepts u rid c.1 c.2) st) s calls
       = s
       ∧ ∀ v now, (1 ≤ v ≤ 5)%Z →
           answer (rateRecipe notificationSchemaAccepts u rid v now) s
           = inl (mkError MongooseValidationError "Notification validation failed"))
  ∧ recipes Demo.store !! "r1" = Some Demo.pasta
  ∧ Recipe.author Demo.pasta = Demo.alice
  ∧ answer (rateRecipe notificationSchemaAccepts Demo.bob "r1" 5 10%Z) Demo.store
    = inl (mkError MongooseValidationError "Notification validation failed")
  ∧ answer (rateRecipe notificationSchemaAccepts Demo.bob "r1" 4 20%Z)
      (after (rateRecipe notificationSchemaAccepts Demo.bob "r1" 5 10%Z) Demo.store)
    = inl (mkError MongooseValidationError "Notification validation failed")
  ∧ Recipe.ratings
      <$> recipes (after (rateRecipe notificationSchemaAccepts Demo.bob "r1" 4 20%Z)
                     (after (rateRecipe notificationSchemaAccepts Demo.bob "r1" 5 10%Z)
                        Demo.store)) !! "r1"
    = Some [].
Proof.
  split_and!.
  - intros schemaAccepts u rid v1 t1 v2 t2 s recipe Hr Hv1 Hv2 Hu Hok s1 s2.
    set (first := Recipe.with_ratings
                    (Recipe.ratings recipe ++ [Rating.mk u v1 None t1]) recipe).
    assert (Hs1 : ∃ st, recipes st !! rid = Some recipe
                        ∧ s1 = with_recipes <[rid := first]> st).
    { subst s1. unfold after.
      rewrite (rateRecipe_first schemaAccepts u rid v1 t1 s recipe Hr Hv1 Hu).
      destruct (same (Recipe.author recipe) u) eqn:Hself.
      - exists s. split; [exact Hr|reflexivity].
      - destruct Hok as [Hok|Hok]; [apply same_false in Hself; contradiction|].
        rewrite Hok.
        exists (with_notifications (λ l, l ++ [ratingNotification u rid recipe]) s).
        split; [exact Hr|reflexivity]. }
    destruct Hs1 as (st & Hst & Es1). subst s2. rewrite Es1.
    split; [apply lookup_insert_eq|].
    unfold first.
    rewrite (rateRecipe_again schemaAccepts u rid v2 t2 st recipe
               (Rating.mk u v1 None t1) Hst Hv2 Hu eq_refl).
    apply lookup_insert_eq.
  - intros u rid s recipe calls Hr Ha Hu. split.
    + induction calls as [|c calls IH]; [reflexivity|]. simpl.
      rewrite (rateRecipe_leaves_the_store u rid c.1 c.2 s recipe Hr Ha Hu). exact IH.
    + intros v now Hv. unfold answer.
      rewrite (rateRecipe_refused _ notificationSchemaAccepts_never u rid v now s recipe
                 Hr Hv Ha Hu). reflexivity.
  - reflexivity.
  - reflexivity.
  - vm_compute. reflexivity.
  - vm_compute. reflexivity.
  - vm_compute. reflexivity.
Qed.

(** ** Unliking and liking again *)

(** C4. Where the code leaves the claim. Under the schema of the
    repository, a user other than the author who has liked a recipe and
    toggles twice does not get the like back: the first call removes it and
    saves; the second asks for a like notification, which the schema
    refuses, and throws before the recipe is saved. The recipe ends without
    the user's like and with one like fewer than it started with. On
    alice's recipe liked by bob, bob's two toggles leave no like. *)
Theorem toggleLikeRecipe_relike_refused :
  (∀ u rid s recipe,
     recipes s !! rid = Some recipe →
     Recipe.author recipe ≠ u →
     u ∈ Recipe.likes recipe →
     NoDup (Recipe.likes recipe) →
     let toggle := toggleLikeRecipe notificationSchemaAccepts u rid in
     let s1 := after toggle s in
     let s2 := after toggle s1 in
     (∃ d1, answer toggle s = inr d1 ∧ ld_isLiked d1 = false)
     ∧ answer toggle s1
       = inl (mkError MongooseValidationError "Notification validation failed")
     ∧ s2 = s1
     ∧ ∃ recipe2, recipes s2 !! rid = Some recipe2
                  ∧ (u ∉ Recipe.likes recipe2)
                  ∧ likesCount recipe2 = (likesCount recipe - 1)%Z)
  ∧ recipes Liked.store !! "r1" = Some Liked.pasta
  ∧ Recipe.author Liked.pasta = Demo.alice
  ∧ Recipe.likes Liked.pasta = [Demo.bob]
  ∧ answer (toggleLikeRecipe notificationSchemaAccepts Demo.bob "r1") Liked.store
    = inr (mkLikeData false 0)
  ∧ answer (toggleLikeRecipe notificationSchemaAccepts Demo.bob "r1")
      (after (toggleLikeRecipe notificationSchemaAccepts Demo.bob "r1") Liked.store)
    = inl (mkError MongooseValidationError "Notification validation failed")
  ∧ Recipe.likes
      <$> recipes (after (toggleLikeRecipe notificationSchemaAccepts Demo.bob "r1")
                     (after (toggleLikeRecipe notificationSchemaAccepts Demo.bob "r1")
                        Liked.store)) !! "r1"
    = Some [].
Proof.
  split_and!.
  - intros u rid s recipe Hr Ha Hin Hnd toggle s1 s2.
    destruct (findIndex (λ id, same id u) (Recipe.likes recipe)) as [i|] eqn:Hi.
    2:{ apply findIndex_same_None in Hi. contradiction. }
    pose proof (findIndex_same_Some _ _ _ Hi) as Hu.
    set (recipe1 := Recipe.with_likes (delete i (Recipe.likes recipe)) recipe).
    assert (E1 : toggle s
                 = (with_recipes <[rid := recipe1]> s,
                    inr (mkLikeData false (likesCount recipe1))))
      by apply (toggleLikeRecipe_unlikes notificationSchemaAccepts u rid s recipe i Hr Hi).
    assert (Hs1 : s1 = with_recipes <[rid := recipe1]> s)
      by (subst s1; unfold after; rewrite E1; reflexivity).
    assert (Hr1 : recipes s1 !! rid = Some recipe1)
      by (rewrite Hs1; apply lookup_insert_eq).
    assert (Hout : u ∉ Recipe.likes recipe1)
      by (simpl; eapply NoDup_delete_not_elem; eauto).
    assert (E2 : toggle s1
                 = (s1, inl (mkError MongooseValidationError
                               "Notification validation failed")))
      by apply (toggleLikeRecipe_refused _ notificationSchemaAccepts_never
                  u rid s1 recipe1 Hr1 Ha Hout).
    split_and!.
    + exists (mkLikeData false (likesCount recipe1)). unfold answer. rewrite E1.
      split; reflexivity.
    + unfold answer. rewrite E2. reflexivity.
    + subst s2. unfold after. rewrite E2. reflexivity.
    + exists recipe1. subst s2. unfold after. rewrite E2. simpl.
      split_and!; [exact Hr1|exact Hout|].
      unfold likesCount. simpl. rewrite length_delete by eauto.
      apply list_elem_of_lookup_2 in Hu as Hin'.
      destruct (Recipe.likes recipe); [inversion Hin'|]. simpl length. lia.
  - reflexivity.
  - reflexivity.
  - reflexivity.
  - vm_compute. reflexivity.
  - vm_compute. reflexivity.
  - vm_compute. reflexivity.
Qed.

(** ** The one writer of the user lists outside the social controllers *)

Lemma updateProfile_stored a body s ua :
  users s !! a = Some ua →
  let ua' := User.mk (User.username ua)
               (default (User.following ua) (body_following body))
               (default (User.followers ua) (body_followers body))
               (default (User.favoriteRecipes ua) (body_favoriteRecipes body)) in
  updateProfile a body s = (with_users <[a := ua']> s, inr ua').
Proof.
  intros Ha ua'. unfold updateProfile. unfold_model. unfold_m. simpl.
  rewrite lookup_alter_eq, Ha. simpl. fold ua'.
  unfold with_users. simpl. f_equal. f_equal.
  apply map_eq. intros k. destruct (decide (k = a)) as [->|Hk].
  - rewrite lookup_alter_eq, lookup_insert_eq, Ha. reflexivity.
  - rewrite lookup_alter_ne, lookup_insert_ne by congruence. reflexivity.
Qed.

(** X2. The follow relation is two-sided as long as only the twelve
    controllers of [Request] write: from a store in which, among stored
    users, [b] is in [a.following] exactly when [a] is in [b.followers],
    every run of them leads to such a store, whatever they answer.
    [updateProfile] is not one of them and does not keep it: it writes the
    body's [following] to the caller alone, so naming a stored user who
    does not have the caller among the followers makes the relation
    one-sided. *)
Theorem follow_symmetric_but_for_updateProfile :
  (∀ (schemaAccepts : Notification.t → bool) reqs s,
     follow_symmetric (users s) →
     follow_symmetric (users (run schemaAccepts reqs s)))
  ∧ (∀ a b s ua ub,
       users s !! a = Some ua →
       users s !! b = Some ub →
       a ∉ User.followers ub →
       let body := mkProfileBody (Some [b]) None None in
       (∃ ua', answer (updateProfile a body) s = inr ua' ∧ User.following ua' = [b])
       ∧ ¬ follow_symmetric (users (after (updateProfile a body) s)))
  ∧ follow_symmetric (users Demo.store)
  ∧ ¬ follow_symmetric
        (users (after (updateProfile Demo.alice (mkProfileBody (Some [Demo.bob]) None None))
                  Demo.store)).
Proof.
  assert (Hbreaks : ∀ a b s ua ub,
            users s !! a = Some ua →
            users s !! b = Some ub →
            a ∉ User.followers ub →
            ¬ follow_symmetric
                (users (after (updateProfile a (mkProfileBody (Some [b]) None None)) s))).
  { intros a b s ua ub Ha Hb Hnin Hsym. unfold after in Hsym.
    rewrite (updateProfile_stored a _ s ua Ha) in Hsym. simpl in Hsym.
    set (ua' := User.mk (User.username ua) [b] (User.followers ua)
                  (User.favoriteRecipes ua)) in *.
    destruct (decide (b = a)) as [->|Hne].
    - assert (ub = ua) by congruence. subst ub.
      apply Hnin.
      apply (proj1 (Hsym a a ua' ua' (lookup_insert_eq _ _ _) (lookup_insert_eq _ _ _))).
      simpl. left.
    - apply Hnin.
      assert (Hb' : <[a := ua']> (users s) !! b = Some ub)
        by (rewrite lookup_insert_ne by congruence; exact Hb).
      apply (proj1 (Hsym a b ua' ub (lookup_insert_eq _ _ _) Hb')).
      simpl. left. }
  split_and!.
  - intros schemaAccepts reqs s. apply run_keeps_follow_symmetric.
  - intros a b s ua ub Ha Hb Hnin body. split.
    + eexists. unfold answer. rewrite (updateProfile_stored a body s ua Ha).
      split; reflexivity.
    + eapply Hbreaks; eauto.
  - exact (proj1 run_keeps_follow_symmetric_witness).
  - apply (Hbreaks Demo.alice Demo.bob Demo.store (Demo.user "alice") (Demo.user "bob")).
    + reflexivity.
    + reflexivity.
    + simpl. apply not_elem_of_nil.
Qed.

(** X3. The twelve controllers of [Request] repeat no id in a user's
    following, followers or favorites: from a store whose users have no
    repeats in these three lists, every run of them leads to such a store.
    [updateProfile] is not one of them and does not keep it: it stores the
    lists of the body as they come, repeats included. *)
Theorem user_lists_NoDup_but_for_updateProfile :
  (∀ (schemaAccepts : Notification.t → bool) reqs s,
     user_lists_NoDup (users s) →
     user_lists_NoDup (users (run schemaAccepts reqs s)))
  ∧ (∀ a r s ua,
       users s !! a = Some ua →
       let body := mkProfileBody None None (Some [r; r]) in
       (∃ ua', answer (updateProfile a body) s = inr ua'
               ∧ User.favoriteRecipes ua' = [r; r]
               ∧ User.following ua' = User.following ua
               ∧ User.followers ua' = User.followers ua)
       ∧ ¬ user_lists_NoDup (users (after (updateProfile a body) s)))
  ∧ user_lists_NoDup (users Demo.store_following)
  ∧ ¬ user_lists_NoDup
        (users (after (updateProfile Demo.bob (mkProfileBody None None (Some ["r1"; "r1"])))
                  Demo.store_following)).
Proof.
  assert (Hbreaks : ∀ a r s ua,
            users s !! a = Some ua →
            ¬ user_lists_NoDup
                (users (after (updateProfile a (mkProfileBody None None (Some [r; r]))) s))).
  { intros a r s ua Ha Hnd. unfold after in Hnd.
    rewrite (updateProfile_stored a _ s ua Ha) in Hnd. simpl in Hnd.
    destruct (Hnd a _ (lookup_insert_eq _ _ _)) as (_ & _ & Hfav). simpl in Hfav.
    apply NoDup_cons in Hfav as [Hfav _]. apply Hfav. left. }
  split_and!.
  - intros schemaAccepts reqs s. apply run_keeps_user_lists_NoDup.
  - intros a r s ua Ha body. split.
    + eexists. unfold answer. rewrite (updateProfile_stored a body s ua Ha).
      split_and!; reflexivity.
    + eapply Hbreaks; eauto.
  - exact (proj1 run_keeps_user_lists_NoDup_witness).
  - apply (Hbreaks Demo.bob "r1" Demo.store_following
             (User.mk "bob" [Demo.alice] [] ["r1"])).
    reflexivity.
Qed.
